(** * MCP SSE server: protocol engine, connection manager, upstream client

    A shallow embedding of the Python sources
      - [src/mcp_protocol.py]  (class [MCPProtocolHandler]),
      - [src/sse_handler.py]   (classes [SSEConnectionManager], [SSEHandler]),
      - [src/api_client.py]    (class [ABCSystemClient]),
      - [src/models.py]        (the pydantic records they exchange),
    together with the properties of the specification that concern them.

    Conventions.  A Python object that came out of [json.loads] is a [json]
    value ([None] is [JNull]).  A Python exception is a value of [exn]; a
    computation that may raise has type [result A].  Mutable attributes of
    [self] are threaded explicitly.  Clock readings ([datetime.utcnow()]) are
    arguments.  Library code that is not part of the repository ([json],
    pydantic, tenacity's message texts) is an interface: a type class whose
    fields are the library functions and whose laws are the few facts about
    them the development uses. *)

From Stdlib Require Import ZArith String List Lia Bool DecimalString.
From stdpp Require Import gmap strings.

Set Warnings "-register-all".
Open Scope Z_scope.

(** ** Python values and exceptions *)

Inductive json : Type :=
| JNull
| JBool (b : bool)
| JInt (n : Z)
| JFloat (mantissa exponent : Z)
| JStr (s : string)
| JArr (items : list json)
| JObj (fields : list (string * json)).

(** A [dict] with string keys, read by first match. *)
Fixpoint assoc {A : Type} (k : string) (l : list (string * A)) : option A :=
  match l with
  | [] => None
  | (k', v) :: rest => if String.eqb k k' then Some v else assoc k rest
  end.

(** [d[k] = v] on a dict: the position of an existing key is kept. *)
Fixpoint assoc_set {A : Type} (k : string) (v : A) (l : list (string * A))
  : list (string * A) :=
  match l with
  | [] => [(k, v)]
  | (k', v') :: rest =>
      if String.eqb k k' then (k, v) :: rest else (k', v') :: assoc_set k v rest
  end.

Definition dec (z : Z) : string := NilZero.string_of_int (Z.to_int z).

Inductive exn : Type :=
| PyException (msg : string)          (* raise Exception(msg) *)
| AttributeError (msg : string)
| TypeError (msg : string)
| ValueError (msg : string)
| ValidationError (msg : string)      (* pydantic *)
| APIError (status_code : Z) (message : string) (response : json)
| ClientError (msg : string)          (* aiohttp.ClientError and subclasses *)
| TimeoutError                        (* asyncio.TimeoutError *)
| RetryError (msg : string).          (* tenacity.RetryError *)

(** [str(e)]. [APIError.__init__] passes
    [f"API Error {status_code}: {message}"] to [Exception.__init__]. *)
Definition exn_str (e : exn) : string :=
  match e with
  | PyException m | AttributeError m | TypeError m | ValueError m
  | ValidationError m | ClientError m | RetryError m => m
  | APIError c m _ => "API Error " +:+ dec c +:+ ": " +:+ m
  | TimeoutError => ""
  end.

Inductive result (A : Type) : Type :=
| Ok (a : A)
| Raise (e : exn).
Arguments Ok {A} a.
Arguments Raise {A} e.

Definition bind {A B : Type} (c : result A) (k : A -> result B) : result B :=
  match c with
  | Ok a => k a
  | Raise e => Raise e
  end.

Notation "'let*' x := c 'in' k" := (bind c (fun x => k))
  (at level 10, x name, c at level 100, k at level 200).

(** [try: c  except Exception as e: h(e)] *)
Definition try_except {A : Type} (c : result A) (h : exn -> result A) : result A :=
  match c with
  | Ok a => Ok a
  | Raise e => h e
  end.

Definition type_name (j : json) : string :=
  match j with
  | JNull => "NoneType"
  | JBool _ => "bool"
  | JInt _ => "int"
  | JFloat _ _ => "float"
  | JStr _ => "str"
  | JArr _ => "list"
  | JObj _ => "dict"
  end.

(** [d.get(key, default)] on a dict. *)
Definition get_or (key : string) (fields : list (string * json)) (default : json)
  : json :=
  match assoc key fields with Some v => v | None => default end.

(** The exception of [obj.get] when [obj] is not a dict. *)
Definition no_get (obj : json) : exn :=
  AttributeError ("'" +:+ type_name obj +:+ "' object has no attribute 'get'").

(** [obj.get(key, default)]: only a dict has [get]. *)
Definition py_get (obj : json) (key : string) (default : json) : result json :=
  match obj with
  | JObj fields => Ok (get_or key fields default)
  | _ => Raise (no_get obj)
  end.

(** [key in obj] for a dict. *)
Definition py_in (key : string) (fields : list (string * json)) : bool :=
  match assoc key fields with Some _ => true | None => false end.

(** [obj == "literal"]: a non-string never equals a string. *)
Definition str_is (obj : json) (lit : string) : bool :=
  match obj with
  | JStr s => String.eqb s lit
  | _ => false
  end.

(** ** models.py: the protocol records *)

Inductive rpc_id : Type :=       (* Union[str, int] *)
| IdStr (s : string)
| IdInt (n : Z).

(** The ids of the data model: exactly a JSON string or a JSON integer. *)
Definition as_rpc_id (j : json) : option rpc_id :=
  match j with
  | JStr s => Some (IdStr s)
  | JInt n => Some (IdInt n)
  | _ => None
  end.

Record MCPError : Type := {
  code : Z;
  message : string;
  data : option json
}.

Record MCPResponse : Type := {
  jsonrpc : string;
  id : rpc_id;
  result_ : option json;
  error : option MCPError
}.

Record ToolInputSchema : Type := {
  schema_type : string;
  properties : json;
  required : list string
}.

Record ToolDefinition : Type := {
  name : string;
  description : string;
  inputSchema : ToolInputSchema
}.

(** [ToolDefinition.model_dump()] *)
Definition ToolDefinition_dump (d : ToolDefinition) : json :=
  JObj [("name", JStr (name d));
        ("description", JStr (description d));
        ("inputSchema",
          JObj [("type", JStr (schema_type (inputSchema d)));
                ("properties", properties (inputSchema d));
                ("required", JArr (map JStr (required (inputSchema d))))])].

(** [InitializeResult(...).model_dump()] with the arguments of
    [_handle_initialize]. *)
Definition InitializeResult_dump : json :=
  JObj [("protocolVersion", JStr "2024-11-05");
        ("capabilities",
          JObj [("tools", JObj [("list", JBool true); ("call", JBool true)]);
                ("resources", JObj []);
                ("prompts", JObj []);
                ("logging", JObj [])]);
        ("serverInfo",
          JObj [("name", JStr "mcp-sse-server-python");
                ("version", JStr "1.0.0")])].

(** ** The libraries the engine calls *)

Class Runtime : Type := {
  (** [json.loads]; [None] stands for [json.JSONDecodeError]. *)
  json_loads : string -> option json;
  (** [json.dumps(result, indent=2, default=str)] *)
  json_dumps : json -> string;
  (** [str(x)] as used by f-strings. *)
  py_str : json -> string;
  py_str_str : forall s, py_str (JStr s) = s;
  (** pydantic's validation of a value against [Union[str, int]]. *)
  validate_id : json -> option rpc_id;
  validate_id_typed : forall j i, as_rpc_id j = Some i -> validate_id j = Some i;
  validate_id_null : validate_id JNull = None;
  validate_id_list : forall l, validate_id (JArr l) = None;
  validate_id_dict : forall o, validate_id (JObj o) = None;
  (** The text of the [ValidationError] raised for a rejected id. *)
  validation_error_str : json -> string
}.

(** ** mcp_protocol.py *)

Module Engine.

Record tool : Type := {
  definition : ToolDefinition;
  (** an awaited handler either returns a JSON-serialisable value or raises *)
  handler : json -> result json
}.

Record MCPProtocolHandler : Type := {
  tools : list (string * tool);
  initialized : bool;
  client_info : json;
  session_id : string
}.

(** [__init__]; the uuid is an argument. *)
Definition init (uuid : string) : MCPProtocolHandler :=
  {| tools := []; initialized := false; client_info := JNull; session_id := uuid |}.

Definition register_tool (self : MCPProtocolHandler) (nm descr : string)
    (input_schema : ToolInputSchema) (h : json -> result json)
  : MCPProtocolHandler :=
  {| tools := assoc_set nm
                {| definition := {| name := nm; description := descr;
                                    inputSchema := input_schema |};
                   handler := h |}
                (tools self);
     initialized := initialized self;
     client_info := client_info self;
     session_id := session_id self |}.

(** What [handle_message] returns: the empty string, or the
    [model_dump_json()] of a response (a JSON object text, never empty). *)
Inductive wire : Type :=
| Silent
| Reply (r : MCPResponse).

Definition is_empty (w : wire) : bool :=
  match w with Silent => true | Reply _ => false end.

Section WithRuntime.
Context {R : Runtime}.

(** [MCPResponse(id=..., ...)]: the id is validated. *)
Definition MCPResponse_new (request_id : json) (res : option json)
    (err : option MCPError) : result MCPResponse :=
  match validate_id request_id with
  | Some i => Ok {| jsonrpc := "2.0"; id := i; result_ := res; error := err |}
  | None => Raise (ValidationError (validation_error_str request_id))
  end.

Definition _error_response (request_id : json) (c : Z) (msg : string)
  : result wire :=
  let err := {| code := c; message := msg; data := None |} in
  match request_id with
  | JNull =>
      Ok (Reply {| jsonrpc := "2.0"; id := IdInt 0; result_ := None;
                   error := Some err |})
  | _ =>
      let* r := MCPResponse_new request_id None (Some err) in
      Ok (Reply r)
  end.

Definition _handle_initialize (self : MCPProtocolHandler) (params : json)
  : result json * MCPProtocolHandler :=
  let self' := {| tools := tools self; initialized := true;
                  client_info := params; session_id := session_id self |} in
  (let* _ := py_get params "clientInfo" (JObj []) in Ok InitializeResult_dump, self').

Definition _handle_tools_list (self : MCPProtocolHandler) (params : json)
  : result json :=
  if negb (initialized self) then Raise (PyException "Server not initialized")
  else
    Ok (JObj [("tools",
               JArr (map (fun kv => ToolDefinition_dump (definition (snd kv)))
                         (tools self)))]).

(** [tool_name not in self.tools] followed by [self.tools[tool_name]]:
    a list or dict is unhashable, any other non-string is simply absent. *)
Definition tools_lookup (self : MCPProtocolHandler) (tool_name : json)
  : result (option tool) :=
  match tool_name with
  | JStr s => Ok (assoc s (tools self))
  | JArr _ | JObj _ =>
      Raise (TypeError ("unhashable type: '" +:+ type_name tool_name +:+ "'"))
  | _ => Ok None
  end.

Definition text_content (text : string) (is_error : bool) : json :=
  JObj [("content", JArr [JObj [("type", JStr "text"); ("text", JStr text)]]);
        ("isError", JBool is_error)].

Definition _handle_tools_call (self : MCPProtocolHandler) (params : json)
  : result json :=
  if negb (initialized self) then Raise (PyException "Server not initialized")
  else
    let* tool_name := py_get params "name" JNull in
    let* tool_params := py_get params "arguments" (JObj []) in
    let* found := tools_lookup self tool_name in
    match found with
    | None => Raise (PyException ("Tool not found: " +:+ py_str tool_name))
    | Some t =>
        try_except
          (let* r := handler t tool_params in
           Ok (text_content (json_dumps r) false))
          (fun e =>
             Ok (text_content ("Error executing tool: " +:+ exn_str e) true))
    end.

Definition pong (now : string) : json :=
  JObj [("status", JStr "pong"); ("timestamp", JStr now)].

(** The [try] block of [_handle_request]. *)
Definition _handle_request_body (self : MCPProtocolHandler) (now : string)
    (request_id method params : json) : result wire * MCPProtocolHandler :=
  let success (res : result json) : result wire :=
    let* r := res in
    let* resp := MCPResponse_new request_id (Some r) None in
    Ok (Reply resp) in
  if str_is method "initialize" then
    let '(res, self') := _handle_initialize self params in
    (success res, self')
  else if str_is method "initialized" then (Ok Silent, self)
  else if str_is method "tools/list" then
    (success (_handle_tools_list self params), self)
  else if str_is method "tools/call" then
    (success (_handle_tools_call self params), self)
  else if str_is method "ping" then (success (Ok (pong now)), self)
  else
    (_error_response request_id (-32601) ("Method not found: " +:+ py_str method),
     self).

Definition _handle_request (self : MCPProtocolHandler) (now : string)
    (fields : list (string * json)) : result wire * MCPProtocolHandler :=
  let request_id := get_or "id" fields JNull in
  let method := get_or "method" fields JNull in
  let params := get_or "params" fields (JObj []) in
  let '(res, self') := _handle_request_body self now request_id method params in
  (try_except res
     (fun e => _error_response request_id (-32603)
                 ("Internal error: " +:+ exn_str e)),
   self').

Definition _handle_notification (fields : list (string * json)) : result unit :=
  let method := get_or "method" fields JNull in
  let params := get_or "params" fields (JObj []) in
  if str_is method "notifications/cancelled" then
    let* _ := py_get params "id" JNull in Ok tt
  else Ok tt.

(** The [try] block of [handle_message], after [json.loads] succeeded. *)
Definition handle_decoded (self : MCPProtocolHandler) (now : string)
    (msg : json) : result wire * MCPProtocolHandler :=
  match msg with
  | JObj fields =>
      if negb (str_is (get_or "jsonrpc" fields JNull) "2.0") then
        (_error_response (get_or "id" fields JNull)
           (-32600) "Invalid JSON-RPC version",
         self)
      else if py_in "id" fields then _handle_request self now fields
      else (let* _ := _handle_notification fields in Ok Silent, self)
  | _ => (Raise (no_get msg), self)      (* [message.get] on a non-dict *)
  end.

Definition handle_message (self : MCPProtocolHandler) (now : string)
    (message_str : string) : result wire * MCPProtocolHandler :=
  match json_loads message_str with
  | None => (_error_response JNull (-32700) "Parse error", self)
  | Some msg =>
      let '(res, self') := handle_decoded self now msg in
      (try_except res
         (fun e => _error_response JNull (-32603)
                     ("Internal error: " +:+ exn_str e)),
       self')
  end.

End WithRuntime.
End Engine.

(** ** sse_handler.py: the connection manager *)

Module Sessions.

Record SSEConfig : Type := {
  heartbeat_interval : Z;
  reconnect_timeout : Z;
  max_connections : Z
}.

(** The [Field(..., ge=1)] constraints of [SSEConfig]. *)
Definition SSEConfig_valid (c : SSEConfig) : Prop :=
  1 <= heartbeat_interval c /\ 1 <= reconnect_timeout c /\ 1 <= max_connections c.

(** A value of [active_connections]; times are clock readings. *)
Record connection : Type := {
  conn_id : string;
  connected_at : Z;
  last_heartbeat : Z;
  messages_sent : Z
}.

Record SSEConnectionManager : Type := {
  config : SSEConfig;
  active_connections : gmap string connection
}.

Definition init (sse_config : SSEConfig) : SSEConnectionManager :=
  {| config := sse_config; active_connections := ∅ |}.

(** [len(self.active_connections)] *)
Definition len (self : SSEConnectionManager) : Z :=
  Z.of_nat (size (active_connections self)).

Definition with_connections (self : SSEConnectionManager)
    (m : gmap string connection) : SSEConnectionManager :=
  {| config := config self; active_connections := m |}.

(** [add_connection]; [t_connected] and [t_heartbeat] are the two readings of
    [datetime.utcnow()] in the record literal.  The exception is raised
    before any mutation. *)
Definition add_connection (self : SSEConnectionManager)
    (t_connected t_heartbeat : Z) (connection_id : string)
  : result SSEConnectionManager :=
  if max_connections (config self) <=? len self then
    Raise (PyException ("Max connections reached ("
                        +:+ dec (max_connections (config self)) +:+ ")"))
  else
    Ok (with_connections self
          (<[connection_id :=
               {| conn_id := connection_id; connected_at := t_connected;
                  last_heartbeat := t_heartbeat; messages_sent := 0 |}]>
             (active_connections self))).

Definition remove_connection (self : SSEConnectionManager)
    (connection_id : string) : SSEConnectionManager :=
  match active_connections self !! connection_id with
  | Some _ => with_connections self (delete connection_id (active_connections self))
  | None => self
  end.

Definition update_heartbeat (self : SSEConnectionManager) (now : Z)
    (connection_id : string) : SSEConnectionManager :=
  match active_connections self !! connection_id with
  | Some c =>
      with_connections self
        (<[connection_id :=
             {| conn_id := conn_id c; connected_at := connected_at c;
                last_heartbeat := now; messages_sent := messages_sent c |}]>
           (active_connections self))
  | None => self
  end.

Definition increment_messages (self : SSEConnectionManager)
    (connection_id : string) : SSEConnectionManager :=
  match active_connections self !! connection_id with
  | Some c =>
      with_connections self
        (<[connection_id :=
             {| conn_id := conn_id c; connected_at := connected_at c;
                last_heartbeat := last_heartbeat c;
                messages_sent := messages_sent c + 1 |}]>
           (active_connections self))
  | None => self
  end.

Definition get_connection_info (self : SSEConnectionManager)
    (connection_id : string) : option connection :=
  active_connections self !! connection_id.

(** The states the manager can be in: built from [init] by its methods. *)
Inductive reachable (cfg : SSEConfig) : SSEConnectionManager -> Prop :=
| reach_init : reachable cfg (init cfg)
| reach_add self self' t1 t2 cid :
    reachable cfg self -> add_connection self t1 t2 cid = Ok self' ->
    reachable cfg self'
| reach_remove self cid :
    reachable cfg self -> reachable cfg (remove_connection self cid)
| reach_heartbeat self now cid :
    reachable cfg self -> reachable cfg (update_heartbeat self now cid)
| reach_increment self cid :
    reachable cfg self -> reachable cfg (increment_messages self cid).

End Sessions.

(** ** sse_handler.py: the streaming generator *)

Module Stream.
Import Sessions.

Record ServerSentEvent : Type := {
  event : string;
  sse_data : json          (* the dict handed to [json.dumps] *)
}.

Inductive task : Type := heartbeat_task | processor_task.

(** What [handle_sse_connection] does, in order. *)
Inductive obs : Type :=
| EvAdd (connection_id : string)
| EvYield (ev : ServerSentEvent)
| EvIncrement (connection_id : string)
| EvCreate (t : task)
| EvCancel (t : task)
| EvAwait (t : task)
| EvRemove (connection_id : string).

(** How a block of the coroutine can end other than normally.  Only
    [Raised] is an [Exception]; the other two derive from [BaseException]
    and pass through [except Exception]. *)
Inductive abrupt : Type :=
| Raised (e : exn)
| CancelledError
| GeneratorExit.

Inductive outcome (A : Type) : Type :=
| Normal (a : A)
| Abrupt (s : abrupt).
Arguments Normal {A} a.
Arguments Abrupt {A} s.

(** What the consumer of the generator does at a [yield]: ask for the next
    event, close the generator ([aclose], client disconnect), or throw. *)
Inductive decision : Type :=
| Resume
| Close
| Throw (e : exn).

(** Everything outside the coroutine. *)
Record env : Type := {
  consumer : nat -> decision;        (* by number of the yield *)
  await_interrupted : task -> bool;  (* [await task] raises CancelledError *)
  now : Z;
  now_iso : string;
  uuid : string;
  server_info : json
}.

Record world : Type := {
  manager : SSEConnectionManager;
  trace : list obs;
  yields : nat
}.

Definition gen (A : Type) : Type := world -> outcome A * world.

Definition ret {A : Type} (a : A) : gen A := fun w => (Normal a, w).

Definition seq {A B : Type} (c : gen A) (k : gen B) : gen B :=
  fun w =>
    match c w with
    | (Normal _, w') => k w'
    | (Abrupt s, w') => (Abrupt s, w')
    end.

Notation "c ;; k" := (seq c k) (at level 100, k at level 200, right associativity).

(** [try: body  finally: fin] *)
Definition try_finally {A : Type} (body : gen A) (fin : gen unit) : gen A :=
  fun w =>
    let '(o, w1) := body w in
    match fin w1 with
    | (Normal _, w2) => (o, w2)
    | (Abrupt s, w2) => (Abrupt s, w2)
    end.

(** [try: body  except Exception as e: h(e)] *)
Definition try_except_Exception (body : gen unit) (h : exn -> gen unit) : gen unit :=
  fun w =>
    match body w with
    | (Abrupt (Raised e), w') => h e w'
    | other => other
    end.

(** [try: body  except asyncio.CancelledError: pass] *)
Definition try_except_Cancelled (body : gen unit) : gen unit :=
  fun w =>
    match body w with
    | (Abrupt CancelledError, w') => (Normal tt, w')
    | other => other
    end.

Definition log (o : obs) (w : world) : world :=
  {| manager := manager w; trace := trace w ++ [o]; yields := yields w |}.

Section Generator.
Variable E : env.

Definition add_connection (connection_id : string) : gen unit :=
  fun w =>
    let w := log (EvAdd connection_id) w in
    match Sessions.add_connection (manager w) (now E) (now E) connection_id with
    | Ok m => (Normal tt, {| manager := m; trace := trace w; yields := yields w |})
    | Raise e => (Abrupt (Raised e), w)
    end.

Definition increment_messages (connection_id : string) : gen unit :=
  fun w =>
    let w := log (EvIncrement connection_id) w in
    (Normal tt,
     {| manager := Sessions.increment_messages (manager w) connection_id;
        trace := trace w; yields := yields w |}).

Definition remove_connection (connection_id : string) : gen unit :=
  fun w =>
    let w := log (EvRemove connection_id) w in
    (Normal tt,
     {| manager := Sessions.remove_connection (manager w) connection_id;
        trace := trace w; yields := yields w |}).

(** [yield ev]: the coroutine is suspended; the consumer decides how it is
    resumed. *)
Definition yield (ev : ServerSentEvent) : gen unit :=
  fun w =>
    let w' := {| manager := manager w; trace := trace w ++ [EvYield ev];
                 yields := S (yields w) |} in
    match consumer E (yields w) with
    | Resume => (Normal tt, w')
    | Close => (Abrupt GeneratorExit, w')
    | Throw e => (Abrupt (Raised e), w')
    end.

Definition create_task (t : task) : gen unit :=
  fun w => (Normal tt, log (EvCreate t) w).

Definition cancel (t : task) : gen unit :=
  fun w => (Normal tt, log (EvCancel t) w).

Definition await (t : task) : gen unit :=
  fun w =>
    (if await_interrupted E t then Abrupt CancelledError else Normal tt,
     log (EvAwait t) w).

Definition connection_event (connection_id : string) : ServerSentEvent :=
  {| event := "connection";
     sse_data := JObj [("type", JStr "connection");
                       ("connection_id", JStr connection_id);
                       ("timestamp", JStr (now_iso E));
                       ("server_info", server_info E)] |}.

Definition error_event (e : exn) : ServerSentEvent :=
  {| event := "error";
     sse_data := JObj [("type", JStr "error");
                       ("error", JStr (exn_str e));
                       ("timestamp", JStr (now_iso E))] |}.

(** [async for event in self._stream_messages(...): yield event].
    [outgoing] is what the outgoing queue delivers until the inner generator
    leaves its loop (it does so on [CancelledError] or on an exception, with
    [break]); after each event it yields, the inner generator counts the
    message. *)
Fixpoint stream_messages (connection_id : string)
    (outgoing : list ServerSentEvent) : gen unit :=
  match outgoing with
  | [] => ret tt
  | ev :: rest =>
      yield ev ;; increment_messages connection_id ;;
      stream_messages connection_id rest
  end.

Definition handle_sse_connection (connection_id : option string)
    (outgoing : list ServerSentEvent) : gen unit :=
  let connection_id :=
    match connection_id with Some c => c | None => uuid E end in
  try_finally
    (try_except_Exception
       (add_connection connection_id ;;
        yield (connection_event connection_id) ;;
        increment_messages connection_id ;;
        create_task heartbeat_task ;;
        create_task processor_task ;;
        try_finally
          (stream_messages connection_id outgoing)
          (cancel heartbeat_task ;;
           cancel processor_task ;;
           try_except_Cancelled (await heartbeat_task) ;;
           try_except_Cancelled (await processor_task)))
       (fun e => yield (error_event e)))
    (remove_connection connection_id).

End Generator.

Definition start (m : SSEConnectionManager) : world :=
  {| manager := m; trace := []; yields := 0 |}.

End Stream.

(** ** models.py: the records of the upstream API *)

Record HealthStatus : Type := {
  hs_status : string;
  hs_timestamp : Z;
  hs_services : list (string * string);
  hs_uptime_seconds : option Z
}.

Record UserStatus : Type := {
  us_user_id : string;
  us_username : string;
  us_status : string;
  us_last_login : option Z;
  us_session_count : Z
}.

Record ServiceInfo : Type := {
  si_service_id : string;
  si_name : string;
  si_status : string;
  si_version : string;
  si_endpoints : list string
}.

Record LogEntry : Type := {
  le_timestamp : Z;
  le_level : string;
  le_service : string;
  le_message : string;
  le_metadata : json
}.

(** The [float] fields keep the JSON number they were validated from. *)
Record SystemMetrics : Type := {
  sm_cpu_usage : json;
  sm_memory_usage : json;
  sm_disk_usage : json;
  sm_network_in_mbps : json;
  sm_network_out_mbps : json;
  sm_request_rate : json;
  sm_error_rate : json;
  sm_timestamp : Z
}.

(** [SystemCheckResult]; [execution_time_us] is the elapsed time in
    microseconds, of which [execution_time_ms] is the thousandth. *)
Record SystemCheckResult : Type := {
  health : option HealthStatus;
  users : option (list UserStatus);
  services : option (list ServiceInfo);
  logs : option (list LogEntry);
  metrics : option SystemMetrics;
  timestamp : Z;
  execution_time_us : Z;
  errors : list string
}.

(** ** The libraries the client calls: pydantic constructors (validation of
    the keyword arguments, in the order of the record), [datetime] and
    tenacity's message text. *)

Class Validators : Type := {
  HealthStatus_new : json -> Z -> json -> json -> result HealthStatus;
  UserStatus_new : json -> json -> json -> option Z -> json -> result UserStatus;
  ServiceInfo_new : json -> json -> json -> json -> json -> result ServiceInfo;
  LogEntry_new : Z -> json -> json -> json -> json -> result LogEntry;
  SystemMetrics_new :
    json -> json -> json -> json -> json -> json -> json -> Z ->
    result SystemMetrics;
  (** [LogQueryParams( **params).model_dump()] *)
  LogQueryParams_dump : json -> result json;
  (** [datetime.fromisoformat] and [datetime.isoformat] *)
  fromisoformat : json -> result Z;
  isoformat : Z -> string;
  (** [str] of the [RetryError] that wraps the last exception *)
  retry_error_str : exn -> string
}.

(** ** api_client.py *)

Module Client.

(** One execution of the body of [_request]: what [session.request] and
    [response.json()] produce. *)
Inductive attempt : Type :=
| Responded (status : Z) (reason content_type : string) (body : json)
| Failed (e : exn).

(** The upstream service as the client sees it: per HTTP method, endpoint
    and attempt number. *)
Definition network : Type := string -> string -> nat -> attempt.

(** The body of [_request]. *)
Definition _request_once (a : attempt) : result json :=
  match a with
  | Failed e => Raise e
  | Responded status reason content_type body =>
      let response_data :=
        if String.eqb content_type "application/json" then body else JObj [] in
      if 400 <=? status then
        Raise (APIError status ("Request failed: " +:+ reason) response_data)
      else Ok response_data
  end.

(** [retry_if_exception_type((aiohttp.ClientError, asyncio.TimeoutError))] *)
Definition retry_if_exception_type (e : exn) : bool :=
  match e with
  | ClientError _ | TimeoutError => true
  | _ => false
  end.

(** [stop_after_attempt(3)] *)
Definition stop_after_attempt : nat := 3.

(** [wait_exponential(multiplier=1, min=1, max=10)] after attempt
    [attempt_number]: [max(max(0, min), min(multiplier * 2 ** (n - 1), max))]. *)
Definition wait_exponential (attempt_number : nat) : Z :=
  Z.max (Z.max 0 1) (Z.min (1 * 2 ^ (Z.of_nat attempt_number - 1)) 10).

Record call : Type := {
  outcome : result json;
  attempts : nat;            (* executions of the body *)
  sleeps : list Z            (* seconds slept between them, in order *)
}.

Section WithValidators.
Context {V : Validators}.

(** The loop of the [@retry] decorator from attempt [attempt_number] on,
    with [remaining] attempts left after it. *)
Fixpoint retrying (remaining attempt_number : nat) (net : nat -> attempt) : call :=
  match _request_once (net attempt_number) with
  | Ok response_data =>
      {| outcome := Ok response_data; attempts := attempt_number; sleeps := [] |}
  | Raise e =>
      if retry_if_exception_type e then
        match remaining with
        | O =>
            {| outcome := Raise (RetryError (retry_error_str e));
               attempts := attempt_number; sleeps := [] |}
        | S remaining' =>
            let c := retrying remaining' (S attempt_number) net in
            {| outcome := outcome c; attempts := attempts c;
               sleeps := wait_exponential attempt_number :: sleeps c |}
        end
      else {| outcome := Raise e; attempts := attempt_number; sleeps := [] |}
  end.

Definition _request_call (net : network) (method endpoint : string) : call :=
  retrying (stop_after_attempt - 1) 1 (net method endpoint).

Definition _request (net : network) (method endpoint : string) : result json :=
  outcome (_request_call net method endpoint).

(** [bool(obj)] *)
Definition py_truthy (obj : json) : bool :=
  match obj with
  | JNull => false
  | JBool b => b
  | JInt n => negb (n =? 0)
  | JFloat m _ => negb (m =? 0)
  | JStr s => negb (String.eqb s "")
  | JArr l => match l with [] => false | _ => true end
  | JObj l => match l with [] => false | _ => true end
  end.

(** [for x in obj]: a list gives its items, a dict its keys, a string its
    characters; nothing else is iterable. *)
Definition py_iter (obj : json) : result (list json) :=
  match obj with
  | JArr l => Ok l
  | JObj fields => Ok (map (fun kv => JStr (fst kv)) fields)
  | JStr s => Ok (map (fun c => JStr (String c EmptyString)) (list_ascii_of_string s))
  | _ => Raise (TypeError ("'" +:+ type_name obj +:+ "' object is not iterable"))
  end.

(** A list comprehension whose element expression may raise. *)
Fixpoint comprehension {A B : Type} (f : A -> result B) (l : list A)
  : result (list B) :=
  match l with
  | [] => Ok []
  | x :: rest =>
      let* y := f x in
      let* ys := comprehension f rest in
      Ok (y :: ys)
  end.

(** *** check_health *)

Definition check_health_body (net : network) (now : Z) : result HealthStatus :=
  let* data := _request net "GET" "/api/system/health" in
  let* status := py_get data "status" (JStr "unknown") in
  let* services := py_get data "services" (JObj []) in
  let* uptime := py_get data "uptime_seconds" JNull in
  HealthStatus_new status now services uptime.

Definition unhealthy (e : exn) (now : Z) : HealthStatus :=
  {| hs_status := "unhealthy"; hs_timestamp := now;
     hs_services := [("error", exn_str e)]; hs_uptime_seconds := None |}.

Definition check_health (net : network) (now : Z) : result HealthStatus :=
  try_except (check_health_body net now) (fun e => Ok (unhealthy e now)).

(** *** get_user_status *)

Definition user_of (user : json) : result UserStatus :=
  let* user_id := py_get user "user_id" (JStr "") in
  let* username := py_get user "username" (JStr "") in
  let* status := py_get user "status" (JStr "inactive") in
  let* ll := py_get user "last_login" JNull in
  let* last_login :=
    if py_truthy ll then (let* t := fromisoformat ll in Ok (Some t)) else Ok None in
  let* session_count := py_get user "session_count" (JInt 0) in
  UserStatus_new user_id username status last_login session_count.

Definition get_user_status_body (net : network) : result (list UserStatus) :=
  let* data := _request net "GET" "/api/users/status" in
  let* users := py_get data "users" (JArr []) in
  let* items := py_iter users in
  comprehension user_of items.

Definition get_user_status (net : network) : result (list UserStatus) :=
  try_except (get_user_status_body net) (fun _ => Ok []).

(** *** get_services *)

Definition service_of (svc : json) : result ServiceInfo :=
  let* service_id := py_get svc "service_id" (JStr "") in
  let* nm := py_get svc "name" (JStr "") in
  let* status := py_get svc "status" (JStr "unknown") in
  let* version := py_get svc "version" (JStr "") in
  let* endpoints := py_get svc "endpoints" (JArr []) in
  ServiceInfo_new service_id nm status version endpoints.

Definition get_services_body (net : network) : result (list ServiceInfo) :=
  let* data := _request net "GET" "/api/services/list" in
  let* svcs := py_get data "services" (JArr []) in
  let* items := py_iter svcs in
  comprehension service_of items.

Definition get_services (net : network) : result (list ServiceInfo) :=
  try_except (get_services_body net) (fun _ => Ok []).

(** *** query_logs *)

Definition log_of (now : Z) (log : json) : result LogEntry :=
  let* ts := py_get log "timestamp" (JStr (isoformat now)) in
  let* t := fromisoformat ts in
  let* level := py_get log "level" (JStr "info") in
  let* service := py_get log "service" (JStr "unknown") in
  let* msg := py_get log "message" (JStr "") in
  let* metadata := py_get log "metadata" (JObj []) in
  LogEntry_new t level service msg metadata.

Definition query_logs_body (net : network) (now : Z) (params : json)
  : result (list LogEntry) :=
  let* _ := LogQueryParams_dump params in
  let* data := _request net "POST" "/api/logs/query" in
  let* entries := py_get data "logs" (JArr []) in
  let* items := py_iter entries in
  comprehension (log_of now) items.

Definition query_logs (net : network) (now : Z) (params : json)
  : result (list LogEntry) :=
  try_except (query_logs_body net now params) (fun _ => Ok []).

(** *** get_metrics *)

Definition get_metrics_body (net : network) (now : Z) : result (option SystemMetrics) :=
  let* data := _request net "GET" "/api/metrics/current" in
  let* cpu := py_get data "cpu_usage" (JFloat 0 0) in
  let* mem := py_get data "memory_usage" (JFloat 0 0) in
  let* disk := py_get data "disk_usage" (JFloat 0 0) in
  let* n_in := py_get data "network_in_mbps" (JFloat 0 0) in
  let* n_out := py_get data "network_out_mbps" (JFloat 0 0) in
  let* req := py_get data "request_rate" (JFloat 0 0) in
  let* err := py_get data "error_rate" (JFloat 0 0) in
  let* m := SystemMetrics_new cpu mem disk n_in n_out req err now in
  Ok (Some m).

Definition get_metrics (net : network) (now : Z) : result (option SystemMetrics) :=
  try_except (get_metrics_body net now) (fun _ => Ok None).

(** *** check_all_systems *)

(** What a task of the fan-out evaluates to. *)
Inductive payload : Type :=
| PNone
| PHealth (h : HealthStatus)
| PUsers (l : list UserStatus)
| PServices (l : list ServiceInfo)
| PLogs (l : list LogEntry)
| PMetrics (m : SystemMetrics).

Definition fmap {A B : Type} (f : A -> B) (c : result A) : result B :=
  let* a := c in Ok (f a).

Definition of_metrics (o : option SystemMetrics) : payload :=
  match o with Some m => PMetrics m | None => PNone end.

Record plan : Type := {
  include_health : bool;
  include_users : bool;
  include_services : bool;
  include_logs : bool;
  include_metrics : bool;
  log_params : json          (* [None] is [JNull] *)
}.

(** The readings of the clock during one aggregation. *)
Record clock : Type := {
  t_start : Z;       (* [start_time] *)
  t_call : Z;        (* inside the accessors *)
  t_end : Z;         (* for [execution_time] *)
  t_result : Z       (* [timestamp=] of the result *)
}.

Definition default_log_params : json :=
  JObj [("timeframe", JStr "1h"); ("limit", JInt 100)].

(** [tasks] and [task_names], built side by side; a task is written as the
    outcome its coroutine has once awaited. *)
Definition build_tasks (net : network) (clk : clock) (p : plan)
  : list string * list (result payload) :=
  let t0 := ([], []) in
  let add (acc : list string * list (result payload)) (nm : string)
          (t : result payload) := (fst acc ++ [nm], snd acc ++ [t]) in
  let t1 := if include_health p
            then add t0 "health" (fmap PHealth (check_health net (t_call clk)))
            else t0 in
  let t2 := if include_users p
            then add t1 "users" (fmap PUsers (get_user_status net))
            else t1 in
  let t3 := if include_services p
            then add t2 "services" (fmap PServices (get_services net))
            else t2 in
  let t4 := if include_logs p
            then
              let params := if py_truthy (log_params p) then log_params p
                            else default_log_params in
              add t3 "logs" (fmap PLogs (query_logs net (t_call clk) params))
            else t3 in
  if include_metrics p
  then add t4 "metrics" (fmap of_metrics (get_metrics net (t_call clk)))
  else t4.

(** [asyncio.gather( *tasks, return_exceptions=True)]: a task that raised
    contributes its exception as a value; [Raise e] in the list stands for
    that value. *)
Definition gather (tasks : list (result payload)) : list (result payload) := tasks.

(** The loop over [zip(task_names, results)]. *)
Fixpoint parse_results (pairs : list (string * result payload))
    (errs : list string) (result_dict : list (string * payload))
  : list string * list (string * payload) :=
  match pairs with
  | [] => (errs, result_dict)
  | (nm, Raise e) :: rest =>
      parse_results rest (errs ++ [nm +:+ ": " +:+ exn_str e])
        (assoc_set nm PNone result_dict)
  | (nm, Ok v) :: rest =>
      parse_results rest errs (assoc_set nm v result_dict)
  end.

(** A value of [result_dict] as the field of [SystemCheckResult] it is
    passed to. *)
Definition as_health (o : option payload) : option HealthStatus :=
  match o with Some (PHealth h) => Some h | _ => None end.
Definition as_users (o : option payload) : option (list UserStatus) :=
  match o with Some (PUsers l) => Some l | _ => None end.
Definition as_services (o : option payload) : option (list ServiceInfo) :=
  match o with Some (PServices l) => Some l | _ => None end.
Definition as_logs (o : option payload) : option (list LogEntry) :=
  match o with Some (PLogs l) => Some l | _ => None end.
Definition as_metrics (o : option payload) : option SystemMetrics :=
  match o with Some (PMetrics m) => Some m | _ => None end.

Definition check_all_systems (net : network) (clk : clock) (p : plan)
  : SystemCheckResult :=
  let '(task_names, tasks) := build_tasks net clk p in
  let results := gather tasks in
  let '(errs, result_dict) := parse_results (combine task_names results) [] [] in
  {| health := as_health (assoc "health" result_dict);
     users := as_users (assoc "users" result_dict);
     services := as_services (assoc "services" result_dict);
     logs := as_logs (assoc "logs" result_dict);
     metrics := as_metrics (assoc "metrics" result_dict);
     timestamp := t_result clk;
     execution_time_us := t_end clk - t_start clk;
     errors := errs |}.

Definition selective_check (net : network) (clk : clock) (p : plan)
  : SystemCheckResult := check_all_systems net clk p.

(** Whether the upstream call and decoding of a requested category failed:
    the [try] block of its accessor raised. *)
Definition category_failed (net : network) (clk : clock) (p : plan)
    (category : string) : bool :=
  let raised {A : Type} (c : result A) :=
    match c with Raise _ => true | Ok _ => false end in
  if String.eqb category "health" then
    include_health p && raised (check_health_body net (t_call clk))
  else if String.eqb category "users" then
    include_users p && raised (get_user_status_body net)
  else if String.eqb category "services" then
    include_services p && raised (get_services_body net)
  else if String.eqb category "logs" then
    include_logs p &&
    raised (query_logs_body net (t_call clk)
              (if py_truthy (log_params p) then log_params p
               else default_log_params))
  else if String.eqb category "metrics" then
    include_metrics p && raised (get_metrics_body net (t_call clk))
  else false.

End WithValidators.
End Client.

(** ** Vocabulary of the properties *)

Module EngineSpec.
Import Engine.

(** The id a response carries for the id [j] of a message of the data
    model: an absent or null id becomes [0]. *)
Definition reply_id (j : json) : option rpc_id :=
  match j with
  | JNull => Some (IdInt 0)
  | _ => as_rpc_id j
  end.

Definition error_reply (rid : rpc_id) (c : Z) (msg : string) : wire :=
  Reply {| jsonrpc := "2.0"; id := rid; result_ := None;
           error := Some {| code := c; message := msg; data := None |} |}.

Definition success_reply (rid : rpc_id) (res : json) : wire :=
  Reply {| jsonrpc := "2.0"; id := rid; result_ := Some res; error := None |}.

(** The code of a protocol-level error response. *)
Definition error_code (w : wire) : option Z :=
  match w with
  | Reply r => match error r with Some e => Some (code e) | None => None end
  | Silent => None
  end.

(** The response is a result whose content says [isError = true]. *)
Definition signals_isError (w : wire) : bool :=
  match w with
  | Reply r =>
      match result_ r with
      | Some (JObj fields) =>
          match assoc "isError" fields with
          | Some (JBool true) => true
          | _ => false
          end
      | _ => false
      end
  | Silent => false
  end.

(** [s] is the text of a request of the data model: a JSON-RPC 2.0 object
    with a string or integer id [rid], the method [method] and the
    parameters [params] (an absent [params] reads as the empty object). *)
Definition request {R : Runtime} (s : string) (rid : rpc_id) (method : string)
    (params : json) : Prop :=
  exists fields idj,
    json_loads s = Some (JObj fields) /\
    assoc "jsonrpc" fields = Some (JStr "2.0") /\
    assoc "id" fields = Some idj /\
    as_rpc_id idj = Some rid /\
    assoc "method" fields = Some (JStr method) /\
    get_or "params" fields (JObj []) = params.

(** The engine after [_handle_initialize(params)]. *)
Definition after_initialize (self : MCPProtocolHandler) (params : json)
  : MCPProtocolHandler :=
  {| tools := tools self; initialized := true; client_info := params;
     session_id := session_id self |}.

(** The result of [tools/list]. *)
Definition tools_listing (self : MCPProtocolHandler) : json :=
  JObj [("tools",
         JArr (map (fun kv => ToolDefinition_dump (definition (snd kv)))
                   (tools self)))].

(** The result of [tools/call] once the tool [t] has been found. *)
Definition call_content {R : Runtime} (t : tool) (arguments : json) : json :=
  match handler t arguments with
  | Ok r => text_content (json_dumps r) false
  | Raise e => text_content ("Error executing tool: " +:+ exn_str e) true
  end.

End EngineSpec.

Module ClientSpec.
Import Client.

(** A transient failure: the attempt ended in a network-level client error
    ([aiohttp.ClientError]) or in a timeout ([asyncio.TimeoutError]). *)
Definition transient (a : attempt) : Prop :=
  exists e, a = Failed e /\ (e = TimeoutError \/ exists msg, e = ClientError msg).

(** What [_request] hands back for a response. *)
Definition response_data (content_type : string) (body : json) : json :=
  if String.eqb content_type "application/json" then body else JObj [].

End ClientSpec.

Module StreamSpec.
Import Stream.

(** An observation that is neither about the two background tasks nor the
    removal of the connection record. *)
Definition plain (o : obs) : bool :=
  match o with
  | EvCreate _ | EvCancel _ | EvAwait _ | EvRemove _ => false
  | _ => true
  end.

Definition quiet (l : list obs) : Prop := forallb plain l = true.

Definition creation : list obs :=
  [EvCreate heartbeat_task; EvCreate processor_task].

(** The [finally] block around the streaming loop. *)
Definition teardown : list obs :=
  [EvCancel heartbeat_task; EvCancel processor_task;
   EvAwait heartbeat_task; EvAwait processor_task].

(** The id the generator works with. *)
Definition assigned (E : env) (connection_id : option string) : string :=
  match connection_id with Some c => c | None => uuid E end.

End StreamSpec.

(** ** Sample instances of the library interfaces

    Used to run the definitions on concrete inputs. *)

Module Samples.

(** The double-quote character. *)
Definition dq : string :=
  String (Ascii.Ascii false true false false false true false false) EmptyString.

(** Compact JSON text of a value whose strings need no escaping. *)
Fixpoint render (j : json) : string :=
  match j with
  | JNull => "null"
  | JBool true => "true"
  | JBool false => "false"
  | JInt n => dec n
  | JFloat m e => dec m +:+ "e" +:+ dec e
  | JStr s => dq +:+ s +:+ dq
  | JArr l =>
      "[" +:+
      (fix items (l : list json) : string :=
         match l with
         | [] => ""
         | [x] => render x
         | x :: rest => render x +:+ "," +:+ items rest
         end) l +:+ "]"
  | JObj l =>
      "{" +:+
      (fix members (l : list (string * json)) : string :=
         match l with
         | [] => ""
         | [(k, v)] => dq +:+ k +:+ dq +:+ ":" +:+ render v
         | (k, v) :: rest =>
             dq +:+ k +:+ dq +:+ ":" +:+ render v +:+ "," +:+ members rest
         end) l +:+ "}"
  end.

Definition envelope (idj : option json) (method : string) (params : option json)
  : json :=
  JObj ([("jsonrpc", JStr "2.0")]
        ++ match idj with Some i => [("id", i)] | None => [] end
        ++ [("method", JStr method)]
        ++ match params with Some p => [("params", p)] | None => [] end).

(** The messages of the examples. *)
Definition messages : list json :=
  [ JArr [];
    JObj [("id", JInt 7)];
    JObj [("jsonrpc", JStr "1.0"); ("id", JInt 7); ("method", JStr "ping")];
    envelope (Some (JInt 1)) "initialize"
      (Some (JObj [("clientInfo", JObj [("name", JStr "n8n")])]));
    envelope (Some (JInt 2)) "initialized" None;
    envelope (Some (JInt 3)) "tools/list" None;
    envelope (Some (JInt 4)) "tools/call" (Some (JObj [("name", JStr "missing")]));
    envelope (Some (JInt 5)) "tools/call"
      (Some (JObj [("name", JStr "check_system_abc");
                   ("arguments", JObj [("query", JStr "check all")])]));
    envelope (Some (JInt 6)) "ping" None;
    envelope (Some (JInt 8)) "resources/list" None;
    envelope None "notifications/progress" None;
    envelope None "notifications/cancelled" (Some (JArr []));
    JObj [("id", JArr [JInt 1])] ].

(** A decoder that knows the texts of [messages] and rejects every other
    text. *)
Definition loads (s : string) : option json :=
  assoc s (map (fun j => (render j, j)) messages).

Definition str (j : json) : string :=
  match j with
  | JStr s => s
  | JNull => "None"
  | JBool true => "True"
  | JBool false => "False"
  | JInt n => dec n
  | _ => render j
  end.

#[export] Instance runtime : Runtime := {|
  json_loads := loads;
  json_dumps := render;
  py_str := str;
  py_str_str := fun _ => eq_refl;
  validate_id := as_rpc_id;
  validate_id_typed := fun _ _ H => H;
  validate_id_null := eq_refl;
  validate_id_list := fun _ => eq_refl;
  validate_id_dict := fun _ => eq_refl;
  validation_error_str := fun _ => "1 validation error for MCPResponse"
|}.

(** Validators that accept exactly the JSON types of the field
    declarations. *)
Definition as_str (j : json) : result string :=
  match j with
  | JStr s => Ok s
  | _ => Raise (ValidationError "Input should be a valid string")
  end.

Definition as_int (j : json) : result Z :=
  match j with
  | JInt n => Ok n
  | _ => Raise (ValidationError "Input should be a valid integer")
  end.

Definition as_number (j : json) : result json :=
  match j with
  | JInt _ | JFloat _ _ => Ok j
  | _ => Raise (ValidationError "Input should be a valid number")
  end.

Definition one_of (allowed : list string) (j : json) : result string :=
  let* s := as_str j in
  if existsb (String.eqb s) allowed then Ok s
  else Raise (ValidationError "Input should be one of the literals").

Fixpoint each {A B : Type} (f : A -> result B) (l : list A) : result (list B) :=
  match l with
  | [] => Ok []
  | x :: rest => let* y := f x in let* ys := each f rest in Ok (y :: ys)
  end.

Definition health_new (status : json) (now : Z) (svcs uptime : json)
  : result HealthStatus :=
  let* s := one_of ["healthy"; "degraded"; "unhealthy"] status in
  let* m := match svcs with
            | JObj kvs => each (fun kv => let* v := as_str (snd kv) in Ok (fst kv, v)) kvs
            | _ => Raise (ValidationError "Input should be a valid dictionary")
            end in
  let* u := match uptime with
            | JNull => Ok None
            | _ => let* n := as_int uptime in Ok (Some n)
            end in
  Ok {| hs_status := s; hs_timestamp := now; hs_services := m;
        hs_uptime_seconds := u |}.

Definition user_new (user_id username status : json) (last_login : option Z)
    (session_count : json) : result UserStatus :=
  let* i := as_str user_id in
  let* n := as_str username in
  let* s := one_of ["active"; "inactive"; "suspended"] status in
  let* c := as_int session_count in
  Ok {| us_user_id := i; us_username := n; us_status := s;
        us_last_login := last_login; us_session_count := c |}.

Definition service_new (service_id nm status version endpoints : json)
  : result ServiceInfo :=
  let* i := as_str service_id in
  let* n := as_str nm in
  let* s := one_of ["running"; "stopped"; "error"] status in
  let* v := as_str version in
  let* e := match endpoints with
            | JArr l => each as_str l
            | _ => Raise (ValidationError "Input should be a valid list")
            end in
  Ok {| si_service_id := i; si_name := n; si_status := s; si_version := v;
        si_endpoints := e |}.

Definition log_new (t : Z) (level service msg metadata : json) : result LogEntry :=
  let* l := as_str level in
  let* s := as_str service in
  let* m := as_str msg in
  match metadata with
  | JObj _ =>
      Ok {| le_timestamp := t; le_level := l; le_service := s; le_message := m;
            le_metadata := metadata |}
  | _ => Raise (ValidationError "Input should be a valid dictionary")
  end.

Definition metrics_new (cpu mem disk n_in n_out req err : json) (now : Z)
  : result SystemMetrics :=
  let* c := as_number cpu in
  let* m := as_number mem in
  let* d := as_number disk in
  let* i := as_number n_in in
  let* o := as_number n_out in
  let* r := as_number req in
  let* e := as_number err in
  Ok {| sm_cpu_usage := c; sm_memory_usage := m; sm_disk_usage := d;
        sm_network_in_mbps := i; sm_network_out_mbps := o;
        sm_request_rate := r; sm_error_rate := e; sm_timestamp := now |}.

#[export] Instance validators : Validators := {|
  HealthStatus_new := health_new;
  UserStatus_new := user_new;
  ServiceInfo_new := service_new;
  LogEntry_new := log_new;
  SystemMetrics_new := metrics_new;
  LogQueryParams_dump :=
    fun params => match params with
                  | JObj _ => Ok params
                  | _ => Raise (TypeError "argument after ** must be a mapping")
                  end;
  fromisoformat :=
    fun j => match j with
             | JInt n => Ok n
             | _ => Raise (ValueError "Invalid isoformat string")
             end;
  isoformat := dec;
  retry_error_str := fun e => "RetryError[" +:+ exn_str e +:+ "]"
|}.

(** Engines: fresh, with one tool whose handler fails when the upstream is
    down, and the same after [initialize]. *)
Definition check_system_abc (arguments : json) : result json :=
  match arguments with
  | JObj (("query", JStr "check all") :: _) => Raise (PyException "upstream down")
  | _ => Ok (JObj [("success", JBool true)])
  end.

Definition fresh : Engine.MCPProtocolHandler := Engine.init "session-0".

Definition with_tool : Engine.MCPProtocolHandler :=
  Engine.register_tool fresh "check_system_abc" "Check the ABC system"
    {| schema_type := "object";
       properties := JObj [("query", JObj [("type", JStr "string")])];
       required := ["query"] |}
    check_system_abc.

Definition ready : Engine.MCPProtocolHandler :=
  EngineSpec.after_initialize fresh (JObj []).

Definition ready_with_tool : Engine.MCPProtocolHandler :=
  EngineSpec.after_initialize with_tool (JObj []).

Definition text_of (n : nat) : string := render (nth n messages JNull).

(** Upstream services: one that answers every endpoint, one whose health
    endpoint answers 500, and one whose health endpoint drops the first two
    connections. *)
Definition answers (endpoint : string) : json :=
  if String.eqb endpoint "/api/system/health" then
    JObj [("status", JStr "healthy"); ("services", JObj [("db", JStr "up")]);
          ("uptime_seconds", JInt 3600)]
  else if String.eqb endpoint "/api/users/status" then
    JObj [("users",
           JArr [JObj [("user_id", JStr "u1"); ("username", JStr "ann");
                       ("status", JStr "active"); ("session_count", JInt 2)]])]
  else if String.eqb endpoint "/api/services/list" then
    JObj [("services",
           JArr [JObj [("service_id", JStr "s1"); ("name", JStr "api");
                       ("status", JStr "running"); ("version", JStr "1.2")]])]
  else if String.eqb endpoint "/api/logs/query" then JObj [("logs", JArr [])]
  else JObj [("cpu_usage", JInt 12); ("memory_usage", JInt 40)].

Definition up : Client.network :=
  fun _ endpoint _ => Client.Responded 200 "OK" "application/json" (answers endpoint).

Definition health_down : Client.network :=
  fun method endpoint k =>
    if String.eqb endpoint "/api/system/health" then
      Client.Responded 500 "Internal Server Error" "application/json"
        (JObj [("detail", JStr "boom")])
    else up method endpoint k.

Definition flaky : Client.network :=
  fun method endpoint k =>
    if (String.eqb endpoint "/api/system/health" && (k <? 3)%nat)%bool then
      Client.Failed (ClientError "Cannot connect to host")
    else up method endpoint k.

Definition all_five : Client.plan :=
  {| Client.include_health := true; Client.include_users := true;
     Client.include_services := true; Client.include_logs := true;
     Client.include_metrics := true; Client.log_params := JNull |}.

Definition readings : Client.clock :=
  {| Client.t_start := 1000; Client.t_call := 1001; Client.t_end := 1250;
     Client.t_result := 1251 |}.

(** A client that takes the connection event, then disconnects at the
    first heartbeat; and the heartbeat the outgoing queue delivers. *)
Definition leaving : Stream.env :=
  {| Stream.consumer := fun n => if (n <? 1)%nat then Stream.Resume else Stream.Close;
     Stream.await_interrupted := fun _ => false;
     Stream.now := 100;
     Stream.now_iso := "2025-01-01T00:00:00";
     Stream.uuid := "generated";
     Stream.server_info := JObj [("name", JStr "mcp-sse-server-python")] |}.

Definition heartbeat : Stream.ServerSentEvent :=
  {| Stream.event := "heartbeat";
     Stream.sse_data := JObj [("type", JStr "heartbeat");
                              ("timestamp", JStr "2025-01-01T00:00:30")] |}.

(** A manager that admits one connection, empty and full. *)
Definition one_slot : Sessions.SSEConfig :=
  {| Sessions.heartbeat_interval := 30; Sessions.reconnect_timeout := 5;
     Sessions.max_connections := 1 |}.

Definition first_connection : Sessions.connection :=
  {| Sessions.conn_id := "a"; Sessions.connected_at := 100;
     Sessions.last_heartbeat := 101; Sessions.messages_sent := 0 |}.

Definition full : Sessions.SSEConnectionManager :=
  Sessions.with_connections (Sessions.init one_slot)
    (<["a" := first_connection]> ∅).

Definition fields_of (j : json) : list (string * json) :=
  match j with JObj l => l | _ => [] end.

End Samples.

(** ** Further vocabulary and samples *)

Module EngineMore.
Import Engine EngineSpec.

(** The methods [_handle_request] routes. *)
Definition routed (method : string) : bool :=
  existsb (String.eqb method)
    ["initialize"; "initialized"; "tools/list"; "tools/call"; "ping"].

(** The entry [register_tool] stores. *)
Definition entry (nm descr : string) (input_schema : ToolInputSchema)
    (h : json -> result json) : tool :=
  {| definition := {| name := nm; description := descr;
                      inputSchema := input_schema |};
     handler := h |}.

(** What can come of a request whose id no response can carry. *)
Definition zero_or_raise (x : result wire) : Prop :=
  match x with
  | Ok w => w = Silent \/ exists c msg, w = error_reply (IdInt 0) c msg
  | Raise _ => True
  end.

(** Requests and a decoder beyond those of [Samples]. *)
Definition messages : list json :=
  Samples.messages ++
  [ Samples.envelope (Some (JInt 20)) "initialize" (Some (JArr [JInt 1]));
    Samples.envelope (Some JNull) "ping" None;
    Samples.envelope (Some (JStr "abc")) "tools/list" None ].

Definition loads (s : string) : option json :=
  assoc s (map (fun j => (Samples.render j, j)) messages).

Definition runtime : Runtime := {|
  json_loads := loads;
  json_dumps := Samples.render;
  py_str := Samples.str;
  py_str_str := fun _ => eq_refl;
  validate_id := as_rpc_id;
  validate_id_typed := fun _ _ H => H;
  validate_id_null := eq_refl;
  validate_id_list := fun _ => eq_refl;
  validate_id_dict := fun _ => eq_refl;
  validation_error_str := fun _ => "1 validation error for MCPResponse"
|}.

Definition text_of (n : nat) : string := Samples.render (nth n messages JNull).

End EngineMore.

Module SessionsMore.
Import Sessions.

(** [n] calls of [increment_messages] for one connection. *)
Definition count_messages (n : nat) (connection_id : string)
    (self : SSEConnectionManager) : SSEConnectionManager :=
  Nat.iter n (fun m => increment_messages m connection_id) self.

(** The record [add_connection] stores. *)
Definition new_record (connection_id : string) (t_connected t_heartbeat : Z)
  : connection :=
  {| conn_id := connection_id; connected_at := t_connected;
     last_heartbeat := t_heartbeat; messages_sent := 0 |}.

(** A table with room for three, holding "a" (two messages sent) and "b". *)
Definition three_slots : SSEConfig :=
  {| heartbeat_interval := 30; reconnect_timeout := 5; max_connections := 3 |}.

Definition two_connected : SSEConnectionManager :=
  with_connections (init three_slots)
    (<["b" := new_record "b" 50 51]>
       (<["a" := {| conn_id := "a"; connected_at := 10; last_heartbeat := 40;
                    messages_sent := 2 |}]> ∅)).

End SessionsMore.

Module StreamMore.
Import Sessions Stream StreamSpec.

(** The world in which the streaming loop starts, once the connection was
    admitted with the manager [m'] and the consumer took the first event. *)
Definition streaming_start (E : env) (cid : string) (m' : SSEConnectionManager)
  : world :=
  {| manager := Sessions.increment_messages m' cid;
     trace := [EvAdd cid; EvYield (connection_event E cid); EvIncrement cid;
               EvCreate heartbeat_task; EvCreate processor_task];
     yields := 1 |}.

(** The events a trace says were yielded, in order. *)
Definition yielded (t : list obs) : list ServerSentEvent :=
  flat_map (fun o => match o with EvYield ev => [ev] | _ => [] end) t.

(** A client that takes every event. *)
Definition staying : env :=
  {| consumer := fun _ => Resume;
     await_interrupted := fun _ => true;
     now := 100;
     now_iso := "2025-01-01T00:00:00";
     uuid := "generated";
     server_info := JObj [] |}.

(** A client that stays for two events and then throws. *)
Definition throwing : env :=
  {| consumer := fun n => if (n <? 2)%nat then Resume
                          else Throw (PyException "client error");
     await_interrupted := fun _ => true;
     now := 100;
     now_iso := "2025-01-01T00:00:00";
     uuid := "generated";
     server_info := JObj [] |}.

End StreamMore.

Module Pump.
Import Engine Sessions Stream.

(** [MCPResponse.model_dump_json()], as the JSON value the text denotes:
    the fields in the order of the model, [None] as [null]. *)
Definition rpc_id_dump (i : rpc_id) : json :=
  match i with IdStr s => JStr s | IdInt n => JInt n end.

Definition MCPError_dump (e : MCPError) : json :=
  JObj [("code", JInt (code e)); ("message", JStr (message e));
        ("data", match data e with Some d => d | None => JNull end)].

Definition MCPResponse_dump (r : MCPResponse) : json :=
  JObj [("jsonrpc", JStr (jsonrpc r));
        ("id", rpc_id_dump (id r));
        ("result", match result_ r with Some v => v | None => JNull end);
        ("error", match error r with Some e => MCPError_dump e | None => JNull end)].

(** [ServerSentEvent(data=response, event="message")] *)
Definition message_event (r : MCPResponse) : ServerSentEvent :=
  {| event := "message"; sse_data := MCPResponse_dump r |}.

Definition pump_error_event (e : exn) (now_iso : string) : ServerSentEvent :=
  {| event := "error";
     sse_data := JObj [("type", JStr "error"); ("error", JStr (exn_str e));
                       ("timestamp", JStr now_iso)] |}.

Section WithRuntime.
Context {R : Runtime}.

(** The loop of [_process_incoming_messages] over the messages the incoming
    queue delivers before the task is cancelled, each with the clock reading
    at its processing; the result is what is put on the outgoing queue, in
    order, and the engine afterwards. *)
Fixpoint _process_incoming_messages (engine : MCPProtocolHandler)
    (incoming : list (string * string))
  : list ServerSentEvent * MCPProtocolHandler :=
  match incoming with
  | [] => ([], engine)
  | (now, msg) :: rest =>
      let '(response, engine') := handle_message engine now msg in
      let put :=
        match response with
        | Ok Silent => []                       (* [if response:] *)
        | Ok (Reply r) => [message_event r]
        | Raise e => [pump_error_event e now]   (* [except Exception] *)
        end in
      let '(later, engine'') := _process_incoming_messages engine' rest in
      (put ++ later, engine'')
  end.

End WithRuntime.

Definition heartbeat_event (now_iso : string) : ServerSentEvent :=
  {| event := "heartbeat";
     sse_data := JObj [("type", JStr "heartbeat"); ("timestamp", JStr now_iso)] |}.

(** The loop of [_heartbeat_loop] over the ticks that elapse before the
    task is cancelled; a tick is the two clock readings of one round, the
    text for the event and the reading [update_heartbeat] stores. *)
Fixpoint _heartbeat_loop (connection_id : string) (ticks : list (string * Z))
    (m : SSEConnectionManager) : list ServerSentEvent * SSEConnectionManager :=
  match ticks with
  | [] => ([], m)
  | (now_iso, now) :: rest =>
      let '(later, m') :=
        _heartbeat_loop connection_id rest (update_heartbeat m now connection_id) in
      (heartbeat_event now_iso :: later, m')
  end.

(** The id member of a message event. *)
Definition event_id (ev : ServerSentEvent) : option json :=
  match sse_data ev with
  | JObj fields => assoc "id" fields
  | _ => None
  end.

End Pump.

Module ClientMore.
Import Client.

(** What a guarded accessor returns for the outcome [c] of its [try] block
    and the default [h] of its handler. *)
Definition guarded {A : Type} (c : result A) (h : exn -> A) : A :=
  match c with Ok v => v | Raise e => h e end.

(** The parameters the log query is made with. *)
Definition effective_log_params (p : plan) : json :=
  if py_truthy (log_params p) then log_params p else default_log_params.

(** An upstream that never answers, one that answers every call with an
    HTML page, and one whose health endpoint answers with a body that is not
    JSON although it says so. *)
Definition unreachable : network :=
  fun _ _ _ => Failed TimeoutError.

Definition html_pages : network :=
  fun _ _ _ => Responded 200 "OK" "text/html" (JStr "<html></html>").

(** An upstream whose health endpoint first times out, then refuses the
    connection, and answers from the third attempt on. *)
Definition slow_start : network :=
  fun method endpoint k =>
    if String.eqb endpoint "/api/system/health" then
      match k with
      | 1%nat => Failed TimeoutError
      | 2%nat => Failed (ClientError "Cannot connect to host")
      | _ => Samples.up method endpoint k
      end
    else Samples.up method endpoint k.

Definition garbled : network :=
  fun method endpoint k =>
    if String.eqb endpoint "/api/system/health" then
      Failed (ValueError "Expecting value: line 1 column 1 (char 0)")
    else Samples.up method endpoint k.

End ClientMore.

(** ** tools/nlp_parser.py and tools/system_check.py *)

(** The regular-expression searches of the parser: whether a text matches
    one of the patterns filed under a key of [self.patterns], and what the
    four extractors find in a text. *)
Class Searches : Type := {
  lower_strip : string -> string;              (* [query.lower().strip()] *)
  _match_patterns : string -> string -> bool;  (* text, key *)
  _parse_timeframe : string -> string;
  _parse_log_level : string -> option string;
  _parse_service_name : string -> option string;
  _parse_search_term : string -> option string
}.

Module Tool.

(** [ParsedIntent].  The log fields hold whatever was assigned to them: the
    parser stores strings or [None], a filter of the caller any value.  The
    confidence is the decimal the float stands for. *)
Record ParsedIntent : Type := {
  check_health : bool;
  check_users : bool;
  check_services : bool;
  check_logs : bool;
  check_metrics : bool;
  log_timeframe : json;
  log_level : json;
  log_service : json;
  log_search : json;
  confidence : json;
  original_query : string
}.

Definition optional (o : option string) : json :=
  match o with Some s => JStr s | None => JNull end.

Section WithSearches.
Context {S : Searches}.

Definition parse (query : string) : ParsedIntent :=
  let query_lower := lower_strip query in
  if _match_patterns query_lower "all" then
    {| check_health := true; check_users := true; check_services := true;
       check_logs := true; check_metrics := true;
       log_timeframe := JStr "1h"; log_level := JNull; log_service := JNull;
       log_search := JNull;
       confidence := JFloat 95 (-2);
       original_query := query |}
  else
    let h := _match_patterns query_lower "health" in
    let u := _match_patterns query_lower "users" in
    let s := _match_patterns query_lower "services" in
    let l := _match_patterns query_lower "logs" in
    let m := _match_patterns query_lower "metrics" in
    let matches :=
      Z.b2z h + Z.b2z u + Z.b2z s + Z.b2z l + Z.b2z m in
    {| check_health := if matches =? 0 then true else h;
       check_users := u; check_services := s; check_logs := l;
       check_metrics := m;
       log_timeframe := if l then JStr (_parse_timeframe query_lower)
                        else JStr "1h";
       log_level := if l then optional (_parse_log_level query_lower) else JNull;
       log_service := if l then optional (_parse_service_name query_lower)
                      else JNull;
       log_search := if l then optional (_parse_search_term query_lower)
                     else JNull;
       confidence := if matches =? 0 then JFloat 3 (-1)
                     else JFloat (Z.min 90 (50 + matches * 15)) (-2);
       original_query := query |}.

End WithSearches.

(** [to_api_params]: the keyword arguments of [check_all_systems], as the
    plan they bind; without a "log_params" entry the parameter keeps its
    default [None]. *)
Definition to_api_params (intent : ParsedIntent) : Client.plan :=
  let optional_entry (key : string) (v : json) :=
    if Client.py_truthy v then [(key, v)] else [] in
  {| Client.include_health := check_health intent;
     Client.include_users := check_users intent;
     Client.include_services := check_services intent;
     Client.include_logs := check_logs intent;
     Client.include_metrics := check_metrics intent;
     Client.log_params :=
       if check_logs intent then
         JObj ([("timeframe", log_timeframe intent); ("limit", JInt 100)]
               ++ optional_entry "level" (log_level intent)
               ++ optional_entry "service" (log_service intent)
               ++ optional_entry "search" (log_search intent))
       else JNull |}.

(** [log_levels[log.level] = log_levels.get(log.level, 0) + 1] over the
    logs. *)
Fixpoint level_breakdown (entries : list LogEntry) (log_levels : list (string * Z))
  : list (string * Z) :=
  match entries with
  | [] => log_levels
  | log :: rest =>
      level_breakdown rest
        (assoc_set (le_level log)
           (match assoc (le_level log) log_levels with
            | Some n => n | None => 0 end + 1)
           log_levels)
  end.

Definition count_status {A : Type} (status : A -> string) (wanted : string)
    (l : list A) : Z :=
  Z.of_nat (length (List.filter (fun x => String.eqb (status x) wanted) l)).

Section WithValidators.
Context {V : Validators}.

Definition optional_time (o : option Z) : json :=
  match o with Some t => JStr (isoformat t) | None => JNull end.

Definition optional_int (o : option Z) : json :=
  match o with Some n => JInt n | None => JNull end.

Definition user_entry (u : UserStatus) : json :=
  JObj [("username", JStr (us_username u)); ("status", JStr (us_status u));
        ("session_count", JInt (us_session_count u));
        ("last_login", optional_time (us_last_login u))].

Definition service_entry (s : ServiceInfo) : json :=
  JObj [("name", JStr (si_name s)); ("status", JStr (si_status s));
        ("version", JStr (si_version s));
        ("endpoints", JArr (map JStr (si_endpoints s)))].

Definition log_entry (log : LogEntry) : json :=
  JObj [("timestamp", JStr (isoformat (le_timestamp log)));
        ("level", JStr (le_level log)); ("service", JStr (le_service log));
        ("message", JStr (le_message log)); ("metadata", le_metadata log)].

(** The names [_format_result] puts in [checks_performed]: a category
    counts when its field is truthy, that is present and, for a list, not
    empty. *)
Definition checks_performed (result : SystemCheckResult) : list string :=
  (match health result with Some _ => ["health"] | None => [] end)
  ++ (match users result with Some (_ :: _) => ["users"] | _ => [] end)
  ++ (match services result with Some (_ :: _) => ["services"] | _ => [] end)
  ++ (match logs result with Some (_ :: _) => ["logs"] | _ => [] end)
  ++ (match metrics result with Some _ => ["metrics"] | None => [] end).

Definition _format_result (result : SystemCheckResult) (intent : ParsedIntent)
  : list (string * json) :=
  let output :=
    [("success", JBool (match errors result with [] => true | _ => false end));
     ("timestamp", JStr (isoformat (timestamp result)));
     ("execution_time_ms", JFloat (execution_time_us result) (-3));
     ("query", JStr (original_query intent));
     ("confidence", confidence intent)] in
  let output :=
    match health result with
    | Some h =>
        assoc_set "health"
          (JObj [("status", JStr (hs_status h));
                 ("uptime_seconds", optional_int (hs_uptime_seconds h));
                 ("services",
                  JObj (map (fun kv => (fst kv, JStr (snd kv))) (hs_services h)))])
          output
    | None => output
    end in
  let output :=
    match users result with
    | Some (u :: us) =>
        assoc_set "users"
          (JObj [("total", JInt (Z.of_nat (length (u :: us))));
                 ("active", JInt (count_status us_status "active" (u :: us)));
                 ("users", JArr (map user_entry (u :: us)))])
          output
    | _ => output
    end in
  let output :=
    match services result with
    | Some (s :: ss) =>
        assoc_set "services"
          (JObj [("total", JInt (Z.of_nat (length (s :: ss))));
                 ("running", JInt (count_status si_status "running" (s :: ss)));
                 ("services", JArr (map service_entry (s :: ss)))])
          output
    | _ => output
    end in
  let output :=
    match logs result with
    | Some (l :: ls) =>
        assoc_set "logs"
          (JObj [("total", JInt (Z.of_nat (length (l :: ls))));
                 ("timeframe", log_timeframe intent);
                 ("entries", JArr (map log_entry (firstn 50 (l :: ls))));
                 ("level_breakdown",
                  JObj (map (fun kv => (fst kv, JInt (snd kv)))
                          (level_breakdown (l :: ls) [])))])
          output
    | _ => output
    end in
  let output :=
    match metrics result with
    | Some m =>
        assoc_set "metrics"
          (JObj [("cpu_usage", sm_cpu_usage m);
                 ("memory_usage", sm_memory_usage m);
                 ("disk_usage", sm_disk_usage m);
                 ("network_in_mbps", sm_network_in_mbps m);
                 ("network_out_mbps", sm_network_out_mbps m);
                 ("request_rate", sm_request_rate m);
                 ("error_rate", sm_error_rate m);
                 ("timestamp", JStr (isoformat (sm_timestamp m)))])
          output
    | None => output
    end in
  let output :=
    match errors result with
    | [] => output
    | errs =>
        assoc_set "success" (JBool false)
          (assoc_set "errors" (JArr (map JStr errs)) output)
    end in
  assoc_set "summary"
    (JObj [("checks_performed", JArr (map JStr (checks_performed result)));
           ("total_checks", JInt (Z.of_nat (length (checks_performed result))));
           ("errors_count", JInt (Z.of_nat (length (errors result))))])
    output.

End WithValidators.
End Tool.

(** The texts of two [TypeError]s of the interpreter, which differ between
    its versions: [key in obj] for an [obj] that cannot be searched, and
    [obj[key]] with a string key for an [obj] that is not a dict. *)
Class Interpreter : Type := {
  not_iterable_str : json -> string;
  bad_subscript_str : json -> string
}.

Module SystemCheck.
Import Tool.

(** [needle in hay] on strings. *)
Fixpoint is_substring (needle hay : string) : bool :=
  String.prefix needle hay ||
  match hay with
  | EmptyString => false
  | String _ rest => is_substring needle rest
  end.

Section WithLibraries.
Context {V : Validators} {S : Searches} {I : Interpreter}.

(** [key in obj]: a dict is searched for the key, a list for an equal item,
    a string for the substring. *)
Definition py_contains (key : string) (obj : json) : result bool :=
  match obj with
  | JObj fields => Ok (py_in key fields)
  | JArr items => Ok (existsb (fun x => str_is x key) items)
  | JStr s => Ok (is_substring key s)
  | _ => Raise (TypeError (not_iterable_str obj))
  end.

(** [obj[key]] where [key in obj] held. *)
Definition py_item (obj : json) (key : string) : result json :=
  match obj with
  | JObj fields => Ok (get_or key fields JNull)
  | _ => Raise (TypeError (bad_subscript_str obj))
  end.

(** [self.nlp_parser.parse(query)]: only a string has [lower]. *)
Definition parse_query (query : json) : result ParsedIntent :=
  match query with
  | JStr q => Ok (parse q)
  | _ => Raise (AttributeError
                  ("'" +:+ type_name query +:+ "' object has no attribute 'lower'"))
  end.

Definition set_log_timeframe (intent : ParsedIntent) (v : json) : ParsedIntent :=
  {| check_health := check_health intent; check_users := check_users intent;
     check_services := check_services intent; check_logs := check_logs intent;
     check_metrics := check_metrics intent;
     log_timeframe := v; log_level := log_level intent;
     log_service := log_service intent; log_search := log_search intent;
     confidence := confidence intent; original_query := original_query intent |}.

Definition set_log_level (intent : ParsedIntent) (v : json) : ParsedIntent :=
  {| check_health := check_health intent; check_users := check_users intent;
     check_services := check_services intent; check_logs := check_logs intent;
     check_metrics := check_metrics intent;
     log_timeframe := log_timeframe intent; log_level := v;
     log_service := log_service intent; log_search := log_search intent;
     confidence := confidence intent; original_query := original_query intent |}.

Definition set_log_service (intent : ParsedIntent) (v : json) : ParsedIntent :=
  {| check_health := check_health intent; check_users := check_users intent;
     check_services := check_services intent; check_logs := check_logs intent;
     check_metrics := check_metrics intent;
     log_timeframe := log_timeframe intent; log_level := log_level intent;
     log_service := v; log_search := log_search intent;
     confidence := confidence intent; original_query := original_query intent |}.

(** [if "key" in filters: intent.field = filters["key"]] *)
Definition override (filters : json) (key : string)
    (set : ParsedIntent -> json -> ParsedIntent) (intent : ParsedIntent)
  : result ParsedIntent :=
  let* present := py_contains key filters in
  if present then (let* v := py_item filters key in Ok (set intent v))
  else Ok intent.

(** The block [if filters: ...] of [execute]. *)
Definition apply_filters (filters : json) (intent : ParsedIntent)
  : result ParsedIntent :=
  if Client.py_truthy filters then
    let* i1 := override filters "log_timeframe" set_log_timeframe intent in
    let* i2 := override filters "log_level" set_log_level i1 in
    override filters "log_service" set_log_service i2
  else Ok intent.

(** The intent [execute] works with. *)
Definition intent_of (query filters : json) : result ParsedIntent :=
  let* intent := parse_query query in
  apply_filters filters intent.

Definition failure (e : exn) (now_iso : string) : json :=
  JObj [("success", JBool false); ("error", JStr (exn_str e));
        ("timestamp", JStr now_iso)].

(** [SystemCheckTool.execute]; [now_iso] is the clock reading of the
    handler. *)
Definition execute (net : Client.network) (clk : Client.clock)
    (now_iso : string) (params : json) : result json :=
  let* query := py_get params "query" (JStr "") in
  let* filters := py_get params "filters" (JObj []) in
  try_except
    (let* intent := intent_of query filters in
     let result := Client.check_all_systems net clk (to_api_params intent) in
     Ok (JObj (_format_result result intent)))
    (fun e => Ok (failure e now_iso)).

End WithLibraries.

(** Sample libraries: a parser that matches a key when the text contains
    it, finds the timeframe "24h" and nothing else. *)
Definition keywords : Searches := {|
  lower_strip := fun q => q;
  _match_patterns := fun text key => is_substring key text;
  _parse_timeframe := fun _ => "24h";
  _parse_log_level := fun _ => None;
  _parse_service_name := fun _ => None;
  _parse_search_term := fun _ => None
|}.

Definition cpython : Interpreter := {|
  not_iterable_str :=
    fun obj => "argument of type '" +:+ type_name obj +:+ "' is not iterable";
  bad_subscript_str :=
    fun obj => match obj with
               | JArr _ => "list indices must be integers or slices, not str"
               | JStr _ => "string indices must be integers"
               | _ => "'" +:+ type_name obj +:+ "' object is not subscriptable"
               end
|}.

(** A log entry of each of two levels. *)
Definition info_log : LogEntry :=
  {| le_timestamp := 5; le_level := "info"; le_service := "api";
     le_message := "ok"; le_metadata := JObj [] |}.

Definition error_log : LogEntry :=
  {| le_timestamp := 6; le_level := "error"; le_service := "api";
     le_message := "boom"; le_metadata := JObj [] |}.

End SystemCheck.

(** * Properties *)

(** ** The protocol engine *)

Module EngineFacts.
Import Engine EngineSpec.

Section Facts.
Context {R : Runtime}.

Lemma reply_id_valid j rid :
  reply_id j = Some rid -> j = JNull \/ validate_id j = Some rid.
Proof.
  destruct j; simpl; intros H; try discriminate; auto;
    right; apply validate_id_typed; exact H.
Qed.

Lemma error_response_reply_id j c msg rid :
  reply_id j = Some rid -> _error_response j c msg = Ok (error_reply rid c msg).
Proof.
  intros H. destruct j; simpl in H; try discriminate.
  - injection H as <-. reflexivity.
  - unfold _error_response, MCPResponse_new.
    rewrite (validate_id_typed (JInt n) rid H). reflexivity.
  - unfold _error_response, MCPResponse_new.
    rewrite (validate_id_typed (JStr s) rid H). reflexivity.
Qed.

Lemma error_response_typed j c msg rid :
  as_rpc_id j = Some rid -> _error_response j c msg = Ok (error_reply rid c msg).
Proof.
  intros H. apply error_response_reply_id. destruct j; try discriminate; exact H.
Qed.

Lemma response_new_typed j res err rid :
  as_rpc_id j = Some rid ->
  MCPResponse_new j res err =
    Ok {| jsonrpc := "2.0"; id := rid; result_ := res; error := err |}.
Proof.
  intros H. unfold MCPResponse_new. rewrite (validate_id_typed j rid H). reflexivity.
Qed.

(** Neither way of building a response produces the empty string. *)
Lemma error_response_loud j c msg : _error_response j c msg <> Ok Silent.
Proof.
  unfold _error_response, MCPResponse_new.
  destruct j; try discriminate;
    simpl; match goal with |- context [validate_id ?x] => destruct (validate_id x) end;
    discriminate.
Qed.

Lemma fallback_reply c msg :
  _error_response JNull c msg = Ok (error_reply (IdInt 0) c msg).
Proof. reflexivity. Qed.

(** The outer handler of [handle_message] turns every outcome into a
    returned value. *)
Lemma outer_handler_total (res : result wire) msg_of :
  exists w,
    try_except res (fun e => _error_response JNull (-32603) (msg_of e)) = Ok w /\
    (w = Silent <-> res = Ok Silent).
Proof.
  destruct res as [w|e]; simpl.
  - exists w. split; [reflexivity|]. split; congruence.
  - eexists. split; [reflexivity|]. split; discriminate.
Qed.

Lemma str_is_eq j lit : str_is j lit = true <-> j = JStr lit.
Proof.
  destruct j; simpl; split; try discriminate.
  - intros H. apply String.eqb_eq in H. congruence.
  - intros [= ->]. apply String.eqb_refl.
Qed.

Lemma handle_request_silent self now fields :
  fst (_handle_request self now fields) = Ok Silent <->
  str_is (get_or "method" fields JNull) "initialized" = true.
Proof.
  unfold _handle_request.
  set (request_id := get_or "id" fields JNull).
  set (method := get_or "method" fields JNull).
  set (params := get_or "params" fields (JObj [])).
  assert (Hsucc : forall res : result json,
             try_except
               (let* r := res in
                let* resp := MCPResponse_new request_id (Some r) None in
                Ok (Reply resp))
               (fun e => _error_response request_id (-32603)
                           ("Internal error: " +:+ exn_str e)) <> Ok Silent).
  { intros [r|e]; simpl; [|apply error_response_loud].
    destruct (MCPResponse_new request_id (Some r) None); simpl;
      [discriminate | apply error_response_loud]. }
  unfold _handle_request_body.
  destruct (str_is method "initialize") eqn:Hinit.
  - apply str_is_eq in Hinit. rewrite Hinit. simpl.
    unfold _handle_initialize. simpl.
    split; [intros H; exfalso; exact (Hsucc _ H) | discriminate].
  - destruct (str_is method "initialized") eqn:Hd; simpl.
    + split; reflexivity.
    + split; [|discriminate]. intros H. exfalso. revert H.
      destruct (str_is method "tools/list"); simpl; [apply Hsucc|].
      destruct (str_is method "tools/call"); simpl; [apply Hsucc|].
      destruct (str_is method "ping"); simpl; [apply (Hsucc (Ok (pong now)))|].
      destruct (_error_response request_id (-32601) _) eqn:He; simpl.
      * intros [= ->]. exact (error_response_loud _ _ _ He).
      * apply error_response_loud.
Qed.

(** [handle_message] never raises. *)
Lemma handle_message_total self now s :
  exists w, fst (handle_message self now s) = Ok w.
Proof.
  unfold handle_message. destruct (json_loads s) as [msg|]; simpl.
  - destruct (handle_decoded self now msg) as [res self']. simpl.
    destruct (outer_handler_total res (fun e => "Internal error: " +:+ exn_str e))
      as [w [Hw _]].
    exists w. exact Hw.
  - eexists. reflexivity.
Qed.

(** How a request of the data model travels through [handle_message]. *)
Lemma request_dispatch self now s rid method params :
  request s rid method params ->
  exists idj,
    as_rpc_id idj = Some rid /\
    handle_message self now s =
      (try_except
         (try_except
            (fst (_handle_request_body self now idj (JStr method) params))
            (fun e => _error_response idj (-32603)
                        ("Internal error: " +:+ exn_str e)))
         (fun e => _error_response JNull (-32603)
                     ("Internal error: " +:+ exn_str e)),
       snd (_handle_request_body self now idj (JStr method) params)).
Proof.
  intros (fields & idj & Hs & Hv & Hid & Hrid & Hm & Hp).
  exists idj. split; [exact Hrid|].
  unfold handle_message. rewrite Hs. unfold handle_decoded.
  unfold get_or at 1. rewrite Hv. simpl negb. cbv iota.
  unfold py_in. rewrite Hid. unfold _handle_request.
  replace (get_or "id" fields JNull) with idj by (unfold get_or; now rewrite Hid).
  replace (get_or "method" fields JNull) with (JStr method)
    by (unfold get_or; now rewrite Hm).
  rewrite Hp.
  destruct (_handle_request_body self now idj (JStr method) params) as [res self'].
  reflexivity.
Qed.

(** With an id of the data model, a result becomes a success response and
    an exception an internal-error response; neither handler fails. *)
Lemma respond_typed idj rid (res : result json) :
  as_rpc_id idj = Some rid ->
  try_except
    (try_except
       (let* r := res in
        let* resp := MCPResponse_new idj (Some r) None in
        Ok (Reply resp))
       (fun e => _error_response idj (-32603) ("Internal error: " +:+ exn_str e)))
    (fun e => _error_response JNull (-32603) ("Internal error: " +:+ exn_str e))
  = Ok (match res with
        | Ok r => success_reply rid r
        | Raise e => error_reply rid (-32603) ("Internal error: " +:+ exn_str e)
        end).
Proof.
  intros H. destruct res as [r|e]; simpl.
  - rewrite (response_new_typed _ _ _ _ H). reflexivity.
  - rewrite (error_response_typed _ _ _ _ H). reflexivity.
Qed.

(** A [tools/list] or [tools/call] request ends in [respond_typed]. *)
Lemma tools_list_response self now s rid params :
  request s rid "tools/list" params ->
  handle_message self now s =
    (Ok (match _handle_tools_list self params with
         | Ok r => success_reply rid r
         | Raise e => error_reply rid (-32603) ("Internal error: " +:+ exn_str e)
         end), self).
Proof.
  intros Hreq. destruct (request_dispatch self now s _ _ _ Hreq) as (idj & Hid & ->).
  unfold _handle_request_body. simpl str_is. cbv iota. simpl fst. simpl snd.
  now rewrite (respond_typed idj rid _ Hid).
Qed.

Lemma tools_call_response self now s rid params :
  request s rid "tools/call" params ->
  handle_message self now s =
    (Ok (match _handle_tools_call self params with
         | Ok r => success_reply rid r
         | Raise e => error_reply rid (-32603) ("Internal error: " +:+ exn_str e)
         end), self).
Proof.
  intros Hreq. destruct (request_dispatch self now s _ _ _ Hreq) as (idj & Hid & ->).
  unfold _handle_request_body. simpl str_is. cbv iota. simpl fst. simpl snd.
  now rewrite (respond_typed idj rid _ Hid).
Qed.

Lemma tools_call_found self ps nm t :
  initialized self = true ->
  assoc "name" ps = Some (JStr nm) ->
  assoc nm (tools self) = Some t ->
  _handle_tools_call self (JObj ps) =
    Ok (call_content t (get_or "arguments" ps (JObj []))).
Proof.
  intros Hi Hn Ht. unfold _handle_tools_call. rewrite Hi. simpl.
  unfold get_or at 1. rewrite Hn. simpl. rewrite Ht.
  unfold call_content.
  destruct (handler t (get_or "arguments" ps (JObj []))); reflexivity.
Qed.

(** C2 (amended).  A [tools/call] request naming a tool that is not
    registered never raises out of [handle_message]: the engine returns a
    protocol-level error response with code -32603 whose message names the
    missing tool (or, on an engine that was not initialised, says so); the
    response carries no result, hence no [isError] content, and the engine
    state is unchanged. *)
Theorem tools_call_unregistered self now s rid ps nm :
  request s rid "tools/call" (JObj ps) ->
  assoc "name" ps = Some (JStr nm) ->
  assoc nm (tools self) = None ->
  handle_message self now s =
    (Ok (error_reply rid (-32603)
           ("Internal error: " +:+
            (if initialized self then "Tool not found: " +:+ nm
             else "Server not initialized"))),
     self).
Proof.
  intros Hreq Hn Ht. rewrite (tools_call_response self now s rid _ Hreq).
  unfold _handle_tools_call. destruct (initialized self); simpl; [|reflexivity].
  unfold get_or at 1. rewrite Hn. simpl. rewrite Ht. simpl.
  unfold get_or. rewrite Hn. now rewrite py_str_str.
Qed.

(** C4.  When the handler of the tool named by a [tools/call] request
    raises, the exception is caught inside [_handle_tools_call]: the engine
    returns a success envelope (the request id, a result, no error member)
    whose result is the object with the members [content], a list of one
    block of type "text" whose text is "Error executing tool: " followed by
    the message of the exception, and [isError], which is true.  The
    response is not a protocol-level error, and the engine is unchanged. *)
Theorem tools_call_handler_raises self now s rid ps nm t e :
  request s rid "tools/call" (JObj ps) ->
  initialized self = true ->
  assoc "name" ps = Some (JStr nm) ->
  assoc nm (tools self) = Some t ->
  handler t (get_or "arguments" ps (JObj [])) = Raise e ->
  exists w,
    handle_message self now s = (Ok w, self)
    /\ w = Reply
             {| jsonrpc := "2.0"; id := rid;
                result_ :=
                  Some (JObj [("content",
                               JArr [JObj [("type", JStr "text");
                                           ("text",
                                            JStr ("Error executing tool: "
                                                  +:+ exn_str e))]]);
                              ("isError", JBool true)]);
                error := None |}
    /\ signals_isError w = true
    /\ error_code w = None.
Proof.
  intros Hreq Hi Hn Ht He. eexists. split; [|split; [reflexivity | split; reflexivity]].
  rewrite (tools_call_response self now s rid _ Hreq).
  rewrite (tools_call_found self ps nm t Hi Hn Ht).
  unfold call_content. rewrite He. reflexivity.
Qed.

(** C3 (amended).  For a JSON-RPC 2.0 object, [handle_message] returns a
    value.  A message that carries an id gets exactly one response, which is
    not empty, unless its method is "initialized": that request is answered
    by the empty string.  A message that carries no id is answered by the
    empty string when its method is not "notifications/cancelled" or its
    params are an object (absent params read as the empty object). *)
Theorem reply_or_silence self now s fields :
  json_loads s = Some (JObj fields) ->
  str_is (get_or "jsonrpc" fields JNull) "2.0" = true ->
  exists w,
    fst (handle_message self now s) = Ok w
    /\ (py_in "id" fields = true ->
          (get_or "method" fields JNull = JStr "initialized" -> w = Silent)
          /\ (get_or "method" fields JNull <> JStr "initialized" ->
                exists r, w = Reply r))
    /\ (py_in "id" fields = false ->
          get_or "method" fields JNull <> JStr "notifications/cancelled"
          \/ (exists ps, get_or "params" fields (JObj []) = JObj ps) ->
          w = Silent).
Proof.
  intros Hs Hv. unfold handle_message. rewrite Hs. unfold handle_decoded.
  rewrite Hv. simpl negb. cbv iota.
  destruct (py_in "id" fields).
  - pose proof (handle_request_silent self now fields) as Hsil.
    destruct (_handle_request self now fields) as [res self']. simpl in *.
    destruct (outer_handler_total res (fun e => "Internal error: " +:+ exn_str e))
      as (w & Hw & Hiff).
    exists w. split; [exact Hw|]. split; [|discriminate].
    intros _. split.
    + intros Hm. apply Hiff, Hsil, str_is_eq, Hm.
    + intros Hne. destruct w as [|r]; [|exists r; reflexivity].
      exfalso. apply Hne, str_is_eq, Hsil, Hiff. reflexivity.
  - assert (Hquiet :
      get_or "method" fields JNull <> JStr "notifications/cancelled"
      \/ (exists ps, get_or "params" fields (JObj []) = JObj ps) ->
      _handle_notification fields = Ok tt).
    { unfold _handle_notification. intros [Hm | [ps Hp]].
      - destruct (str_is (get_or "method" fields JNull) "notifications/cancelled")
          eqn:Hc; [|reflexivity].
        apply str_is_eq in Hc. contradiction.
      - rewrite Hp. simpl.
        destruct (str_is (get_or "method" fields JNull) "notifications/cancelled");
          reflexivity. }
    destruct (_handle_notification fields) as [[]|e]; simpl.
    + exists Silent. split; [reflexivity|]. split; [discriminate | reflexivity].
    + eexists. split; [reflexivity|]. split; [discriminate|].
      intros _ H. discriminate (Hquiet H).
Qed.

(** C5 (amended).  On an engine that was not initialised, a [tools/list] or
    [tools/call] request is answered by the internal error -32603 "Server
    not initialized".  After an [initialize] request on the same engine the
    same [tools/list] request returns the tool definitions, and the same
    [tools/call] request, when it names a registered tool, returns that
    tool's content.  [ping] needs no initialisation: it returns the pong
    with the current time. *)
Theorem initialization_gate self now s rid method params :
  request s rid method params ->
  (method = "tools/list" \/ method = "tools/call" ->
   initialized self = false ->
   handle_message self now s =
     (Ok (error_reply rid (-32603) "Internal error: Server not initialized"),
      self))
  /\ (forall now0 s0 rid0 ps0,
        request s0 rid0 "initialize" (JObj ps0) ->
        let self1 := after_initialize self (JObj ps0) in
        handle_message self now0 s0 =
          (Ok (success_reply rid0 InitializeResult_dump), self1)
        /\ (method = "tools/list" ->
            handle_message self1 now s =
              (Ok (success_reply rid (tools_listing self)), self1))
        /\ (method = "tools/call" ->
            forall ps nm t,
              params = JObj ps ->
              assoc "name" ps = Some (JStr nm) ->
              assoc nm (tools self) = Some t ->
              handle_message self1 now s =
                (Ok (success_reply rid
                       (call_content t (get_or "arguments" ps (JObj [])))),
                 self1)))
  /\ (method = "ping" ->
      handle_message self now s = (Ok (success_reply rid (pong now)), self)).
Proof.
  intros Hreq. split; [|split].
  - intros [-> | ->] Hi.
    + rewrite (tools_list_response self now s rid _ Hreq).
      unfold _handle_tools_list. now rewrite Hi.
    + rewrite (tools_call_response self now s rid _ Hreq).
      unfold _handle_tools_call. now rewrite Hi.
  - intros now0 s0 rid0 ps0 Hinit self1. split; [|split].
    + destruct (request_dispatch self now0 s0 _ _ _ Hinit) as (idj & Hid & ->).
      unfold _handle_request_body. simpl str_is. cbv iota.
      unfold _handle_initialize. simpl fst. simpl snd.
      now rewrite (response_new_typed idj _ _ rid0 Hid).
    + intros ->. now rewrite (tools_list_response self1 now s rid _ Hreq).
    + intros -> ps nm t -> Hn Ht.
      rewrite (tools_call_response self1 now s rid _ Hreq).
      now rewrite (tools_call_found self1 ps nm t eq_refl Hn Ht).
  - intros ->.
    destruct (request_dispatch self now s _ _ _ Hreq) as (idj & Hid & ->).
    unfold _handle_request_body. simpl str_is. cbv iota. simpl fst. simpl snd.
    simpl bind. now rewrite (response_new_typed idj _ _ rid Hid).
Qed.

(** C9 (amended).  A text that is not well-formed JSON is answered by the
    error -32700 and leaves the engine as it was.  A well-formed JSON object
    whose [jsonrpc] member is missing or is not "2.0", and whose id is
    absent, null, a string or an integer, is answered by the error -32600,
    the engine again unchanged. *)
Theorem framing_errors self now s :
  (json_loads s = None ->
   handle_message self now s =
     (Ok (error_reply (IdInt 0) (-32700) "Parse error"), self))
  /\ (forall fields rid,
        json_loads s = Some (JObj fields) ->
        str_is (get_or "jsonrpc" fields JNull) "2.0" = false ->
        reply_id (get_or "id" fields JNull) = Some rid ->
        handle_message self now s =
          (Ok (error_reply rid (-32600) "Invalid JSON-RPC version"), self)).
Proof.
  split.
  - intros Hs. unfold handle_message. now rewrite Hs.
  - intros fields rid Hs Hv Hid. unfold handle_message. rewrite Hs.
    unfold handle_decoded. rewrite Hv. simpl negb. cbv iota.
    now rewrite (error_response_reply_id _ _ _ _ Hid).
Qed.

End Facts.

(** *** Concrete runs *)

Import Samples.

Lemma tools_call_unregistered_witness :
  request (text_of 6) (IdInt 4) "tools/call" (JObj [("name", JStr "missing")]) /\
  handle_message ready "2025-01-01T00:00:00" (text_of 6) =
    (Ok (error_reply (IdInt 4) (-32603)
           "Internal error: Tool not found: missing"), ready).
Proof.
  assert (Hreq : request (text_of 6) (IdInt 4) "tools/call"
                   (JObj [("name", JStr "missing")])).
  { exists (fields_of (nth 6 messages JNull)), (JInt 4). repeat split; reflexivity. }
  split; [exact Hreq|].
  exact (tools_call_unregistered ready "2025-01-01T00:00:00" (text_of 6)
           (IdInt 4) _ "missing" Hreq eq_refl eq_refl).
Defined.

(** C2 (as stated) fails: on an initialised engine without tools, the
    response to [tools/call] for the name "missing" is the protocol error
    -32603; it has no result, so nothing in it signals [isError = true]. *)
Lemma tools_call_unregistered_is_protocol_error :
  fst (handle_message ready "2025-01-01T00:00:00" (text_of 6)) =
    Ok (error_reply (IdInt 4) (-32603) "Internal error: Tool not found: missing")
  /\ ~ (exists w,
         fst (handle_message ready "2025-01-01T00:00:00" (text_of 6)) = Ok w /\
         signals_isError w = true).
Proof.
  split; [vm_compute; reflexivity|].
  intros (w & Hw & Hs). vm_compute in Hw. injection Hw as <-. discriminate Hs.
Qed.

Lemma tools_call_handler_raises_witness :
  request (text_of 7) (IdInt 5) "tools/call"
    (JObj [("name", JStr "check_system_abc");
           ("arguments", JObj [("query", JStr "check all")])]) /\
  check_system_abc (JObj [("query", JStr "check all")]) =
    Raise (PyException "upstream down") /\
  handle_message ready_with_tool "2025-01-01T00:00:00" (text_of 7) =
    (Ok (Reply
           {| jsonrpc := "2.0"; id := IdInt 5;
              result_ :=
                Some (JObj [("content",
                             JArr [JObj [("type", JStr "text");
                                         ("text",
                                          JStr "Error executing tool: upstream down")]]);
                            ("isError", JBool true)]);
              error := None |}),
     ready_with_tool).
Proof.
  assert (Hreq : request (text_of 7) (IdInt 5) "tools/call"
                   (JObj [("name", JStr "check_system_abc");
                          ("arguments", JObj [("query", JStr "check all")])])).
  { exists (fields_of (nth 7 messages JNull)), (JInt 5). repeat split; reflexivity. }
  split; [exact Hreq|]. split; [reflexivity|].
  destruct (tools_call_handler_raises ready_with_tool "2025-01-01T00:00:00"
              (text_of 7) (IdInt 5) _ "check_system_abc"
              {| definition := {| name := "check_system_abc";
                                  description := "Check the ABC system";
                                  inputSchema :=
                                    {| schema_type := "object";
                                       properties :=
                                         JObj [("query",
                                                JObj [("type", JStr "string")])];
                                       required := ["query"] |} |};
                 handler := check_system_abc |}
              (PyException "upstream down")
              Hreq eq_refl eq_refl eq_refl eq_refl) as (w & Hw & -> & _).
  exact Hw.
Defined.

Lemma reply_or_silence_witness :
  (json_loads (text_of 8) = Some (nth 8 messages JNull) /\
   json_loads (text_of 10) = Some (nth 10 messages JNull))
  /\ (exists r,
        fst (handle_message fresh "2025-01-01T00:00:00" (text_of 8)) = Ok (Reply r))
  /\ fst (handle_message fresh "2025-01-01T00:00:00" (text_of 10)) = Ok Silent.
Proof.
  split; [split; reflexivity|].
  assert (H8 : json_loads (text_of 8) = Some (JObj (fields_of (nth 8 messages JNull))))
    by reflexivity.
  assert (H10 : json_loads (text_of 10)
                = Some (JObj (fields_of (nth 10 messages JNull))))
    by reflexivity.
  destruct (reply_or_silence fresh "2025-01-01T00:00:00" (text_of 8)
              (fields_of (nth 8 messages JNull)) H8 eq_refl)
    as (w & Hw & Hid & _).
  destruct (reply_or_silence fresh "2025-01-01T00:00:00" (text_of 10)
              (fields_of (nth 10 messages JNull)) H10 eq_refl)
    as (w' & Hw' & _ & Hnone).
  split.
  - destruct (proj2 (Hid eq_refl) ltac:(discriminate)) as [r ->].
    exists r. exact Hw.
  - rewrite Hw'. f_equal. apply (Hnone eq_refl). left. discriminate.
Defined.

(** C3 (as stated) fails: the message with id 2 and the method
    "initialized" carries an id, and is answered by the empty string. *)
Lemma initialized_request_gets_silence :
  json_loads (text_of 4) = Some (nth 4 messages JNull)
  /\ py_in "id" (fields_of (nth 4 messages JNull)) = true
  /\ assoc "id" (fields_of (nth 4 messages JNull)) = Some (JInt 2)
  /\ fst (handle_message fresh "2025-01-01T00:00:00" (text_of 4)) = Ok Silent
  /\ ~ (forall w,
          fst (handle_message fresh "2025-01-01T00:00:00" (text_of 4)) = Ok w ->
          (w = Silent <-> py_in "id" (fields_of (nth 4 messages JNull)) = false)).
Proof.
  repeat split; try (vm_compute; reflexivity).
  intros H. specialize (H Silent ltac:(vm_compute; reflexivity)).
  destruct H as [H _]. specialize (H eq_refl). vm_compute in H. discriminate H.
Qed.

(** The docstring of [_handle_notification] says a notification gets no
    response; one whose handling raises (here [notifications/cancelled]
    with a list as params) is nevertheless answered, by the outer handler of
    [handle_message]. *)
Example cancelled_with_list_params_is_answered :
  py_in "id" (fields_of (nth 11 messages JNull)) = false
  /\ fst (handle_message fresh "2025-01-01T00:00:00" (text_of 11)) =
       Ok (error_reply (IdInt 0) (-32603)
             "Internal error: 'list' object has no attribute 'get'").
Proof. split; vm_compute; reflexivity. Qed.

Lemma initialization_gate_witness :
  request (text_of 5) (IdInt 3) "tools/list" (JObj []) /\
  handle_message with_tool "2025-01-01T00:00:00" (text_of 5) =
    (Ok (error_reply (IdInt 3) (-32603) "Internal error: Server not initialized"),
     with_tool)
  /\ handle_message ready_with_tool "2025-01-01T00:00:00" (text_of 5) =
     (Ok (success_reply (IdInt 3) (tools_listing with_tool)), ready_with_tool).
Proof.
  assert (Hreq : request (text_of 5) (IdInt 3) "tools/list" (JObj [])).
  { exists (fields_of (nth 5 messages JNull)), (JInt 3). repeat split; reflexivity. }
  assert (Hinit : request (text_of 3) (IdInt 1) "initialize"
                    (JObj [("clientInfo", JObj [("name", JStr "n8n")])])).
  { exists (fields_of (nth 3 messages JNull)), (JInt 1). repeat split; reflexivity. }
  destruct (initialization_gate with_tool "2025-01-01T00:00:00" (text_of 5)
              (IdInt 3) "tools/list" (JObj []) Hreq) as (Hgate & Hafter & _).
  split; [exact Hreq|]. split; [exact (Hgate (or_introl eq_refl) eq_refl)|].
  vm_compute. reflexivity.
Defined.

(** C5 (as stated) fails: on an engine that was not initialised, a request
    for the method "resources/list" (neither [initialize] nor [ping]) is
    answered by -32601, not by -32603; and after [initialize] the
    [tools/call] request for the unregistered name "missing" still fails. *)
Lemma uninitialized_unknown_method :
  initialized fresh = false
  /\ fst (handle_message fresh "2025-01-01T00:00:00" (text_of 9)) =
       Ok (error_reply (IdInt 8) (-32601) "Method not found: resources/list")
  /\ error_code
       (error_reply (IdInt 8) (-32601) "Method not found: resources/list")
     <> Some (-32603)
  /\ fst (handle_message
            (snd (handle_message fresh "2025-01-01T00:00:00" (text_of 3)))
            "2025-01-01T00:00:01" (text_of 6)) =
       Ok (error_reply (IdInt 4) (-32603)
             "Internal error: Tool not found: missing").
Proof.
  repeat split; try (vm_compute; reflexivity). discriminate.
Qed.

Lemma framing_errors_witness :
  json_loads "{" = None /\
  handle_message with_tool "2025-01-01T00:00:00" "{" =
    (Ok (error_reply (IdInt 0) (-32700) "Parse error"), with_tool)
  /\ json_loads (text_of 2) = Some (nth 2 messages JNull)
  /\ handle_message with_tool "2025-01-01T00:00:00" (text_of 2) =
       (Ok (error_reply (IdInt 7) (-32600) "Invalid JSON-RPC version"), with_tool).
Proof.
  destruct (framing_errors with_tool "2025-01-01T00:00:00" "{") as [Hparse _].
  destruct (framing_errors with_tool "2025-01-01T00:00:00" (text_of 2))
    as [_ Hversion].
  split; [reflexivity|]. split; [exact (Hparse eq_refl)|].
  split; [reflexivity|].
  exact (Hversion (fields_of (nth 2 messages JNull)) (IdInt 7)
           eq_refl eq_refl eq_refl).
Defined.

(** C9 (as stated) fails: the text [[]] is well-formed JSON without a
    [jsonrpc] member, and so is the object with the list id; both are
    answered by -32603, not -32600. *)
Lemma wellformed_without_version_is_internal_error :
  (json_loads (text_of 0) = Some (JArr []) /\
   fst (handle_message fresh "2025-01-01T00:00:00" (text_of 0)) =
     Ok (error_reply (IdInt 0) (-32603)
           "Internal error: 'list' object has no attribute 'get'"))
  /\ (json_loads (text_of 12) = Some (JObj [("id", JArr [JInt 1])]) /\
      fst (handle_message fresh "2025-01-01T00:00:00" (text_of 12)) =
        Ok (error_reply (IdInt 0) (-32603)
              "Internal error: 1 validation error for MCPResponse"))
  /\ error_code
       (error_reply (IdInt 0) (-32603)
          "Internal error: 'list' object has no attribute 'get'")
     <> Some (-32600).
Proof.
  repeat split; try (vm_compute; reflexivity). discriminate.
Qed.

End EngineFacts.

(** ** The connection manager *)

Module SessionsFacts.
Import Sessions.

Lemma lookup_nonempty (m : gmap string connection) k c :
  m !! k = Some c -> (1 <= size m)%nat.
Proof.
  intros H. destruct (size m) eqn:Hs; [|lia].
  apply map_size_empty_inv in Hs. subst m. rewrite lookup_empty in H. discriminate.
Qed.

Lemma len_remove_present self cid c :
  get_connection_info self cid = Some c ->
  len (remove_connection self cid) = len self - 1.
Proof.
  unfold get_connection_info, remove_connection, len. intros H. rewrite H. simpl.
  rewrite map_size_delete_Some by eauto.
  pose proof (lookup_nonempty _ _ _ H). lia.
Qed.

Lemma remove_absent self cid :
  get_connection_info self cid = None -> remove_connection self cid = self.
Proof. unfold get_connection_info, remove_connection. now intros ->. Qed.

Lemma lookup_remove self cid :
  get_connection_info (remove_connection self cid) cid = None.
Proof.
  unfold get_connection_info, remove_connection.
  destruct (active_connections self !! cid) eqn:H; simpl; [|exact H].
  apply lookup_delete_eq.
Qed.

Lemma add_below_capacity self t1 t2 cid :
  len self < max_connections (config self) ->
  add_connection self t1 t2 cid =
    Ok (with_connections self
          (<[cid := {| conn_id := cid; connected_at := t1; last_heartbeat := t2;
                       messages_sent := 0 |}]> (active_connections self))).
Proof.
  intros H. unfold add_connection.
  destruct (max_connections (config self) <=? len self) eqn:Hc; [|reflexivity].
  apply Z.leb_le in Hc. lia.
Qed.

(** Every state the manager reaches keeps its configuration and never holds
    more connections than the configured maximum. *)
Lemma reachable_bounded cfg self :
  reachable cfg self ->
  config self = cfg /\ len self <= Z.max 0 (max_connections cfg).
Proof.
  induction 1 as [|self self' t1 t2 cid _ [IHc IHl] Hadd
                  |self cid _ [IHc IHl]
                  |self now cid _ [IHc IHl]
                  |self cid _ [IHc IHl]].
  - split; [reflexivity|]. unfold len, init. simpl. rewrite map_size_empty. lia.
  - unfold add_connection in Hadd.
    destruct (max_connections (config self) <=? len self) eqn:Hc; [discriminate|].
    apply Z.leb_gt in Hc. injection Hadd as <-. split; [exact IHc|].
    rewrite IHc in Hc. unfold len in *. simpl.
    destruct (active_connections self !! cid) eqn:Hl.
    + rewrite map_size_insert_Some by eauto. exact IHl.
    + rewrite map_size_insert_None by exact Hl. lia.
  - unfold remove_connection.
    destruct (active_connections self !! cid) eqn:Hl; [|now split].
    split; [exact IHc|]. unfold len in *. simpl.
    rewrite map_size_delete_Some by eauto. lia.
  - unfold update_heartbeat.
    destruct (active_connections self !! cid) eqn:Hl; [|now split].
    split; [exact IHc|]. unfold len in *. simpl.
    rewrite map_size_insert_Some by eauto. exact IHl.
  - unfold increment_messages.
    destruct (active_connections self !! cid) eqn:Hl; [|now split].
    split; [exact IHc|]. unfold len in *. simpl.
    rewrite map_size_insert_Some by eauto. exact IHl.
Qed.

(** C7.  [add_connection] raises the capacity error when the table holds the
    configured maximum or more, and otherwise stores under the id the record
    with the two clock readings and no message sent, leaving the other
    records alone.  [remove_connection] of an absent id changes nothing, is
    idempotent, and for a present id deletes the record and lowers the count
    by one; so in every state the manager reaches, after a rejected add and
    the removal of a present connection, the next add succeeds. *)
Theorem admission cfg self t1 t2 cid :
  reachable cfg self ->
  (max_connections cfg <= len self ->
   add_connection self t1 t2 cid =
     Raise (PyException
              ("Max connections reached (" +:+ dec (max_connections cfg) +:+ ")")))
  /\ (len self < max_connections cfg ->
      exists self',
        add_connection self t1 t2 cid = Ok self' /\
        get_connection_info self' cid =
          Some {| conn_id := cid; connected_at := t1; last_heartbeat := t2;
                  messages_sent := 0 |} /\
        forall other, other <> cid ->
          get_connection_info self' other = get_connection_info self other)
  /\ (get_connection_info self cid = None -> remove_connection self cid = self)
  /\ remove_connection (remove_connection self cid) cid = remove_connection self cid
  /\ (forall c, get_connection_info self cid = Some c ->
        get_connection_info (remove_connection self cid) cid = None /\
        len (remove_connection self cid) = len self - 1)
  /\ (forall victim c t1' t2' cid',
        max_connections cfg <= len self ->
        get_connection_info self victim = Some c ->
        exists self',
          add_connection (remove_connection self victim) t1' t2' cid' = Ok self').
Proof.
  intros Hreach. destruct (reachable_bounded cfg self Hreach) as [Hcfg Hlen].
  repeat split.
  - intros Hfull. unfold add_connection. rewrite Hcfg.
    destruct (max_connections cfg <=? len self) eqn:Hc; [reflexivity|].
    apply Z.leb_gt in Hc. lia.
  - intros Hfree. rewrite <- Hcfg in Hfree.
    eexists. split; [exact (add_below_capacity self t1 t2 cid Hfree)|].
    unfold get_connection_info. simpl. split; [apply lookup_insert_eq|].
    intros other Hne. apply lookup_insert_ne. congruence.
  - apply remove_absent.
  - apply remove_absent, lookup_remove.
  - apply lookup_remove.
  - now apply len_remove_present with (c := c).
  - intros victim c t1' t2' cid' Hfull Hvictim.
    eexists. apply add_below_capacity.
    rewrite (len_remove_present self victim c Hvictim).
    assert (Hc : config (remove_connection self victim) = cfg).
    { unfold remove_connection.
      destruct (active_connections self !! victim); simpl; exact Hcfg. }
    rewrite Hc. pose proof (lookup_nonempty _ _ _ Hvictim). unfold len in *. lia.
Qed.

Import Samples.

Lemma full_reachable : reachable one_slot full.
Proof.
  apply (reach_add one_slot (init one_slot) full 100 101 "a" (reach_init one_slot)).
  reflexivity.
Qed.

Lemma admission_witness :
  reachable one_slot full /\
  add_connection full 200 201 "b" =
    Raise (PyException "Max connections reached (1)")
  /\ (exists self',
        add_connection (remove_connection full "a") 200 201 "b" = Ok self').
Proof.
  destruct (admission one_slot full 200 201 "b" full_reachable)
    as (Hfull & _ & _ & _ & _ & Hagain).
  split; [exact full_reachable|].
  split; [apply Hfull; vm_compute; discriminate|].
  apply (Hagain "a" first_connection 200 201 "b");
    [vm_compute; discriminate | reflexivity].
Defined.

End SessionsFacts.

(** ** The streaming generator *)

Module StreamFacts.
Import Sessions Stream StreamSpec.

Section Facts.
Variable E : env.

Lemma quiet_app l1 l2 : quiet l1 -> quiet l2 -> quiet (l1 ++ l2).
Proof. unfold quiet. intros H1 H2. rewrite forallb_app, H1, H2. reflexivity. Qed.

(** The streaming loop only yields and counts. *)
Lemma stream_messages_quiet cid outgoing w :
  exists mid,
    trace (snd (stream_messages E cid outgoing w)) = trace w ++ mid /\ quiet mid.
Proof.
  revert w. induction outgoing as [|ev rest IH]; intros w; simpl.
  - exists []. split; [now rewrite app_nil_r | reflexivity].
  - unfold seq at 1. unfold yield at 1.
    destruct (consumer E (yields w)); simpl.
    + unfold seq at 1. unfold increment_messages at 1. simpl.
      match goal with |- context [stream_messages E cid rest ?w0] =>
        destruct (IH w0) as (mid & Hmid & Hq) end.
      exists ([EvYield ev; EvIncrement cid] ++ mid). split.
      * rewrite Hmid. simpl. rewrite <- !app_assoc. reflexivity.
      * apply quiet_app; [reflexivity | exact Hq].
    + exists [EvYield ev]. split; reflexivity.
    + exists [EvYield ev]. split; reflexivity.
Qed.

(** The inner [finally] block always completes, whatever interrupts the two
    awaits, and does exactly the four steps of [teardown]. *)
Lemma teardown_runs w :
  exists w',
    (cancel heartbeat_task ;;
     cancel processor_task ;;
     try_except_Cancelled (await E heartbeat_task) ;;
     try_except_Cancelled (await E processor_task)) w = (Normal tt, w') /\
    trace w' = trace w ++ teardown /\
    manager w' = manager w /\ yields w' = yields w.
Proof.
  unfold seq, cancel, try_except_Cancelled, await, log. simpl.
  destruct (await_interrupted E heartbeat_task),
           (await_interrupted E processor_task); simpl;
    (eexists; split; [reflexivity|]; simpl; split; [|split; reflexivity];
     rewrite <- !app_assoc; reflexivity).
Qed.

(** The protected region: the streaming loop inside its [finally]. *)
Lemma streaming_region cid outgoing w :
  exists mid,
    trace (snd (try_finally (stream_messages E cid outgoing)
                  (cancel heartbeat_task ;;
                   cancel processor_task ;;
                   try_except_Cancelled (await E heartbeat_task) ;;
                   try_except_Cancelled (await E processor_task)) w))
    = trace w ++ mid ++ teardown /\ quiet mid.
Proof.
  destruct (stream_messages_quiet cid outgoing w) as (mid & Hmid & Hq).
  exists mid. split; [|exact Hq].
  unfold try_finally.
  destruct (stream_messages E cid outgoing w) as [o w1]. simpl in Hmid.
  destruct (teardown_runs w1) as (w2 & Hrun & Htr & _).
  rewrite Hrun. simpl. rewrite Htr, Hmid, <- app_assoc. reflexivity.
Qed.

(** The outer [finally]: whatever the body did, the record is removed
    afterwards, once. *)
Lemma finally_remove (body : gen unit) cid w :
  trace (snd (try_finally body (remove_connection cid) w))
    = trace (snd (body w)) ++ [EvRemove cid] /\
  manager (snd (try_finally body (remove_connection cid) w))
    = Sessions.remove_connection (manager (snd (body w))) cid.
Proof.
  unfold try_finally, remove_connection.
  destruct (body w) as [o w1]. simpl. split; reflexivity.
Qed.

(** What an error event adds, however the consumer reacts to it. *)
Lemma yield_trace ev w :
  trace (snd (yield E ev w)) = trace w ++ [EvYield ev].
Proof. unfold yield. destruct (consumer E (yields w)); reflexivity. Qed.

Lemma seq_normal {A B : Type} (c : gen A) (k : gen B) w a w' :
  c w = (Normal a, w') -> (c ;; k) w = k w'.
Proof. unfold seq. now intros ->. Qed.

Lemma seq_abrupt {A B : Type} (c : gen A) (k : gen B) w s w' :
  c w = (Abrupt s, w') -> (c ;; k) w = (Abrupt s, w').
Proof. unfold seq. now intros ->. Qed.

(** The body of the outer [try] when the tasks are started: the connection
    was admitted and the consumer asked for more after the connection
    event. *)
Lemma body_started cid outgoing m m' :
  Sessions.add_connection m (now E) (now E) cid = Ok m' ->
  consumer E 0%nat = Resume ->
  exists mid post,
    trace (snd (try_except_Exception
                  (add_connection E cid ;;
                   yield E (connection_event E cid) ;;
                   increment_messages cid ;;
                   create_task heartbeat_task ;;
                   create_task processor_task ;;
                   try_finally
                     (stream_messages E cid outgoing)
                     (cancel heartbeat_task ;;
                      cancel processor_task ;;
                      try_except_Cancelled (await E heartbeat_task) ;;
                      try_except_Cancelled (await E processor_task)))
                  (fun e => yield E (error_event E e)) (start m)))
    = [EvAdd cid; EvYield (connection_event E cid); EvIncrement cid]
      ++ creation ++ mid ++ teardown ++ post
    /\ quiet mid /\ quiet post.
Proof.
  intros Hadd Hc0. unfold try_except_Exception.
  set (w1 := {| manager := m'; trace := [EvAdd cid]; yields := 0 |}).
  assert (H1 : add_connection E cid (start m) = (Normal tt, w1)).
  { unfold add_connection. simpl. now rewrite Hadd. }
  rewrite (seq_normal _ _ _ _ _ H1).
  set (w2 := {| manager := m';
                trace := [EvAdd cid; EvYield (connection_event E cid)];
                yields := 1 |}).
  assert (H2 : yield E (connection_event E cid) w1 = (Normal tt, w2)).
  { unfold yield. simpl. now rewrite Hc0. }
  rewrite (seq_normal _ _ _ _ _ H2).
  rewrite (seq_normal _ _ _ _ _ (eq_refl : increment_messages cid w2 = _)).
  rewrite (seq_normal _ _ _ _ _ (eq_refl : create_task heartbeat_task _ = _)).
  rewrite (seq_normal _ _ _ _ _ (eq_refl : create_task processor_task _ = _)).
  match goal with |- context [try_finally _ _ ?w0] =>
    destruct (streaming_region cid outgoing w0) as (mid & Hmid & Hq);
    destruct (try_finally (stream_messages E cid outgoing)
                (cancel heartbeat_task ;;
                 cancel processor_task ;;
                 try_except_Cancelled (await E heartbeat_task) ;;
                 try_except_Cancelled (await E processor_task)) w0)
      as [o w3]
  end.
  simpl in Hmid. exists mid.
  destruct o as [[]|[e| |]].
  - exists []. simpl. rewrite Hmid.
    repeat split; try reflexivity; try exact Hq.
    all: try now rewrite app_nil_r.
  - exists [EvYield (error_event E e)]. rewrite yield_trace, Hmid.
    repeat split; try reflexivity; try exact Hq.
    simpl. rewrite <- !app_assoc. reflexivity.
  - exists []. simpl. rewrite Hmid.
    repeat split; try reflexivity; try exact Hq.
    all: try now rewrite app_nil_r.
  - exists []. simpl. rewrite Hmid.
    repeat split; try reflexivity; try exact Hq.
    all: try now rewrite app_nil_r.
Qed.

(** The same body when the tasks are never started: admission was refused,
    or the consumer closed the generator or threw at the connection
    event. *)
Lemma body_not_started cid outgoing m :
  (exists e, Sessions.add_connection m (now E) (now E) cid = Raise e)
  \/ consumer E 0%nat <> Resume ->
  quiet
    (trace (snd (try_except_Exception
                   (add_connection E cid ;;
                    yield E (connection_event E cid) ;;
                    increment_messages cid ;;
                    create_task heartbeat_task ;;
                    create_task processor_task ;;
                    try_finally
                      (stream_messages E cid outgoing)
                      (cancel heartbeat_task ;;
                       cancel processor_task ;;
                       try_except_Cancelled (await E heartbeat_task) ;;
                       try_except_Cancelled (await E processor_task)))
                   (fun e => yield E (error_event E e)) (start m)))).
Proof.
  intros Hcase. unfold try_except_Exception.
  destruct (Sessions.add_connection m (now E) (now E) cid) as [m'|e] eqn:Hadd.
  - destruct Hcase as [[e He] | Hc0]; [discriminate He|].
    set (w1 := {| manager := m'; trace := [EvAdd cid]; yields := 0 |}).
    assert (H1 : add_connection E cid (start m) = (Normal tt, w1)).
    { unfold add_connection. simpl. now rewrite Hadd. }
    rewrite (seq_normal _ _ _ _ _ H1).
    set (w2 := {| manager := m';
                  trace := [EvAdd cid; EvYield (connection_event E cid)];
                  yields := 1 |}).
    destruct (consumer E 0%nat) eqn:Hd; [contradiction | |].
    + assert (H2 : yield E (connection_event E cid) w1 = (Abrupt GeneratorExit, w2)).
      { unfold yield. simpl. now rewrite Hd. }
      rewrite (seq_abrupt _ _ _ _ _ H2). reflexivity.
    + assert (H2 : yield E (connection_event E cid) w1 = (Abrupt (Raised e), w2)).
      { unfold yield. simpl. now rewrite Hd. }
      rewrite (seq_abrupt _ _ _ _ _ H2). rewrite yield_trace. reflexivity.
  - assert (H1 : add_connection E cid (start m)
                 = (Abrupt (Raised e), log (EvAdd cid) (start m))).
    { unfold add_connection. simpl. now rewrite Hadd. }
    rewrite (seq_abrupt _ _ _ _ _ H1). rewrite yield_trace. reflexivity.
Qed.

(** Admission depends on the number of records only. *)
Lemma add_connection_cases m t1 t2 cid :
  (len m < max_connections (config m) ->
   exists m', Sessions.add_connection m t1 t2 cid = Ok m')
  /\ (max_connections (config m) <= len m ->
      exists e, Sessions.add_connection m t1 t2 cid = Raise e).
Proof.
  unfold Sessions.add_connection.
  destruct (Z.leb_spec (max_connections (config m)) (len m)); split; intros H';
    try lia; eexists; reflexivity.
Qed.

(** C8.  The connection record is removed exactly once, as the last step
    of the generator, and afterwards the manager holds no record for the
    connection.  Once the heartbeat task and the message-pump task are
    started (the connection was admitted and the consumer took the
    connection event), then on every way out of the streaming loop (the
    queue is exhausted, the consumer closes the generator or throws at a
    yield, an await is interrupted by a cancellation) both tasks are
    cancelled, then both are awaited, once each and in that order, before
    the removal; nothing else happens to the tasks or to the record.  On
    the ways out that come before (admission refused, generator closed or
    thrown into at the connection event) no task was created, and none is
    cancelled or awaited. *)
Theorem cleanup_once connection_id outgoing m :
  let cid := assigned E connection_id in
  let w := snd (handle_sse_connection E connection_id outgoing (start m)) in
  get_connection_info (manager w) cid = None
  /\ (len m < max_connections (config m) -> consumer E 0%nat = Resume ->
      exists mid post,
        trace w =
          [EvAdd cid; EvYield (connection_event E cid); EvIncrement cid]
          ++ [EvCreate heartbeat_task; EvCreate processor_task]
          ++ mid
          ++ [EvCancel heartbeat_task; EvCancel processor_task;
              EvAwait heartbeat_task; EvAwait processor_task]
          ++ post ++ [EvRemove cid]
        /\ quiet mid /\ quiet post)
  /\ (max_connections (config m) <= len m \/ consumer E 0%nat <> Resume ->
      exists pre, trace w = pre ++ [EvRemove cid] /\ quiet pre).
Proof.
  intros cid w. subst w. unfold handle_sse_connection. fold (assigned E connection_id).
  fold cid.
  match goal with |- context [try_finally ?b (remove_connection cid)] =>
    destruct (finally_remove b cid (start m)) as [Htr Hman] end.
  destruct (add_connection_cases m (now E) (now E) cid) as [Hin Hout].
  split; [|split].
  - rewrite Hman. apply SessionsFacts.lookup_remove.
  - intros Hlt Hc0. destruct (Hin Hlt) as [m' Hadd].
    destruct (body_started cid outgoing m m' Hadd Hc0) as (mid & post & Hshape & H1 & H2).
    exists mid, post. rewrite Htr, Hshape.
    split; [|split; assumption].
    unfold creation, teardown. rewrite <- !app_assoc. reflexivity.
  - intros Hcase. eexists. split; [exact Htr|].
    apply body_not_started. destruct Hcase as [Hfull | Hc0]; [left | right; exact Hc0].
    exact (Hout Hfull).
Qed.

End Facts.

(** *** Concrete runs *)

Import Samples.

Lemma cleanup_once_witness :
  (len (Sessions.init one_slot) < max_connections (config (Sessions.init one_slot))
   /\ consumer StreamMore.staying 0%nat = Resume
   /\ consumer leaving 0%nat = Resume
   /\ consumer StreamMore.throwing 0%nat = Resume)
  /\ (exists mid post,
        trace (snd (handle_sse_connection StreamMore.staying (Some "a")
                      [heartbeat] (start (Sessions.init one_slot)))) =
          [EvAdd "a"; EvYield (connection_event StreamMore.staying "a");
           EvIncrement "a"]
          ++ [EvCreate heartbeat_task; EvCreate processor_task]
          ++ mid
          ++ [EvCancel heartbeat_task; EvCancel processor_task;
              EvAwait heartbeat_task; EvAwait processor_task]
          ++ post ++ [EvRemove "a"]
        /\ quiet mid /\ quiet post)
  /\ (exists mid post,
        trace (snd (handle_sse_connection leaving (Some "a")
                      [heartbeat; heartbeat] (start (Sessions.init one_slot)))) =
          [EvAdd "a"; EvYield (connection_event leaving "a"); EvIncrement "a"]
          ++ [EvCreate heartbeat_task; EvCreate processor_task]
          ++ mid
          ++ [EvCancel heartbeat_task; EvCancel processor_task;
              EvAwait heartbeat_task; EvAwait processor_task]
          ++ post ++ [EvRemove "a"]
        /\ quiet mid /\ quiet post)
  /\ (exists mid post,
        trace (snd (handle_sse_connection StreamMore.throwing (Some "a")
                      [heartbeat; heartbeat] (start (Sessions.init one_slot)))) =
          [EvAdd "a"; EvYield (connection_event StreamMore.throwing "a");
           EvIncrement "a"]
          ++ [EvCreate heartbeat_task; EvCreate processor_task]
          ++ mid
          ++ [EvCancel heartbeat_task; EvCancel processor_task;
              EvAwait heartbeat_task; EvAwait processor_task]
          ++ post ++ [EvRemove "a"]
        /\ quiet mid /\ quiet post).
Proof.
  assert (Hroom : len (Sessions.init one_slot)
                  < max_connections (config (Sessions.init one_slot)))
    by (vm_compute; reflexivity).
  split; [repeat split; exact Hroom|]. split; [|split].
  - exact (proj1 (proj2 (cleanup_once StreamMore.staying (Some "a") [heartbeat]
                           (Sessions.init one_slot))) Hroom eq_refl).
  - exact (proj1 (proj2 (cleanup_once leaving (Some "a") [heartbeat; heartbeat]
                           (Sessions.init one_slot))) Hroom eq_refl).
  - exact (proj1 (proj2 (cleanup_once StreamMore.throwing (Some "a")
                           [heartbeat; heartbeat]
                           (Sessions.init one_slot))) Hroom eq_refl).
Defined.

(** The three ways out of the streaming loop: the queue is exhausted, the
    client disconnects at the first heartbeat, the client throws at the
    second heartbeat; and a connection refused because the manager is
    full. *)
Example queue_exhausted :
  trace (snd (handle_sse_connection StreamMore.staying (Some "a") [heartbeat]
                (start (Sessions.init one_slot)))) =
    [EvAdd "a"; EvYield (connection_event StreamMore.staying "a"); EvIncrement "a";
     EvCreate heartbeat_task; EvCreate processor_task;
     EvYield heartbeat; EvIncrement "a";
     EvCancel heartbeat_task; EvCancel processor_task;
     EvAwait heartbeat_task; EvAwait processor_task;
     EvRemove "a"].
Proof. vm_compute. reflexivity. Qed.

Example thrown_at_heartbeat :
  trace (snd (handle_sse_connection StreamMore.throwing (Some "a")
                [heartbeat; heartbeat] (start (Sessions.init one_slot)))) =
    [EvAdd "a"; EvYield (connection_event StreamMore.throwing "a"); EvIncrement "a";
     EvCreate heartbeat_task; EvCreate processor_task;
     EvYield heartbeat; EvIncrement "a"; EvYield heartbeat;
     EvCancel heartbeat_task; EvCancel processor_task;
     EvAwait heartbeat_task; EvAwait processor_task;
     EvYield (error_event StreamMore.throwing (PyException "client error"));
     EvRemove "a"].
Proof. vm_compute. reflexivity. Qed.

Example disconnect_at_heartbeat :
  trace (snd (handle_sse_connection leaving (Some "a") [heartbeat; heartbeat]
                (start (Sessions.init one_slot)))) =
    [EvAdd "a"; EvYield (connection_event leaving "a"); EvIncrement "a";
     EvCreate heartbeat_task; EvCreate processor_task;
     EvYield heartbeat;
     EvCancel heartbeat_task; EvCancel processor_task;
     EvAwait heartbeat_task; EvAwait processor_task;
     EvRemove "a"].
Proof. vm_compute. reflexivity. Qed.

Example refused_when_full :
  trace (snd (handle_sse_connection leaving (Some "b") [heartbeat] (start full))) =
    [EvAdd "b";
     EvYield (error_event leaving (PyException "Max connections reached (1)"));
     EvRemove "b"].
Proof. vm_compute. reflexivity. Qed.

End StreamFacts.

(** ** The upstream client *)

Module ClientFacts.
Import Client ClientSpec.

Section Facts.
Context {V : Validators}.

(** The decorator's predicate accepts exactly the client errors and the
    timeouts. *)
Lemma retried_exceptions e :
  retry_if_exception_type e = true <->
  (e = TimeoutError \/ exists msg, e = ClientError msg).
Proof.
  split.
  - destruct e; simpl; intros H; try discriminate H.
    + right. eexists. reflexivity.
    + left. reflexivity.
  - intros [-> | [msg ->]]; reflexivity.
Qed.

Lemma request_once_transient a e :
  _request_once a = Raise e -> retry_if_exception_type e = true -> transient a.
Proof.
  destruct a as [status reason ct body|e']; simpl.
  - destruct (400 <=? status); [|discriminate]. intros [= <-]. discriminate.
  - intros [= ->] H. exists e. split; [reflexivity | now apply retried_exceptions].
Qed.

Lemma transient_raises a :
  transient a ->
  exists e, _request_once a = Raise e /\ retry_if_exception_type e = true.
Proof.
  intros (e & -> & H). exists e. split; [reflexivity | now apply retried_exceptions].
Qed.

(** The retry loop, from attempt [k] with [remaining] attempts left after
    it: it stops at the first attempt that is not a transient failure, or
    at the last one allowed; it sleeps [wait_exponential] after each attempt
    it retries. *)
Lemma retrying_spec remaining : forall k a,
  let c := retrying remaining k a in
  (k <= attempts c <= k + remaining)%nat /\
  sleeps c = map wait_exponential (seq k (attempts c - k)) /\
  (forall j, (k <= j < attempts c)%nat -> transient (a j)) /\
  match _request_once (a (attempts c)) with
  | Ok d => outcome c = Ok d
  | Raise e =>
      if retry_if_exception_type e
      then attempts c = (k + remaining)%nat /\
           outcome c = Raise (RetryError (retry_error_str e))
      else outcome c = Raise e
  end.
Proof.
  induction remaining as [|r IH]; intros k a; simpl.
  - destruct (_request_once (a k)) as [d|e] eqn:Hk; simpl.
    + rewrite Hk, Nat.sub_diag. repeat split; try lia; intros j Hj; lia.
    + destruct (retry_if_exception_type e) eqn:He; simpl;
        rewrite Hk, He, Nat.sub_diag; repeat split; try lia; intros j Hj; lia.
  - destruct (_request_once (a k)) as [d|e] eqn:Hk; simpl.
    + rewrite Hk, Nat.sub_diag. repeat split; try lia; intros j Hj; lia.
    + destruct (retry_if_exception_type e) eqn:He; simpl.
      * destruct (IH (S k) a) as (Hb & Hs & Ht & Hlast).
        split; [lia|]. split; [|split].
        -- rewrite Hs.
           replace (attempts (retrying r (S k) a) - k)%nat
             with (S (attempts (retrying r (S k) a) - S k)) by lia.
           reflexivity.
        -- intros j Hj. destruct (Nat.eq_dec j k) as [->|Hne].
           ++ exact (request_once_transient _ _ Hk He).
           ++ apply Ht. lia.
        -- destruct (_request_once (a (attempts (retrying r (S k) a)))) as [d|e'];
             [exact Hlast|].
           destruct (retry_if_exception_type e'); [|exact Hlast].
           destruct Hlast as [Hn Ho]. split; [lia | exact Ho].
      * rewrite Hk, He, Nat.sub_diag. repeat split; try lia; intros j Hj; lia.
Qed.

(** The loop stops at the first attempt that is not a transient failure. *)
Lemma retrying_stops remaining : forall k a n,
  (k <= n <= k + remaining)%nat ->
  (forall j, (k <= j < n)%nat -> transient (a j)) ->
  ~ transient (a n) ->
  attempts (retrying remaining k a) = n.
Proof.
  intros k a n Hn Hbefore Hlast.
  destruct (retrying_spec remaining k a) as (Hb & _ & Ht & Hend).
  set (c := retrying remaining k a) in *.
  destruct (Nat.lt_trichotomy (attempts c) n) as [Hlt|[Heq|Hgt]].
  - exfalso.
    destruct (transient_raises _ (Hbefore (attempts c) ltac:(lia)))
      as (e & He & Hr).
    rewrite He, Hr in Hend. lia.
  - exact Heq.
  - exfalso. apply Hlast, Ht. lia.
Qed.

Lemma wait_exponential_pow n :
  (1 <= n)%nat -> wait_exponential n = Z.min (2 ^ (Z.of_nat n - 1)) 10.
Proof.
  intros Hn. unfold wait_exponential.
  assert (0 < 2 ^ (Z.of_nat n - 1)) by (apply Z.pow_pos_nonneg; lia). lia.
Qed.

Lemma response_not_transient status reason ct body :
  ~ transient (Responded status reason ct body).
Proof. intros (e & H & _). discriminate H. Qed.

(** C6.  [_request] runs its body at most three times.  It runs it again
    only after a transient failure, that is an attempt ended by an aiohttp
    client error or by a timeout, and it does run it again after each of
    these as long as fewer than three attempts were made; it sleeps
    [min(2^(n-1), 10)] seconds after the n-th attempt.  Two transient
    failures followed by a response below 400 give that response's data
    after exactly three attempts.  A response with status 400 or more ends
    the call at once with [APIError(status, "Request failed: <reason>",
    data)]: when it answers the first attempt, that attempt is the only
    one. *)
Theorem retry_policy (net : network) (method endpoint : string) :
  let a := net method endpoint in
  let c := _request_call net method endpoint in
  (1 <= attempts c <= 3)%nat
  /\ (forall j, (1 <= j < attempts c)%nat ->
        a j = Failed TimeoutError \/ exists msg, a j = Failed (ClientError msg))
  /\ (forall n, (1 <= n < 3)%nat ->
        (forall j, (1 <= j <= n)%nat -> transient (a j)) ->
        (n < attempts c)%nat)
  /\ sleeps c = map wait_exponential (seq 1 (attempts c - 1))
  /\ (forall n, (1 <= n)%nat ->
        wait_exponential n = Z.min (2 ^ (Z.of_nat n - 1)) 10)
  /\ (forall status reason ct body,
        transient (a 1%nat) -> transient (a 2%nat) ->
        a 3%nat = Responded status reason ct body -> status < 400 ->
        outcome c = Ok (response_data ct body) /\
        attempts c = 3%nat /\ sleeps c = [1; 2])
  /\ (forall n status reason ct body,
        (1 <= n <= 3)%nat ->
        (forall j, (1 <= j < n)%nat -> transient (a j)) ->
        a n = Responded status reason ct body -> 400 <= status ->
        attempts c = n /\
        outcome c =
          Raise (APIError status ("Request failed: " +:+ reason)
                   (response_data ct body)))
  /\ (forall status reason ct body,
        a 1%nat = Responded status reason ct body -> 400 <= status ->
        attempts c = 1%nat /\ sleeps c = [] /\
        outcome c =
          Raise (APIError status ("Request failed: " +:+ reason)
                   (response_data ct body))).
Proof.
  intros a c.
  destruct (retrying_spec 2 1 a) as (Hb & Hs & Ht & Hend).
  fold a in Hb, Hs, Ht, Hend.
  change (retrying 2 1 a) with c in Hb, Hs, Ht, Hend.
  assert (Hfinal : forall n status reason ct body,
             (1 <= n <= 3)%nat ->
             (forall j, (1 <= j < n)%nat -> transient (a j)) ->
             a n = Responded status reason ct body ->
             attempts c = n /\
             outcome c =
               if 400 <=? status
               then Raise (APIError status ("Request failed: " +:+ reason)
                             (response_data ct body))
               else Ok (response_data ct body)).
  { intros n status reason ct body Hn Hbefore Han.
    assert (Hatt : attempts c = n).
    { apply (retrying_stops 2 1 a n); [lia | exact Hbefore |].
      rewrite Han. apply response_not_transient. }
    split; [exact Hatt|].
    rewrite Hatt, Han in Hend. simpl in Hend. fold (response_data ct body) in Hend.
    destruct (400 <=? status); exact Hend. }
  split; [lia|]. split; [|split].
  { intros j Hj. destruct (Ht j Hj) as (e & Hj' & [-> | [msg ->]]);
      [left; exact Hj' | right; exists msg; exact Hj']. }
  { intros n Hn Hall.
    destruct (Nat.le_gt_cases (attempts c) n) as [Hle|Hgt]; [exfalso | exact Hgt].
    destruct (transient_raises _ (Hall (attempts c) ltac:(lia))) as (e & He & Hr).
    rewrite He, Hr in Hend. lia. }
  split; [exact Hs|].
  split; [exact wait_exponential_pow|]. split; [|split].
  - intros status reason ct body H1 H2 H3 Hlt.
    destruct (Hfinal 3%nat status reason ct body) as [Hatt Hout]; [lia| |exact H3|].
    { intros j Hj. assert (j = 1 \/ j = 2)%nat as [-> | ->] by lia; assumption. }
    rewrite Hout, Hs, Hatt.
    destruct (400 <=? status) eqn:Hc; [apply Z.leb_le in Hc; lia|].
    repeat split.
  - intros n status reason ct body Hn Hbefore Han Hge.
    destruct (Hfinal n status reason ct body Hn Hbefore Han) as [Hatt Hout].
    split; [exact Hatt|]. rewrite Hout.
    destruct (400 <=? status) eqn:Hc; [reflexivity | apply Z.leb_gt in Hc; lia].
  - intros status reason ct body Ha Hge.
    destruct (Hfinal 1%nat status reason ct body) as [Hatt Hout];
      [lia | intros j Hj; lia | exact Ha |].
    rewrite Hout, Hs, Hatt.
    destruct (400 <=? status) eqn:Hc; [|apply Z.leb_gt in Hc; lia].
    repeat split.
Qed.

(** C10.  Each accessor returns a value whatever the upstream call and the
    decoding of its answer do.  When the request or anything else in the
    [try] block raises, [check_health] returns the status "unhealthy" with
    the error text under "error" in its services; [get_user_status],
    [get_services] and [query_logs] return the empty list; [get_metrics]
    returns [None]. *)
Theorem accessors_total (net : network) (now : Z) (params : json) :
  (exists h,
     check_health net now = Ok h /\
     forall e,
       _request net "GET" "/api/system/health" = Raise e \/
       check_health_body net now = Raise e ->
       h = {| hs_status := "unhealthy"; hs_timestamp := now;
              hs_services := [("error", exn_str e)];
              hs_uptime_seconds := None |})
  /\ (exists l,
        get_user_status net = Ok l /\
        forall e,
          _request net "GET" "/api/users/status" = Raise e \/
          get_user_status_body net = Raise e -> l = [])
  /\ (exists l,
        get_services net = Ok l /\
        forall e,
          _request net "GET" "/api/services/list" = Raise e \/
          get_services_body net = Raise e -> l = [])
  /\ (exists l,
        query_logs net now params = Ok l /\
        forall e,
          _request net "POST" "/api/logs/query" = Raise e \/
          query_logs_body net now params = Raise e -> l = [])
  /\ (exists o,
        get_metrics net now = Ok o /\
        forall e,
          _request net "GET" "/api/metrics/current" = Raise e \/
          get_metrics_body net now = Raise e -> o = None).
Proof.
  repeat split.
  - unfold check_health.
    destruct (check_health_body net now) as [h|e0] eqn:Hb; simpl;
      eexists; (split; [reflexivity|]); intros e [Hr|He].
    + unfold check_health_body in Hb. rewrite Hr in Hb. discriminate.
    + discriminate.
    + unfold check_health_body in Hb. rewrite Hr in Hb. simpl in Hb.
      injection Hb as <-. reflexivity.
    + injection He as <-. reflexivity.
  - unfold get_user_status.
    destruct (get_user_status_body net) as [l|e0] eqn:Hb; simpl;
      eexists; (split; [reflexivity|]); intros e [Hr|He]; try reflexivity.
    + unfold get_user_status_body in Hb. rewrite Hr in Hb. discriminate.
    + discriminate.
  - unfold get_services.
    destruct (get_services_body net) as [l|e0] eqn:Hb; simpl;
      eexists; (split; [reflexivity|]); intros e [Hr|He]; try reflexivity.
    + unfold get_services_body in Hb. rewrite Hr in Hb. discriminate.
    + discriminate.
  - unfold query_logs.
    destruct (query_logs_body net now params) as [l|e0] eqn:Hb; simpl;
      eexists; (split; [reflexivity|]); intros e [Hr|He]; try reflexivity.
    + unfold query_logs_body in Hb. rewrite Hr in Hb.
      destruct (LogQueryParams_dump params); discriminate.
    + discriminate.
  - unfold get_metrics.
    destruct (get_metrics_body net now) as [o|e0] eqn:Hb; simpl;
      eexists; (split; [reflexivity|]); intros e [Hr|He]; try reflexivity.
    + unfold get_metrics_body in Hb. rewrite Hr in Hb. discriminate.
    + discriminate.
Qed.

(** A [try] whose handler returns always returns. *)
Lemma guarded_returns {A : Type} (c : result A) (h : exn -> A) :
  exists v, try_except c (fun e => Ok (h e)) = Ok v.
Proof. destruct c; simpl; eexists; reflexivity. Qed.

(** No task of the fan-out ever ends with an exception. *)
Lemma tasks_all_return net clk p :
  Forall (fun t => exists v, t = Ok v) (snd (build_tasks net clk p)).
Proof.
  destruct (guarded_returns (check_health_body net (t_call clk))
              (fun e => unhealthy e (t_call clk))) as (h & Hh).
  destruct (guarded_returns (get_user_status_body net) (fun _ => [])) as (u & Hu).
  destruct (guarded_returns (get_services_body net) (fun _ => [])) as (sv & Hsv).
  destruct (guarded_returns
              (query_logs_body net (t_call clk)
                 (if py_truthy (log_params p) then log_params p
                  else default_log_params)) (fun _ => [])) as (l & Hl).
  destruct (guarded_returns (get_metrics_body net (t_call clk)) (fun _ => None))
    as (o & Ho).
  fold (check_health net (t_call clk)) in Hh.
  fold (get_user_status net) in Hu.
  fold (get_services net) in Hsv.
  fold (query_logs net (t_call clk)
          (if py_truthy (log_params p) then log_params p
           else default_log_params)) in Hl.
  fold (get_metrics net (t_call clk)) in Ho.
  unfold build_tasks.
  destruct (include_health p), (include_users p), (include_services p),
           (include_logs p), (include_metrics p); simpl;
    rewrite ?Hh, ?Hu, ?Hsv, ?Hl, ?Ho; simpl;
    repeat (constructor; [eexists; reflexivity|]); constructor.
Qed.

Lemma parse_results_no_errors names tasks : forall errs dict,
  Forall (fun t : result payload => exists v, t = Ok v) tasks ->
  fst (parse_results (combine names tasks) errs dict) = errs.
Proof.
  revert tasks. induction names as [|nm names IH]; intros tasks errs dict Hall.
  - reflexivity.
  - destruct tasks as [|t tasks]; [reflexivity|].
    inversion Hall as [|? ? [v ->] Hrest]; subst. simpl. apply IH. exact Hrest.
Qed.

(** The error list of an aggregation is empty, whatever the plan and
    whatever the upstream does. *)
Lemma errors_always_empty net clk p : errors (check_all_systems net clk p) = [].
Proof.
  unfold check_all_systems, gather.
  pose proof (tasks_all_return net clk p) as Hall.
  destruct (build_tasks net clk p) as [names tasks]. simpl in Hall.
  pose proof (parse_results_no_errors names tasks [] [] Hall) as Herr.
  destruct (parse_results (combine names tasks) [] []) as [errs dict].
  simpl in *. exact Herr.
Qed.

(** A category the plan does not request is absent from the result. *)
Lemma unrequested_absent net clk p :
  let r := check_all_systems net clk p in
  (include_health p = false -> health r = None) /\
  (include_users p = false -> users r = None) /\
  (include_services p = false -> services r = None) /\
  (include_logs p = false -> logs r = None) /\
  (include_metrics p = false -> metrics r = None).
Proof.
  destruct (guarded_returns (check_health_body net (t_call clk))
              (fun e => unhealthy e (t_call clk))) as (h & Hh).
  destruct (guarded_returns (get_user_status_body net) (fun _ => [])) as (u & Hu).
  destruct (guarded_returns (get_services_body net) (fun _ => [])) as (sv & Hsv).
  destruct (guarded_returns
              (query_logs_body net (t_call clk)
                 (if py_truthy (log_params p) then log_params p
                  else default_log_params)) (fun _ => [])) as (l & Hl).
  destruct (guarded_returns (get_metrics_body net (t_call clk)) (fun _ => None))
    as (o & Ho).
  fold (check_health net (t_call clk)) in Hh.
  fold (get_user_status net) in Hu.
  fold (get_services net) in Hsv.
  fold (query_logs net (t_call clk)
          (if py_truthy (log_params p) then log_params p
           else default_log_params)) in Hl.
  fold (get_metrics net (t_call clk)) in Ho.
  unfold check_all_systems, gather, build_tasks.
  destruct (include_health p), (include_users p), (include_services p),
           (include_logs p), (include_metrics p); simpl;
    rewrite ?Hh, ?Hu, ?Hsv, ?Hl, ?Ho; simpl;
    repeat split; intros; try discriminate; try reflexivity;
    destruct o; reflexivity.
Qed.

End Facts.

(** *** Concrete runs *)

Import Samples.

Lemma retry_policy_witness :
  (ClientMore.slow_start "GET" "/api/system/health" 1%nat = Failed TimeoutError /\
   ClientMore.slow_start "GET" "/api/system/health" 2%nat =
     Failed (ClientError "Cannot connect to host") /\
   ClientMore.slow_start "GET" "/api/system/health" 3%nat =
     Responded 200 "OK" "application/json" (answers "/api/system/health"))
  /\ (outcome (_request_call ClientMore.slow_start "GET" "/api/system/health") =
        Ok (answers "/api/system/health") /\
      attempts (_request_call ClientMore.slow_start "GET" "/api/system/health")
        = 3%nat /\
      sleeps (_request_call ClientMore.slow_start "GET" "/api/system/health")
        = [1; 2])
  /\ (attempts (_request_call health_down "GET" "/api/system/health") = 1%nat /\
      sleeps (_request_call health_down "GET" "/api/system/health") = [] /\
      outcome (_request_call health_down "GET" "/api/system/health") =
        Raise (APIError 500 "Request failed: Internal Server Error"
                 (JObj [("detail", JStr "boom")]))).
Proof.
  assert (H1 : transient (ClientMore.slow_start "GET" "/api/system/health" 1%nat)).
  { exists TimeoutError. split; [reflexivity | left; reflexivity]. }
  assert (H2 : transient (ClientMore.slow_start "GET" "/api/system/health" 2%nat)).
  { exists (ClientError "Cannot connect to host").
    split; [reflexivity | right; eexists; reflexivity]. }
  destruct (retry_policy ClientMore.slow_start "GET" "/api/system/health")
    as (_ & _ & _ & _ & _ & Hthird & _ & _).
  destruct (retry_policy health_down "GET" "/api/system/health")
    as (_ & _ & _ & _ & _ & _ & _ & Hfirst).
  split; [|split].
  - repeat split.
  - apply (Hthird 200 "OK" "application/json" (answers "/api/system/health"));
      [exact H1 | exact H2 | reflexivity | lia].
  - apply (Hfirst 500 "Internal Server Error" "application/json"
             (JObj [("detail", JStr "boom")])); [reflexivity | lia].
Defined.

Lemma accessors_total_witness :
  _request health_down "GET" "/api/system/health" =
    Raise (APIError 500 "Request failed: Internal Server Error"
             (JObj [("detail", JStr "boom")]))
  /\ check_health health_down 1001 =
       Ok {| hs_status := "unhealthy"; hs_timestamp := 1001;
             hs_services :=
               [("error", "API Error 500: Request failed: Internal Server Error")];
             hs_uptime_seconds := None |}.
Proof.
  destruct (accessors_total health_down 1001 JNull) as ((h & Hh & Hfail) & _).
  split; [reflexivity|].
  rewrite Hh. f_equal.
  exact (Hfail (APIError 500 "Request failed: Internal Server Error"
                  (JObj [("detail", JStr "boom")]))
               (or_introl eq_refl)).
Defined.

(** C1 at a failing input.  All five categories are requested and only the
    health endpoint fails (it answers 500).  Four categories are populated,
    as the claim says; but the failed category is populated too, with the
    "unhealthy" record, and the error list is empty, where the claim has
    the field absent and one error entry. *)
Theorem partial_failure_not_reported :
  (category_failed health_down readings all_five "health" = true /\
   category_failed health_down readings all_five "users" = false /\
   category_failed health_down readings all_five "services" = false /\
   category_failed health_down readings all_five "logs" = false /\
   category_failed health_down readings all_five "metrics" = false)
  /\ errors (check_all_systems health_down readings all_five) = []
  /\ health (check_all_systems health_down readings all_five) =
       Some {| hs_status := "unhealthy"; hs_timestamp := 1001;
               hs_services :=
                 [("error", "API Error 500: Request failed: Internal Server Error")];
               hs_uptime_seconds := None |}
  /\ users (check_all_systems health_down readings all_five) =
       Some [{| us_user_id := "u1"; us_username := "ann"; us_status := "active";
                us_last_login := None; us_session_count := 2 |}]
  /\ services (check_all_systems health_down readings all_five) =
       Some [{| si_service_id := "s1"; si_name := "api"; si_status := "running";
                si_version := "1.2"; si_endpoints := [] |}]
  /\ logs (check_all_systems health_down readings all_five) = Some []
  /\ (exists m, metrics (check_all_systems health_down readings all_five) = Some m).
Proof.
  repeat split; try (vm_compute; reflexivity).
  eexists. vm_compute. reflexivity.
Qed.

End ClientFacts.

(** ** More on the protocol engine *)

Module EngineExtra.
Import Engine EngineSpec EngineMore.

Section Facts.
Context {R : Runtime}.

(** [handle_message] leaves the engine as it was, except for a JSON-RPC 2.0
    request whose method is [initialize]: that one, whatever its outcome,
    records the params and sets the flag.  So the tools and the session id
    never change, and an initialised engine stays initialised. *)
Theorem state_changes_only_on_initialize self now s :
  (snd (handle_message self now s) = self \/
   exists fields,
     json_loads s = Some (JObj fields) /\
     str_is (get_or "jsonrpc" fields JNull) "2.0" = true /\
     py_in "id" fields = true /\
     get_or "method" fields JNull = JStr "initialize" /\
     snd (handle_message self now s) =
       after_initialize self (get_or "params" fields (JObj [])))
  /\ tools (snd (handle_message self now s)) = tools self
  /\ session_id (snd (handle_message self now s)) = session_id self
  /\ (initialized self = true ->
      initialized (snd (handle_message self now s)) = true).
Proof.
  assert (Hmain :
    snd (handle_message self now s) = self \/
    exists fields,
      json_loads s = Some (JObj fields) /\
      str_is (get_or "jsonrpc" fields JNull) "2.0" = true /\
      py_in "id" fields = true /\
      get_or "method" fields JNull = JStr "initialize" /\
      snd (handle_message self now s) =
        after_initialize self (get_or "params" fields (JObj []))).
  { unfold handle_message.
    destruct (json_loads s) as [msg|] eqn:Hs; [|left; reflexivity].
    destruct msg as [| | | | |l|fields]; try (left; reflexivity).
    unfold handle_decoded.
    destruct (str_is (get_or "jsonrpc" fields JNull) "2.0") eqn:Hv;
      [|left; reflexivity].
    simpl negb. cbv iota.
    destruct (py_in "id" fields) eqn:Hid; [|left; reflexivity].
    unfold _handle_request, _handle_request_body.
    destruct (str_is (get_or "method" fields JNull) "initialize") eqn:Hm.
    - right. exists fields. apply EngineFacts.str_is_eq in Hm.
      repeat split; try assumption; reflexivity.
    - left.
      destruct (str_is (get_or "method" fields JNull) "initialized"); [reflexivity|].
      destruct (str_is (get_or "method" fields JNull) "tools/list"); [reflexivity|].
      destruct (str_is (get_or "method" fields JNull) "tools/call"); [reflexivity|].
      destruct (str_is (get_or "method" fields JNull) "ping"); reflexivity. }
  split; [exact Hmain|].
  destruct Hmain as [-> | (fields & _ & _ & _ & _ & ->)].
  - repeat split. auto.
  - repeat split.
Qed.

(** Whatever the state of the engine and whatever text arrives,
    [handle_message] returns: no exception of the parsing, the routing, a
    method or the building of a response escapes it. *)
Theorem never_raises self now s :
  exists w, handle_message self now s = (Ok w, snd (handle_message self now s)).
Proof.
  destruct (EngineFacts.handle_message_total self now s) as (w & Hw).
  exists w. destruct (handle_message self now s) as [r self']. simpl in *.
  now subst r.
Qed.

(** A request of the data model for a method the engine does not route is
    answered by -32601 with the method's name, initialised or not, and
    leaves the engine as it was. *)
Theorem unknown_method self now s rid method params :
  request s rid method params ->
  routed method = false ->
  handle_message self now s =
    (Ok (error_reply rid (-32601) ("Method not found: " +:+ method)), self).
Proof.
  intros Hreq Hr.
  destruct (EngineFacts.request_dispatch self now s _ _ _ Hreq) as (idj & Hid & ->).
  unfold routed in Hr. simpl in Hr.
  repeat (apply orb_false_elim in Hr; destruct Hr as [? Hr]).
  unfold _handle_request_body. simpl str_is.
  repeat match goal with H : String.eqb _ _ = false |- _ => rewrite H; clear H end.
  simpl fst. simpl snd.
  rewrite (EngineFacts.error_response_typed idj _ _ rid Hid), py_str_str.
  reflexivity.
Qed.

(** An [initialize] request whose params are not an object is answered by
    the internal error -32603, yet the engine is initialised by it: the
    flag and the client info are set before the params are read. *)
Theorem initialize_with_bad_params self now s rid params :
  request s rid "initialize" params ->
  (forall fields, params <> JObj fields) ->
  handle_message self now s =
    (Ok (error_reply rid (-32603)
           ("Internal error: '" +:+ type_name params +:+
            "' object has no attribute 'get'")),
     after_initialize self params)
  /\ initialized (snd (handle_message self now s)) = true.
Proof.
  intros Hreq Hp.
  destruct (EngineFacts.request_dispatch self now s _ _ _ Hreq) as (idj & Hid & ->).
  unfold _handle_request_body. simpl str_is. cbv iota.
  unfold _handle_initialize.
  destruct params; try (exfalso; eapply Hp; reflexivity);
    simpl; rewrite (EngineFacts.error_response_typed idj _ _ rid Hid);
    split; reflexivity.
Qed.

(** Whatever the method, the response to a request of the data model
    carries the id of the request. *)
Theorem response_echoes_id self now s rid method params :
  request s rid method params ->
  exists w,
    fst (handle_message self now s) = Ok w /\
    (w = Silent \/ exists r, w = Reply r /\ id r = rid).
Proof.
  intros Hreq.
  destruct (EngineFacts.request_dispatch self now s _ _ _ Hreq) as (idj & Hid & ->).
  simpl fst.
  assert (Hsucc : forall res : result json,
            exists w,
              try_except
                (try_except
                   (let* r := res in
                    let* resp := MCPResponse_new idj (Some r) None in
                    Ok (Reply resp))
                   (fun e => _error_response idj (-32603)
                               ("Internal error: " +:+ exn_str e)))
                (fun e => _error_response JNull (-32603)
                            ("Internal error: " +:+ exn_str e)) = Ok w /\
              (w = Silent \/ exists r, w = Reply r /\ id r = rid)).
  { intros res. rewrite (EngineFacts.respond_typed idj rid res Hid).
    eexists. split; [reflexivity|]. right.
    destruct res; eexists; split; reflexivity. }
  unfold _handle_request_body.
  destruct (str_is (JStr method) "initialize"); [apply Hsucc|].
  destruct (str_is (JStr method) "initialized").
  { exists Silent. split; [reflexivity | left; reflexivity]. }
  destruct (str_is (JStr method) "tools/list"); [apply Hsucc|].
  destruct (str_is (JStr method) "tools/call"); [apply Hsucc|].
  destruct (str_is (JStr method) "ping"); [apply (Hsucc (Ok (pong now)))|].
  simpl fst. rewrite (EngineFacts.error_response_typed idj _ _ rid Hid). simpl.
  eexists. split; [reflexivity|]. right. eexists. split; reflexivity.
Qed.

Lemma error_response_rejected idj c msg :
  validate_id idj = None -> zero_or_raise (_error_response idj c msg).
Proof.
  intros Hv. unfold _error_response, MCPResponse_new.
  destruct idj; try (rewrite Hv; exact I).
  right. eexists. eexists. reflexivity.
Qed.

Lemma inner_handler_rejected idj (res : result json) :
  validate_id idj = None ->
  zero_or_raise
    (try_except
       (let* r := res in
        let* resp := MCPResponse_new idj (Some r) None in
        Ok (Reply resp))
       (fun e => _error_response idj (-32603) ("Internal error: " +:+ exn_str e))).
Proof.
  intros Hv. destruct res as [r|e]; simpl.
  - unfold MCPResponse_new at 1. rewrite Hv. simpl.
    now apply error_response_rejected.
  - now apply error_response_rejected.
Qed.

Lemma outer_handler_rejected (x : result wire) :
  zero_or_raise x ->
  exists w,
    try_except x (fun e => _error_response JNull (-32603)
                             ("Internal error: " +:+ exn_str e)) = Ok w /\
    (w = Silent \/ exists c msg, w = error_reply (IdInt 0) c msg).
Proof.
  destruct x as [w|e]; simpl; intros H.
  - exists w. split; [reflexivity | exact H].
  - eexists. split; [reflexivity|]. right. eexists. eexists. reflexivity.
Qed.

(** A JSON object whose id cannot be the id of a response (null, a list, an
    object, ...) never gets a success response: the answer, if any, is an
    error response with the id 0. *)
Theorem rejected_id_answered_with_zero self now s fields idj :
  json_loads s = Some (JObj fields) ->
  assoc "id" fields = Some idj ->
  validate_id idj = None ->
  exists w,
    fst (handle_message self now s) = Ok w /\
    (w = Silent \/ exists c msg, w = error_reply (IdInt 0) c msg).
Proof.
  intros Hs Hid Hv. unfold handle_message. rewrite Hs. unfold handle_decoded.
  assert (Hget : get_or "id" fields JNull = idj) by (unfold get_or; now rewrite Hid).
  destruct (str_is (get_or "jsonrpc" fields JNull) "2.0"); simpl negb; cbv iota.
  - unfold py_in. rewrite Hid. unfold _handle_request. rewrite Hget.
    unfold _handle_request_body.
    destruct (str_is (get_or "method" fields JNull) "initialize").
    { unfold _handle_initialize. simpl fst.
      apply outer_handler_rejected, inner_handler_rejected, Hv. }
    destruct (str_is (get_or "method" fields JNull) "initialized").
    { exists Silent. split; [reflexivity | left; reflexivity]. }
    destruct (str_is (get_or "method" fields JNull) "tools/list").
    { simpl fst. apply outer_handler_rejected, inner_handler_rejected, Hv. }
    destruct (str_is (get_or "method" fields JNull) "tools/call").
    { simpl fst. apply outer_handler_rejected, inner_handler_rejected, Hv. }
    destruct (str_is (get_or "method" fields JNull) "ping").
    { simpl fst.
      apply outer_handler_rejected, (inner_handler_rejected idj (Ok (pong now))), Hv. }
    simpl fst. apply outer_handler_rejected.
    pose proof (error_response_rejected idj (-32601)
                  ("Method not found: " +:+ py_str (get_or "method" fields JNull)) Hv)
      as H1.
    destruct (_error_response idj (-32601) _) as [w|e]; simpl; [exact H1|].
    now apply error_response_rejected.
  - simpl fst. rewrite Hget.
    apply outer_handler_rejected, error_response_rejected, Hv.
Qed.

Lemma assoc_set_same {A : Type} k (v : A) l : assoc k (assoc_set k v l) = Some v.
Proof.
  induction l as [|[k' v'] l IH]; simpl.
  - now rewrite String.eqb_refl.
  - destruct (String.eqb k k') eqn:Hk; simpl.
    + now rewrite String.eqb_refl.
    + now rewrite Hk.
Qed.

Lemma assoc_set_other {A : Type} k k0 (v : A) l :
  k0 <> k -> assoc k0 (assoc_set k v l) = assoc k0 l.
Proof.
  intros Hne. induction l as [|[k' v'] l IH]; simpl.
  - destruct (String.eqb_spec k0 k); [contradiction | reflexivity].
  - destruct (String.eqb_spec k k') as [->|Hk]; simpl.
    + destruct (String.eqb_spec k0 k'); [contradiction | reflexivity].
    + destruct (String.eqb k0 k'); [reflexivity | exact IH].
Qed.

Lemma assoc_set_fresh {A : Type} k (v : A) l :
  assoc k l = None -> assoc_set k v l = l ++ [(k, v)].
Proof.
  induction l as [|[k' v'] l IH]; simpl; [reflexivity|].
  destruct (String.eqb k k'); [discriminate|].
  intros H. now rewrite IH.
Qed.

Lemma assoc_set_keys {A : Type} k (v old : A) l :
  assoc k l = Some old -> map fst (assoc_set k v l) = map fst l.
Proof.
  induction l as [|[k' v'] l IH]; simpl; [discriminate|].
  destruct (String.eqb_spec k k') as [->|Hk]; simpl; [reflexivity|].
  intros H. now rewrite IH.
Qed.

(** [register_tool] behaves like an assignment in a dict: the name then maps
    to the new entry, every other name is untouched, a new name goes last,
    and a name registered again keeps its place in the order of the tools.
    Nothing else of the engine changes. *)
Theorem register_tool_assigns self nm descr input_schema h :
  assoc nm (tools (register_tool self nm descr input_schema h)) =
    Some (entry nm descr input_schema h)
  /\ (forall other, other <> nm ->
        assoc other (tools (register_tool self nm descr input_schema h)) =
          assoc other (tools self))
  /\ (assoc nm (tools self) = None ->
      tools (register_tool self nm descr input_schema h) =
        tools self ++ [(nm, entry nm descr input_schema h)])
  /\ (forall old, assoc nm (tools self) = Some old ->
        map fst (tools (register_tool self nm descr input_schema h)) =
          map fst (tools self))
  /\ initialized (register_tool self nm descr input_schema h) = initialized self
  /\ client_info (register_tool self nm descr input_schema h) = client_info self
  /\ session_id (register_tool self nm descr input_schema h) = session_id self.
Proof.
  unfold register_tool, entry. simpl. repeat split.
  - apply assoc_set_same.
  - intros other Hne. now apply assoc_set_other.
  - apply assoc_set_fresh.
  - intros old. apply assoc_set_keys.
Qed.

(** On an initialised engine, [tools/list] after the registration of a new
    name returns the definitions listed before, in the same order, followed
    by the new definition. *)
Theorem listing_after_register self now s rid params nm descr input_schema h :
  request s rid "tools/list" params ->
  initialized self = true ->
  assoc nm (tools self) = None ->
  exists before,
    handle_message self now s =
      (Ok (success_reply rid (JObj [("tools", JArr before)])), self) /\
    handle_message (register_tool self nm descr input_schema h) now s =
      (Ok (success_reply rid
             (JObj [("tools",
                     JArr (before ++
                           [ToolDefinition_dump
                              {| name := nm; description := descr;
                                 inputSchema := input_schema |}]))])),
       register_tool self nm descr input_schema h).
Proof.
  intros Hreq Hi Hfresh.
  exists (map (fun kv => ToolDefinition_dump (definition (snd kv))) (tools self)).
  rewrite !(EngineFacts.tools_list_response _ now s rid _ Hreq).
  unfold _handle_tools_list, register_tool. simpl. rewrite Hi. simpl.
  split; [reflexivity|].
  rewrite (assoc_set_fresh nm _ _ Hfresh), map_app. reflexivity.
Qed.

End Facts.

(** *** Concrete runs *)

Lemma unknown_method_witness :
  request (R := Samples.runtime) (Samples.text_of 9)
    (IdInt 8) "resources/list" (JObj []) /\
  handle_message (R := Samples.runtime) Samples.with_tool "2025-01-01T00:00:00"
    (Samples.text_of 9) =
    (Ok (error_reply (IdInt 8) (-32601) "Method not found: resources/list"),
     Samples.with_tool).
Proof.
  assert (Hreq : request (R := Samples.runtime) (Samples.text_of 9)
                   (IdInt 8) "resources/list" (JObj [])).
  { exists (Samples.fields_of (nth 9 Samples.messages JNull)), (JInt 8).
    repeat split; reflexivity. }
  split; [exact Hreq|].
  exact (unknown_method (R := Samples.runtime) Samples.with_tool
           "2025-01-01T00:00:00" (Samples.text_of 9) (IdInt 8) "resources/list"
           (JObj []) Hreq eq_refl).
Defined.

Lemma initialize_with_bad_params_witness :
  request (R := runtime) (text_of 13) (IdInt 20) "initialize" (JArr [JInt 1]) /\
  handle_message (R := runtime) Samples.fresh "2025-01-01T00:00:00" (text_of 13) =
    (Ok (error_reply (IdInt 20) (-32603)
           "Internal error: 'list' object has no attribute 'get'"),
     after_initialize Samples.fresh (JArr [JInt 1])).
Proof.
  assert (Hreq : request (R := runtime) (text_of 13) (IdInt 20) "initialize"
                   (JArr [JInt 1])).
  { exists (Samples.fields_of (nth 13 messages JNull)), (JInt 20).
    repeat split; reflexivity. }
  split; [exact Hreq|].
  refine (proj1 (initialize_with_bad_params (R := runtime) Samples.fresh
                   "2025-01-01T00:00:00" (text_of 13) (IdInt 20) (JArr [JInt 1])
                   Hreq _)).
  intros fields H. discriminate H.
Defined.

Lemma response_echoes_id_witness :
  request (R := runtime) (text_of 15) (IdStr "abc") "tools/list" (JObj []) /\
  exists w,
    fst (handle_message (R := runtime) Samples.fresh "2025-01-01T00:00:00"
           (text_of 15)) = Ok w /\
    (w = Silent \/ exists r, w = Reply r /\ id r = IdStr "abc").
Proof.
  assert (Hreq : request (R := runtime) (text_of 15) (IdStr "abc") "tools/list"
                   (JObj [])).
  { exists (Samples.fields_of (nth 15 messages JNull)), (JStr "abc").
    repeat split; reflexivity. }
  split; [exact Hreq|].
  exact (response_echoes_id (R := runtime) Samples.fresh "2025-01-01T00:00:00"
           (text_of 15) (IdStr "abc") "tools/list" (JObj []) Hreq).
Defined.

Lemma rejected_id_answered_with_zero_witness :
  json_loads (Runtime := runtime) (text_of 14) = Some (nth 14 messages JNull) /\
  exists w,
    fst (handle_message (R := runtime) Samples.fresh "2025-01-01T00:00:00"
           (text_of 14)) = Ok w /\
    (w = Silent \/ exists c msg, w = error_reply (IdInt 0) c msg).
Proof.
  split; [reflexivity|].
  exact (rejected_id_answered_with_zero (R := runtime) Samples.fresh
           "2025-01-01T00:00:00" (text_of 14)
           (Samples.fields_of (nth 14 messages JNull)) JNull
           eq_refl eq_refl eq_refl).
Defined.

Lemma listing_after_register_witness :
  request (R := Samples.runtime) (Samples.text_of 5)
    (IdInt 3) "tools/list" (JObj []) /\
  exists before,
    handle_message (R := Samples.runtime) Samples.ready "2025-01-01T00:00:00"
      (Samples.text_of 5) =
      (Ok (success_reply (IdInt 3) (JObj [("tools", JArr before)])), Samples.ready) /\
    handle_message (R := Samples.runtime)
      (register_tool Samples.ready "echo" "Echo" 
         {| schema_type := "object"; properties := JObj []; required := [] |}
         (fun a => Ok a))
      "2025-01-01T00:00:00" (Samples.text_of 5) =
      (Ok (success_reply (IdInt 3)
             (JObj [("tools",
                     JArr (before ++
                           [ToolDefinition_dump
                              {| name := "echo"; description := "Echo";
                                 inputSchema :=
                                   {| schema_type := "object";
                                      properties := JObj [];
                                      required := [] |} |}]))])),
       register_tool Samples.ready "echo" "Echo"
         {| schema_type := "object"; properties := JObj []; required := [] |}
         (fun a => Ok a)).
Proof.
  assert (Hreq : request (R := Samples.runtime) (Samples.text_of 5)
                   (IdInt 3) "tools/list" (JObj [])).
  { exists (Samples.fields_of (nth 5 Samples.messages JNull)), (JInt 3).
    repeat split; reflexivity. }
  split; [exact Hreq|].
  exact (listing_after_register (R := Samples.runtime) Samples.ready
           "2025-01-01T00:00:00" (Samples.text_of 5) (IdInt 3) (JObj [])
           "echo" "Echo"
           {| schema_type := "object"; properties := JObj []; required := [] |}
           (fun a => Ok a) Hreq eq_refl eq_refl).
Defined.

End EngineExtra.

(** ** More on the connection manager *)

Module SessionsExtra.
Import Sessions SessionsMore.

(** Adding an id that is already connected replaces its record, so the
    message count starts again at zero, and does not change the number of
    connections; the other records stay.  At capacity the add is refused
    even though it would not make the table grow. *)
Theorem add_connected_id self t1 t2 cid old :
  get_connection_info self cid = Some old ->
  (len self < max_connections (config self) ->
   exists self',
     add_connection self t1 t2 cid = Ok self' /\
     len self' = len self /\
     get_connection_info self' cid = Some (new_record cid t1 t2) /\
     forall other, other <> cid ->
       get_connection_info self' other = get_connection_info self other)
  /\ (max_connections (config self) <= len self ->
      exists e, add_connection self t1 t2 cid = Raise e).
Proof.
  intros Hold. split.
  - intros Hroom. eexists.
    split; [exact (SessionsFacts.add_below_capacity self t1 t2 cid Hroom)|].
    unfold len, get_connection_info in *. simpl. repeat split.
    + rewrite map_size_insert_Some by eauto. reflexivity.
    + apply lookup_insert_eq.
    + intros other Hne. apply lookup_insert_ne. congruence.
  - intros Hfull. unfold add_connection.
    destruct (max_connections (config self) <=? len self) eqn:Hc;
      [eexists; reflexivity|].
    apply Z.leb_gt in Hc. lia.
Qed.

Lemma increment_present self cid c :
  get_connection_info self cid = Some c ->
  get_connection_info (increment_messages self cid) cid =
    Some {| conn_id := conn_id c; connected_at := connected_at c;
            last_heartbeat := last_heartbeat c;
            messages_sent := messages_sent c + 1 |}.
Proof.
  unfold get_connection_info, increment_messages. intros H. rewrite H. simpl.
  apply lookup_insert_eq.
Qed.

Lemma increment_other self cid other :
  other <> cid ->
  get_connection_info (increment_messages self cid) other =
    get_connection_info self other.
Proof.
  unfold get_connection_info, increment_messages. intros Hne.
  destruct (active_connections self !! cid); simpl; [|reflexivity].
  apply lookup_insert_ne. congruence.
Qed.

Lemma increment_len self cid : len (increment_messages self cid) = len self.
Proof.
  unfold len, increment_messages.
  destruct (active_connections self !! cid) eqn:H; simpl; [|reflexivity].
  rewrite map_size_insert_Some by eauto. reflexivity.
Qed.

(** [increment_messages] counts: after [n] calls for a connected id its
    record has [n] more messages sent and is otherwise the same; no other
    record changes, nor does the number of connections.  For an id that is
    not connected the calls do nothing. *)
Theorem messages_are_counted n self cid :
  (forall c, get_connection_info self cid = Some c ->
     get_connection_info (count_messages n cid self) cid =
       Some {| conn_id := conn_id c; connected_at := connected_at c;
               last_heartbeat := last_heartbeat c;
               messages_sent := messages_sent c + Z.of_nat n |})
  /\ (get_connection_info self cid = None -> count_messages n cid self = self)
  /\ (forall other, other <> cid ->
        get_connection_info (count_messages n cid self) other =
          get_connection_info self other)
  /\ len (count_messages n cid self) = len self.
Proof.
  unfold count_messages. induction n as [|n (IHc & IHa & IHo & IHl)].
  - simpl. repeat split; try reflexivity.
    intros c Hc. rewrite Hc. destruct c. simpl. do 2 f_equal. lia.
  - rewrite Nat.iter_succ. repeat split.
    + intros c Hc. rewrite (increment_present _ cid _ (IHc c Hc)). simpl.
      do 2 f_equal. lia.
    + intros Hnone. rewrite (IHa Hnone).
      unfold increment_messages, get_connection_info in *. now rewrite Hnone.
    + intros other Hne. rewrite increment_other by exact Hne. now apply IHo.
    + rewrite increment_len. exact IHl.
Qed.

Lemma heartbeat_present self now cid c :
  get_connection_info self cid = Some c ->
  get_connection_info (update_heartbeat self now cid) cid =
    Some {| conn_id := conn_id c; connected_at := connected_at c;
            last_heartbeat := now; messages_sent := messages_sent c |}.
Proof.
  unfold get_connection_info, update_heartbeat. intros H. rewrite H. simpl.
  apply lookup_insert_eq.
Qed.

Lemma heartbeat_other self now cid other :
  other <> cid ->
  get_connection_info (update_heartbeat self now cid) other =
    get_connection_info self other.
Proof.
  unfold get_connection_info, update_heartbeat. intros Hne.
  destruct (active_connections self !! cid); simpl; [|reflexivity].
  apply lookup_insert_ne. congruence.
Qed.

Lemma heartbeat_len self now cid : len (update_heartbeat self now cid) = len self.
Proof.
  unfold len, update_heartbeat.
  destruct (active_connections self !! cid) eqn:H; simpl; [|reflexivity].
  rewrite map_size_insert_Some by eauto. reflexivity.
Qed.

(** [update_heartbeat] changes one field of one record: the last heartbeat
    of the given id becomes the new reading.  It neither adds nor removes a
    connection, and does nothing for an id that is not connected. *)
Theorem heartbeat_touches_one_field self now cid :
  (forall c, get_connection_info self cid = Some c ->
     get_connection_info (update_heartbeat self now cid) cid =
       Some {| conn_id := conn_id c; connected_at := connected_at c;
               last_heartbeat := now; messages_sent := messages_sent c |})
  /\ (get_connection_info self cid = None -> update_heartbeat self now cid = self)
  /\ (forall other, other <> cid ->
        get_connection_info (update_heartbeat self now cid) other =
          get_connection_info self other)
  /\ len (update_heartbeat self now cid) = len self.
Proof.
  unfold get_connection_info, update_heartbeat, len. repeat split.
  - intros c Hc. rewrite Hc. simpl. apply lookup_insert_eq.
  - intros Hnone. now rewrite Hnone.
  - intros other Hne. destruct (active_connections self !! cid); simpl; [|reflexivity].
    apply lookup_insert_ne. congruence.
  - destruct (active_connections self !! cid) eqn:H; simpl; [|reflexivity].
    rewrite map_size_insert_Some by eauto. reflexivity.
Qed.

(** In every state the manager reaches, each record is stored under its own
    id and its message count is not negative. *)
Theorem records_are_consistent cfg self :
  reachable cfg self ->
  forall k c, get_connection_info self k = Some c ->
    conn_id c = k /\ 0 <= messages_sent c.
Proof.
  unfold get_connection_info.
  induction 1 as [|self self' t1 t2 cid _ IH Hadd
                  |self cid _ IH
                  |self now cid _ IH
                  |self cid _ IH]; intros k c.
  - unfold init. simpl. rewrite lookup_empty. discriminate.
  - unfold add_connection in Hadd.
    destruct (max_connections (config self) <=? len self); [discriminate|].
    injection Hadd as <-. simpl.
    destruct (decide (cid = k)) as [->|Hne].
    + rewrite lookup_insert_eq. intros [= <-]. simpl. split; [reflexivity | lia].
    + rewrite lookup_insert_ne by exact Hne. apply IH.
  - unfold remove_connection.
    destruct (active_connections self !! cid) eqn:Hl; simpl; [|apply IH].
    destruct (decide (cid = k)) as [->|Hne].
    + rewrite lookup_delete_eq. discriminate.
    + rewrite lookup_delete_ne by exact Hne. apply IH.
  - unfold update_heartbeat.
    destruct (active_connections self !! cid) as [c0|] eqn:Hl; simpl; [|apply IH].
    destruct (decide (cid = k)) as [->|Hne].
    + rewrite lookup_insert_eq. intros [= <-]. simpl. exact (IH k c0 Hl).
    + rewrite lookup_insert_ne by exact Hne. apply IH.
  - unfold increment_messages.
    destruct (active_connections self !! cid) as [c0|] eqn:Hl; simpl; [|apply IH].
    destruct (decide (cid = k)) as [->|Hne].
    + rewrite lookup_insert_eq. intros [= <-]. simpl.
      destruct (IH k c0 Hl) as [Hk Hm]. split; [exact Hk | lia].
    + rewrite lookup_insert_ne by exact Hne. apply IH.
Qed.

(** A connection that is added and then removed leaves the table as a
    removal alone would: no record under its id, every other record as
    before. *)
Theorem add_then_remove self self' t1 t2 cid :
  add_connection self t1 t2 cid = Ok self' ->
  remove_connection self' cid = remove_connection (remove_connection self cid) cid
  /\ get_connection_info (remove_connection self' cid) cid = None
  /\ (forall other, other <> cid ->
        get_connection_info (remove_connection self' cid) other =
          get_connection_info self other).
Proof.
  intros Hadd. unfold add_connection in Hadd.
  destruct (max_connections (config self) <=? len self); [discriminate|].
  injection Hadd as <-.
  assert (Hrm : remove_connection
                  (with_connections self
                     (<[cid := {| conn_id := cid; connected_at := t1;
                                  last_heartbeat := t2; messages_sent := 0 |}]>
                        (active_connections self))) cid
                = with_connections self (delete cid (active_connections self))).
  { unfold remove_connection. simpl. rewrite lookup_insert_eq.
    unfold with_connections. simpl. now rewrite delete_insert_eq. }
  rewrite Hrm. repeat split.
  - unfold remove_connection.
    destruct (active_connections self !! cid) eqn:Hl; simpl.
    + rewrite lookup_delete_eq. reflexivity.
    + rewrite Hl. unfold with_connections. rewrite delete_id by exact Hl.
      destruct self; reflexivity.
  - unfold get_connection_info. simpl. apply lookup_delete_eq.
  - intros other Hne. unfold get_connection_info. simpl.
    apply lookup_delete_ne. congruence.
Qed.

(** *** Concrete runs *)

Lemma add_connected_id_witness :
  get_connection_info two_connected "a" =
    Some {| conn_id := "a"; connected_at := 10; last_heartbeat := 40;
            messages_sent := 2 |} /\
  exists self',
    add_connection two_connected 70 71 "a" = Ok self' /\
    len self' = len two_connected /\
    get_connection_info self' "a" = Some (new_record "a" 70 71).
Proof.
  split; [reflexivity|].
  destruct (add_connected_id two_connected 70 71 "a" _ eq_refl) as [Hroom _].
  destruct (Hroom ltac:(vm_compute; reflexivity)) as (self' & H1 & H2 & H3 & _).
  exists self'. repeat split; assumption.
Defined.

Lemma two_connected_reachable : reachable three_slots two_connected.
Proof.
  assert (H0 : reachable three_slots
                 (with_connections (init three_slots)
                    (<["a" := new_record "a" 10 11]> ∅))).
  { apply (reach_add three_slots (init three_slots) _ 10 11 "a"
             (reach_init three_slots)). reflexivity. }
  pose proof (reach_increment _ _ "a" (reach_increment _ _ "a" H0)) as H2.
  pose proof (reach_heartbeat _ _ 40 "a" H2) as H3.
  apply (reach_add three_slots _ two_connected 50 51 "b" H3).
  vm_compute. reflexivity.
Qed.

Lemma records_are_consistent_witness :
  reachable three_slots two_connected /\
  get_connection_info two_connected "a" =
    Some {| conn_id := "a"; connected_at := 10; last_heartbeat := 40;
            messages_sent := 2 |} /\
  ("a" = "a" /\ 0 <= 2).
Proof.
  split; [exact two_connected_reachable|]. split; [reflexivity|].
  exact (records_are_consistent three_slots two_connected two_connected_reachable
           "a" _ eq_refl).
Defined.

Lemma add_then_remove_witness :
  add_connection two_connected 70 71 "c" =
    Ok (with_connections two_connected
          (<["c" := new_record "c" 70 71]> (active_connections two_connected))) /\
  get_connection_info
    (remove_connection
       (with_connections two_connected
          (<["c" := new_record "c" 70 71]> (active_connections two_connected)))
       "c") "c" = None.
Proof.
  assert (Hadd : add_connection two_connected 70 71 "c" =
            Ok (with_connections two_connected
                  (<["c" := new_record "c" 70 71]>
                     (active_connections two_connected)))) by reflexivity.
  split; [exact Hadd|].
  exact (proj1 (proj2 (add_then_remove two_connected _ 70 71 "c" Hadd))).
Defined.

End SessionsExtra.

(** ** More on the streaming generator *)

Module StreamExtra.
Import Sessions Stream StreamSpec StreamMore.

Section Facts.
Variable E : env.

(** The run of the generator, case by case. *)
Lemma run_cases connection_id outgoing m :
  let cid := assigned E connection_id in
  let w := snd (handle_sse_connection E connection_id outgoing (start m)) in
  match Sessions.add_connection m (now E) (now E) cid with
  | Raise e =>
      trace w = [EvAdd cid; EvYield (error_event E e); EvRemove cid] /\
      yields w = 1%nat /\
      manager w = Sessions.remove_connection m cid
  | Ok m' =>
      match consumer E 0%nat with
      | Close =>
          trace w = [EvAdd cid; EvYield (connection_event E cid); EvRemove cid] /\
          yields w = 1%nat /\
          manager w = Sessions.remove_connection m' cid
      | Throw e =>
          trace w = [EvAdd cid; EvYield (connection_event E cid);
                     EvYield (error_event E e); EvRemove cid] /\
          yields w = 2%nat /\
          manager w = Sessions.remove_connection m' cid
      | Resume =>
          let o := fst (stream_messages E cid outgoing (streaming_start E cid m')) in
          let w3 := snd (stream_messages E cid outgoing (streaming_start E cid m')) in
          manager w = Sessions.remove_connection (manager w3) cid /\
          match o with
          | Abrupt (Raised e) =>
              trace w = trace w3 ++ teardown ++
                        [EvYield (error_event E e); EvRemove cid] /\
              yields w = S (yields w3)
          | _ =>
              trace w = trace w3 ++ teardown ++ [EvRemove cid] /\
              yields w = yields w3
          end
      end
  end.
Proof.
  intros cid w. subst w. unfold handle_sse_connection.
  fold (assigned E connection_id). fold cid.
  unfold try_finally, try_except_Exception.
  destruct (Sessions.add_connection m (now E) (now E) cid) as [m'|e] eqn:Hadd.
  - set (w1 := {| manager := m'; trace := [EvAdd cid]; yields := 0 |}).
    assert (H1 : add_connection E cid (start m) = (Normal tt, w1)).
    { unfold add_connection. simpl. now rewrite Hadd. }
    rewrite (StreamFacts.seq_normal _ _ _ _ _ H1).
    set (w2 := {| manager := m';
                  trace := [EvAdd cid; EvYield (connection_event E cid)];
                  yields := 1 |}).
    destruct (consumer E 0%nat) eqn:Hc0.
    + assert (H2 : yield E (connection_event E cid) w1 = (Normal tt, w2)).
      { unfold yield. simpl. now rewrite Hc0. }
      rewrite (StreamFacts.seq_normal _ _ _ _ _ H2).
      rewrite (StreamFacts.seq_normal _ _ _ _ _
                 (eq_refl : increment_messages cid w2 = _)).
      rewrite (StreamFacts.seq_normal _ _ _ _ _
                 (eq_refl : create_task heartbeat_task _ = _)).
      rewrite (StreamFacts.seq_normal _ _ _ _ _
                 (eq_refl : create_task processor_task _ = _)).
      cbv beta.
      change (log (EvCreate processor_task) _) with (streaming_start E cid m').
      destruct (stream_messages E cid outgoing (streaming_start E cid m'))
        as [o w3].
      destruct (StreamFacts.teardown_runs E w3) as (w4 & Hrun & Htr & Hm & Hy).
      rewrite Hrun. simpl fst. simpl snd.
      destruct o as [[]|[e| |]]; simpl.
      * rewrite Htr, Hm, Hy, <- app_assoc. repeat split.
      * unfold yield. rewrite Hy, Hm, Htr.
        destruct (consumer E (yields w3)); simpl;
          rewrite <- !app_assoc; repeat split.
      * rewrite Htr, Hm, Hy, <- app_assoc. repeat split.
      * rewrite Htr, Hm, Hy, <- app_assoc. repeat split.
    + assert (H2 : yield E (connection_event E cid) w1 = (Abrupt GeneratorExit, w2)).
      { unfold yield. simpl. now rewrite Hc0. }
      rewrite (StreamFacts.seq_abrupt _ _ _ _ _ H2). simpl. repeat split.
    + assert (H2 : yield E (connection_event E cid) w1 = (Abrupt (Raised e), w2)).
      { unfold yield. simpl. now rewrite Hc0. }
      rewrite (StreamFacts.seq_abrupt _ _ _ _ _ H2).
      unfold yield. simpl. destruct (consumer E 1%nat); simpl; repeat split.
  - assert (H1 : add_connection E cid (start m)
                 = (Abrupt (Raised e), log (EvAdd cid) (start m))).
    { unfold add_connection. simpl. now rewrite Hadd. }
    rewrite (StreamFacts.seq_abrupt _ _ _ _ _ H1).
    unfold yield. simpl. destruct (consumer E 0%nat); simpl; repeat split.
Qed.

(** When admission is refused the generator yields one event, the error
    event with the refusal's message, and ends.  Its [finally] block still
    removes the record stored under the id: afterwards no connection is
    registered under it, even one that was there before; the other records
    are untouched. *)
Theorem refused_admission connection_id outgoing m e :
  Sessions.add_connection m (now E) (now E) (assigned E connection_id) = Raise e ->
  let cid := assigned E connection_id in
  let w := snd (handle_sse_connection E connection_id outgoing (start m)) in
  trace w = [EvAdd cid; EvYield (error_event E e); EvRemove cid]
  /\ manager w = Sessions.remove_connection m cid
  /\ get_connection_info (manager w) cid = None
  /\ (forall other, other <> cid ->
        get_connection_info (manager w) other = get_connection_info m other).
Proof.
  intros Hadd cid w.
  pose proof (run_cases connection_id outgoing m) as H. cbv zeta in H.
  rewrite Hadd in H. fold cid in H. fold w in H.
  destruct H as (Ht & _ & Hm).
  split; [exact Ht|]. split; [exact Hm|]. subst w. rewrite Hm. split.
  - apply SessionsFacts.lookup_remove.
  - intros other Hne. unfold get_connection_info, Sessions.remove_connection.
    destruct (active_connections m !! cid); simpl; [|reflexivity].
    apply lookup_delete_ne. congruence.
Qed.

Lemma yielded_app t1 t2 : yielded (t1 ++ t2) = yielded t1 ++ yielded t2.
Proof. unfold yielded. apply flat_map_app. Qed.

(** The streaming loop yields the events of the outgoing queue in their
    order, up to the point where it stops. *)
Lemma stream_yields_prefix cid outgoing : forall w,
  exists n,
    yielded (trace (snd (stream_messages E cid outgoing w))) =
      yielded (trace w) ++ firstn n outgoing.
Proof.
  induction outgoing as [|ev rest IH]; intros w; simpl.
  - exists 0%nat. now rewrite app_nil_r.
  - set (wy := {| manager := manager w; trace := trace w ++ [EvYield ev];
                  yields := S (yields w) |}).
    destruct (consumer E (yields w)) eqn:Hc.
    + assert (Hy : yield E ev w = (Normal tt, wy))
        by (unfold yield; now rewrite Hc).
      rewrite (StreamFacts.seq_normal _ _ _ _ _ Hy).
      rewrite (StreamFacts.seq_normal _ _ _ _ _
                 (eq_refl : increment_messages cid wy = _)).
      match goal with |- context [stream_messages E cid rest ?w0] =>
        destruct (IH w0) as [n Hn] end.
      exists (S n). rewrite Hn. unfold wy. simpl.
      rewrite !yielded_app. simpl. rewrite app_nil_r, <- app_assoc. reflexivity.
    + assert (Hy : yield E ev w = (Abrupt GeneratorExit, wy))
        by (unfold yield; now rewrite Hc).
      rewrite (StreamFacts.seq_abrupt _ _ _ _ _ Hy). simpl.
      exists 1%nat. rewrite yielded_app. reflexivity.
    + assert (Hy : yield E ev w = (Abrupt (Raised e), wy))
        by (unfold yield; now rewrite Hc).
      rewrite (StreamFacts.seq_abrupt _ _ _ _ _ Hy). simpl.
      exists 1%nat. rewrite yielded_app. reflexivity.
Qed.

(** What a client receives.  When admission is refused: one error event.
    When the connection is admitted: first the connection event with the
    assigned id, then the events of the outgoing queue in their order, as
    far as the stream got, and at the very end at most one error event. *)
Theorem events_in_order connection_id outgoing m :
  let cid := assigned E connection_id in
  let w := snd (handle_sse_connection E connection_id outgoing (start m)) in
  (forall e, Sessions.add_connection m (now E) (now E) cid = Raise e ->
     yielded (trace w) = [error_event E e])
  /\ (forall m', Sessions.add_connection m (now E) (now E) cid = Ok m' ->
        exists n tail,
          yielded (trace w) =
            connection_event E cid :: firstn n outgoing ++ tail /\
          (tail = [] \/ exists e, tail = [error_event E e])).
Proof.
  intros cid w.
  pose proof (run_cases connection_id outgoing m) as H. cbv zeta in H.
  fold cid in H. fold w in H.
  split.
  - intros e Hadd. rewrite Hadd in H. destruct H as (-> & _). reflexivity.
  - intros m' Hadd. rewrite Hadd in H.
    destruct (consumer E 0%nat).
    + destruct H as [_ H].
      destruct (stream_yields_prefix cid outgoing (streaming_start E cid m'))
        as (n & Hn).
      exists n.
      destruct (fst (stream_messages E cid outgoing (streaming_start E cid m')))
        as [[]|[e| |]]; destruct H as [-> _]; rewrite !yielded_app, Hn; simpl.
      * exists []. rewrite app_nil_r. split; [reflexivity | left; reflexivity].
      * exists [error_event E e]. split; [reflexivity | right; eauto].
      * exists []. rewrite app_nil_r. split; [reflexivity | left; reflexivity].
      * exists []. rewrite app_nil_r. split; [reflexivity | left; reflexivity].
    + destruct H as (-> & _). exists 0%nat, []. simpl.
      split; [reflexivity | left; reflexivity].
    + destruct H as (-> & _). exists 0%nat, [error_event E e]. simpl.
      split; [reflexivity | right; eauto].
Qed.

(** How the streaming loop counts its yields: the only yield at which a
    close by the consumer can have happened is the last one, and then the
    loop ended by that close. *)
Lemma stream_yields cid outgoing : forall w,
  let o := fst (stream_messages E cid outgoing w) in
  let w' := snd (stream_messages E cid outgoing w) in
  (yields w <= yields w')%nat /\
  forall k, (yields w <= k < yields w')%nat -> consumer E k = Close ->
    S k = yields w' /\ o = Abrupt GeneratorExit.
Proof.
  induction outgoing as [|ev rest IH]; intros w; simpl.
  - split; [lia|]. intros k Hk. lia.
  - set (wy := {| manager := manager w; trace := trace w ++ [EvYield ev];
                  yields := S (yields w) |}).
    destruct (consumer E (yields w)) eqn:Hc.
    + assert (Hy : yield E ev w = (Normal tt, wy))
        by (unfold yield; now rewrite Hc).
      rewrite (StreamFacts.seq_normal _ _ _ _ _ Hy).
      rewrite (StreamFacts.seq_normal _ _ _ _ _
                 (eq_refl : increment_messages cid wy = _)).
      match goal with |- context [stream_messages E cid rest ?w0] =>
        destruct (IH w0) as [Hle Hk0] end.
      unfold wy in *. simpl in Hle, Hk0. simpl. split; [lia|].
      intros k Hk Hclose.
      destruct (Nat.eq_dec k (yields w)) as [->|Hne]; [congruence|].
      apply Hk0; [lia | exact Hclose].
    + assert (Hy : yield E ev w = (Abrupt GeneratorExit, wy))
        by (unfold yield; now rewrite Hc).
      rewrite (StreamFacts.seq_abrupt _ _ _ _ _ Hy). simpl.
      split; [lia|]. intros k Hk Hclose. split; [lia | reflexivity].
    + assert (Hy : yield E ev w = (Abrupt (Raised e), wy))
        by (unfold yield; now rewrite Hc).
      rewrite (StreamFacts.seq_abrupt _ _ _ _ _ Hy). simpl.
      split; [lia|]. intros k Hk Hclose.
      assert (k = yields w) as -> by lia. congruence.
Qed.

(** Once the consumer has closed the generator at a yield, the generator
    yields nothing more: that yield is its last. *)
Theorem no_yield_after_close connection_id outgoing m k :
  let w := snd (handle_sse_connection E connection_id outgoing (start m)) in
  (k < yields w)%nat -> consumer E k = Close -> yields w = S k.
Proof.
  intros w Hk Hclose. subst w.
  pose proof (run_cases connection_id outgoing m) as H. cbv zeta in H.
  set (cid := assigned E connection_id) in *.
  set (w := snd (handle_sse_connection E connection_id outgoing (start m))) in *.
  destruct (Sessions.add_connection m (now E) (now E) cid) as [m'|e].
  - destruct (consumer E 0%nat) eqn:Hc0.
    + destruct H as [_ H].
      destruct (stream_yields cid outgoing (streaming_start E cid m')) as [Hle Hlast].
      simpl in Hle, Hlast.
      assert (Hk0 : k <> 0%nat) by (intros ->; congruence).
      destruct (fst (stream_messages E cid outgoing (streaming_start E cid m')))
        as [[]|[e| |]] eqn:Ho; destruct H as [_ Hy]; rewrite Hy in *.
      * destruct (Hlast k ltac:(lia) Hclose) as [? ?]. lia.
      * destruct (Nat.eq_dec k
                    (yields (snd (stream_messages E cid outgoing
                                    (streaming_start E cid m'))))) as [->|Hne];
          [reflexivity|].
        destruct (Hlast k ltac:(lia) Hclose) as [_ Habs]. discriminate Habs.
      * destruct (Hlast k ltac:(lia) Hclose) as [? ?]. lia.
      * destruct (Hlast k ltac:(lia) Hclose) as [? ?]. lia.
    + destruct H as (_ & Hy & _). rewrite Hy in *. lia.
    + destruct H as (_ & Hy & _). rewrite Hy in *.
      assert (k = 0 \/ k = 1)%nat as [-> | ->] by lia; [congruence | reflexivity].
  - destruct H as (_ & Hy & _). rewrite Hy in *. lia.
Qed.

End Facts.

(** *** Concrete runs *)

Lemma refused_admission_witness :
  Sessions.add_connection Samples.full 100 100 "a" =
    Raise (PyException "Max connections reached (1)") /\
  get_connection_info Samples.full "a" = Some Samples.first_connection /\
  trace (snd (handle_sse_connection Samples.leaving (Some "a") [Samples.heartbeat]
                (start Samples.full))) =
    [EvAdd "a";
     EvYield (error_event Samples.leaving
                (PyException "Max connections reached (1)"));
     EvRemove "a"] /\
  get_connection_info
    (manager (snd (handle_sse_connection Samples.leaving (Some "a")
                     [Samples.heartbeat] (start Samples.full)))) "a" = None.
Proof.
  assert (Hadd : Sessions.add_connection Samples.full (now Samples.leaving)
                   (now Samples.leaving) (assigned Samples.leaving (Some "a")) =
                 Raise (PyException "Max connections reached (1)"))
    by reflexivity.
  destruct (refused_admission Samples.leaving (Some "a") [Samples.heartbeat]
              Samples.full _ Hadd) as (Ht & _ & Hgone & _).
  split; [reflexivity|]. split; [reflexivity|]. split; [exact Ht | exact Hgone].
Defined.

Example throws_at_the_second_heartbeat :
  yielded (trace (snd (handle_sse_connection throwing (Some "a")
                         [Samples.heartbeat; Samples.heartbeat; Samples.heartbeat]
                         (start (Sessions.init Samples.one_slot))))) =
    [connection_event throwing "a"; Samples.heartbeat; Samples.heartbeat;
     error_event throwing (PyException "client error")].
Proof. vm_compute. reflexivity. Qed.

Lemma no_yield_after_close_witness :
  (1 < yields (snd (handle_sse_connection Samples.leaving (Some "a")
                      [Samples.heartbeat; Samples.heartbeat]
                      (start (Sessions.init Samples.one_slot)))))%nat /\
  consumer Samples.leaving 1 = Close /\
  yields (snd (handle_sse_connection Samples.leaving (Some "a")
                 [Samples.heartbeat; Samples.heartbeat]
                 (start (Sessions.init Samples.one_slot)))) = 2%nat.
Proof.
  assert (Hk : (1 < yields (snd (handle_sse_connection Samples.leaving (Some "a")
                                   [Samples.heartbeat; Samples.heartbeat]
                                   (start (Sessions.init Samples.one_slot)))))%nat).
  { vm_compute. lia. }
  split; [exact Hk|]. split; [reflexivity|].
  exact (no_yield_after_close Samples.leaving (Some "a")
           [Samples.heartbeat; Samples.heartbeat]
           (Sessions.init Samples.one_slot) 1%nat Hk eq_refl).
Defined.

End StreamExtra.

(** ** The message pump and the heartbeat ticker *)

Module PumpFacts.
Import Engine EngineSpec Sessions Stream Pump.

Section Facts.
Context {R : Runtime}.

(** The pump never has to report a processing error: whatever texts arrive,
    everything it puts on the outgoing queue is a [message] event, at most
    one per text. *)
Theorem pump_only_emits_messages incoming : forall engine,
  Forall (fun ev => event ev = "message")
    (fst (_process_incoming_messages engine incoming))
  /\ (length (fst (_process_incoming_messages engine incoming))
      <= length incoming)%nat.
Proof.
  induction incoming as [|[now msg] rest IH]; intros engine; simpl.
  - split; [constructor | lia].
  - destruct (EngineFacts.handle_message_total engine now msg) as (w & Hw).
    destruct (handle_message engine now msg) as [response engine']. simpl in Hw.
    subst response.
    destruct (IH engine') as [Hall Hlen].
    destruct (_process_incoming_messages engine' rest) as [later engine''].
    simpl in *. destruct w; simpl.
    + split; [exact Hall | lia].
    + split; [constructor; [reflexivity | exact Hall] | lia].
Qed.

(** A request of the data model, other than [initialized], is answered by a
    response carrying its id. *)
Lemma request_is_answered engine now s rid method params :
  request s rid method params ->
  method <> "initialized" ->
  exists r, fst (handle_message engine now s) = Ok (Reply r) /\ id r = rid.
Proof.
  intros Hreq Hne.
  destruct (EngineFacts.request_dispatch engine now s _ _ _ Hreq)
    as (idj & Hid & ->).
  simpl fst.
  assert (Hsucc : forall res : result json,
            exists r,
              try_except
                (try_except
                   (let* x := res in
                    let* resp := MCPResponse_new idj (Some x) None in
                    Ok (Reply resp))
                   (fun e => _error_response idj (-32603)
                               ("Internal error: " +:+ exn_str e)))
                (fun e => _error_response JNull (-32603)
                            ("Internal error: " +:+ exn_str e)) = Ok (Reply r) /\
              id r = rid).
  { intros res. rewrite (EngineFacts.respond_typed idj rid res Hid).
    destruct res; eexists; split; reflexivity. }
  unfold _handle_request_body.
  destruct (str_is (JStr method) "initialize"); [apply Hsucc|].
  destruct (str_is (JStr method) "initialized") eqn:Hd.
  { apply EngineFacts.str_is_eq in Hd. congruence. }
  destruct (str_is (JStr method) "tools/list"); [apply Hsucc|].
  destruct (str_is (JStr method) "tools/call"); [apply Hsucc|].
  destruct (str_is (JStr method) "ping"); [apply (Hsucc (Ok (pong now)))|].
  simpl fst. rewrite (EngineFacts.error_response_typed idj _ _ rid Hid). simpl.
  eexists. split; reflexivity.
Qed.

(** Responses leave the pump in the order the requests arrived: when every
    text is a request of the data model (none of them [initialized]), the
    pump emits exactly one event per request, and the ids of the events are
    the ids of the requests, in order. *)
Theorem pump_answers_in_order incoming rids : forall engine,
  Forall2 (fun tm rid =>
             exists method params,
               request (snd tm) rid method params /\ method <> "initialized")
          incoming rids ->
  map event_id (fst (_process_incoming_messages engine incoming)) =
    map (fun rid => Some (rpc_id_dump rid)) rids.
Proof.
  intros engine H. revert engine.
  induction H as [|[now msg] rid rest rids' (method & params & Hreq & Hne) _ IH];
    intros engine; simpl; [reflexivity|].
  destruct (request_is_answered engine now msg rid method params Hreq Hne)
    as (r & Hr & Hid).
  destruct (handle_message engine now msg) as [response engine']. simpl in Hr.
  subst response.
  specialize (IH engine').
  destruct (_process_incoming_messages engine' rest) as [later engine''].
  simpl in *. rewrite IH. unfold event_id at 1. simpl. now rewrite Hid.
Qed.

End Facts.

Lemma last_default_irrelevant {A : Type} (l : list A) : forall a d d',
  List.last (a :: l) d = List.last (a :: l) d'.
Proof.
  induction l as [|b l IH]; intros a d d'; [reflexivity|].
  change (List.last (b :: l) d = List.last (b :: l) d'). apply IH.
Qed.

(** After the ticks of the heartbeat loop, one heartbeat event per tick has
    been queued, and for a connected id the record's last heartbeat is the
    reading of the last tick while its other fields, the other records and
    the number of connections are as before. *)
Theorem heartbeats_are_recorded cid ticks : forall m,
  let evs := fst (_heartbeat_loop cid ticks m) in
  let m' := snd (_heartbeat_loop cid ticks m) in
  evs = map (fun tick => heartbeat_event (fst tick)) ticks
  /\ (forall c, get_connection_info m cid = Some c ->
        get_connection_info m' cid =
          Some {| conn_id := conn_id c; connected_at := connected_at c;
                  last_heartbeat := List.last (map snd ticks) (last_heartbeat c);
                  messages_sent := messages_sent c |})
  /\ (forall other, other <> cid ->
        get_connection_info m' other = get_connection_info m other)
  /\ len m' = len m.
Proof.
  induction ticks as [|[now_iso now] rest IH]; intros m; simpl.
  - repeat split. intros c Hc. rewrite Hc. destruct c; reflexivity.
  - specialize (IH (update_heartbeat m now cid)).
    destruct (_heartbeat_loop cid rest (update_heartbeat m now cid)) as [later m'].
    simpl in *. destruct IH as (Hev & Hrec & Hother & Hlen).
    repeat split.
    + now rewrite Hev.
    + intros c Hc.
      rewrite (Hrec _ (SessionsExtra.heartbeat_present m now cid c Hc)). simpl.
      destruct rest as [|p rest]; [reflexivity|].
      do 2 f_equal. apply last_default_irrelevant.
    + intros other Hne. rewrite (Hother other Hne).
      now apply SessionsExtra.heartbeat_other.
    + rewrite Hlen. apply SessionsExtra.heartbeat_len.
Qed.

(** *** Concrete runs *)

Lemma pump_answers_in_order_witness :
  map event_id
    (fst (_process_incoming_messages (R := Samples.runtime) Samples.with_tool
            [("2025-01-01T00:00:00", Samples.text_of 5);
             ("2025-01-01T00:00:01", Samples.text_of 8)])) =
    [Some (JInt 3); Some (JInt 6)].
Proof.
  apply (pump_answers_in_order (R := Samples.runtime)
           [("2025-01-01T00:00:00", Samples.text_of 5);
            ("2025-01-01T00:00:01", Samples.text_of 8)]
           [IdInt 3; IdInt 6] Samples.with_tool).
  repeat constructor.
  - exists "tools/list", (JObj []). split; [|discriminate].
    exists (Samples.fields_of (nth 5 Samples.messages JNull)), (JInt 3).
    repeat split; reflexivity.
  - exists "ping", (JObj []). split; [|discriminate].
    exists (Samples.fields_of (nth 8 Samples.messages JNull)), (JInt 6).
    repeat split; reflexivity.
Defined.

End PumpFacts.

(** ** More on the upstream client *)

Module ClientExtra.
Import Client ClientSpec ClientMore.

Section Facts.
Context {V : Validators}.

Lemma guarded_value {A : Type} (c : result A) (h : exn -> A) :
  try_except c (fun e => Ok (h e)) = Ok (guarded c h).
Proof. destruct c; reflexivity. Qed.

(** Every requested category holds exactly what its own accessor returned:
    its data when its call and decoding succeeded, and otherwise the
    "unhealthy" record, the empty list, or nothing for the metrics.  No
    field depends on the other categories or on which of them are
    requested. *)
Theorem requested_fields net clk p :
  let r := check_all_systems net clk p in
  (include_health p = true ->
   health r = Some (guarded (check_health_body net (t_call clk))
                      (fun e => unhealthy e (t_call clk))))
  /\ (include_users p = true ->
      users r = Some (guarded (get_user_status_body net) (fun _ => [])))
  /\ (include_services p = true ->
      services r = Some (guarded (get_services_body net) (fun _ => [])))
  /\ (include_logs p = true ->
      logs r = Some (guarded (query_logs_body net (t_call clk)
                                (effective_log_params p)) (fun _ => [])))
  /\ (include_metrics p = true ->
      metrics r = guarded (get_metrics_body net (t_call clk)) (fun _ => None)).
Proof.
  unfold effective_log_params.
  set (hv := guarded (check_health_body net (t_call clk)) _).
  set (uv := guarded (get_user_status_body net) _).
  set (sv := guarded (get_services_body net) _).
  set (lv := guarded (query_logs_body net (t_call clk) _) _).
  set (ov := guarded (get_metrics_body net (t_call clk)) _).
  assert (Hh : check_health net (t_call clk) = Ok hv)
    by (unfold check_health; apply guarded_value).
  assert (Hu : get_user_status net = Ok uv)
    by (unfold get_user_status; apply (guarded_value _ (fun _ => []))).
  assert (Hsv : get_services net = Ok sv)
    by (unfold get_services; apply (guarded_value _ (fun _ => []))).
  assert (Hl : query_logs net (t_call clk)
                 (if py_truthy (log_params p) then log_params p
                  else default_log_params) = Ok lv)
    by (unfold query_logs; apply (guarded_value _ (fun _ => []))).
  assert (Ho : get_metrics net (t_call clk) = Ok ov)
    by (unfold get_metrics; apply (guarded_value _ (fun _ => None))).
  clearbody hv uv sv lv ov.
  unfold check_all_systems, gather, build_tasks.
  destruct (include_health p), (include_users p), (include_services p),
           (include_logs p), (include_metrics p); simpl;
    rewrite ?Hh, ?Hu, ?Hsv, ?Hl, ?Ho; simpl;
    repeat split; intros; try discriminate; try reflexivity;
    destruct ov; reflexivity.
Qed.

(** When all three attempts of a call fail transiently, the call ends with
    tenacity's [RetryError], not with the last exception, after sleeping 1
    and 2 seconds. *)
Theorem retry_exhausted (net : network) (method endpoint : string) e :
  transient (net method endpoint 1%nat) ->
  transient (net method endpoint 2%nat) ->
  net method endpoint 3%nat = Failed e ->
  retry_if_exception_type e = true ->
  outcome (_request_call net method endpoint) =
    Raise (RetryError (retry_error_str e))
  /\ attempts (_request_call net method endpoint) = 3%nat
  /\ sleeps (_request_call net method endpoint) = [1; 2].
Proof.
  intros H1 H2 H3 He. unfold _request_call, stop_after_attempt.
  destruct (ClientFacts.transient_raises _ H1) as (e1 & R1 & T1).
  destruct (ClientFacts.transient_raises _ H2) as (e2 & R2 & T2).
  simpl. rewrite R1, T1. simpl. rewrite R2, T2. simpl. rewrite H3. simpl.
  rewrite He. simpl. repeat split.
Qed.

(** An exception that is neither an aiohttp client error nor a timeout ends
    the call at the attempt that raised it, and reaches the caller as it
    is. *)
Theorem other_exceptions_are_final (net : network) (method endpoint : string) n e :
  (1 <= n <= 3)%nat ->
  (forall j, (1 <= j < n)%nat -> transient (net method endpoint j)) ->
  net method endpoint n = Failed e ->
  retry_if_exception_type e = false ->
  attempts (_request_call net method endpoint) = n
  /\ outcome (_request_call net method endpoint) = Raise e.
Proof.
  intros Hn Hbefore Han He.
  assert (Hnot : ~ transient (net method endpoint n)).
  { rewrite Han. intros (e' & [= <-] & Ht).
    apply ClientFacts.retried_exceptions in Ht. congruence. }
  pose proof (ClientFacts.retrying_stops 2 1 (net method endpoint) n
                ltac:(lia) Hbefore Hnot) as Hatt.
  destruct (ClientFacts.retrying_spec 2 1 (net method endpoint))
    as (_ & _ & _ & Hend).
  unfold _request_call, stop_after_attempt. simpl Nat.sub.
  rewrite Hatt in Hend. rewrite Han in Hend. simpl in Hend. rewrite He in Hend.
  split; [exact Hatt | exact Hend].
Qed.

(** The pause after an attempt is between 1 and 10 seconds, never shrinks
    from one attempt to the next, and is 10 seconds from the fifth attempt
    on. *)
Theorem wait_exponential_bounds n :
  1 <= wait_exponential n <= 10
  /\ (forall m, (n <= m)%nat -> wait_exponential n <= wait_exponential m)
  /\ ((5 <= n)%nat -> wait_exponential n = 10).
Proof.
  unfold wait_exponential. repeat split; try lia.
  - intros m Hm.
    assert (2 ^ (Z.of_nat n - 1) <= 2 ^ (Z.of_nat m - 1))
      by (apply Z.pow_le_mono_r; lia).
    lia.
  - intros Hn.
    assert (2 ^ 4 <= 2 ^ (Z.of_nat n - 1)) by (apply Z.pow_le_mono_r; lia).
    change (2 ^ 4) with 16 in *. lia.
Qed.

Lemma first_answer (net : network) (method endpoint : string) d :
  _request_once (net method endpoint 1%nat) = Ok d ->
  _request net method endpoint = Ok d.
Proof.
  intros H. unfold _request, _request_call, stop_after_attempt. simpl.
  now rewrite H.
Qed.

(** An upstream that answers below 400 with a content type other than JSON
    is read as the empty object: the user, service and log accessors then
    return the empty list, just as they do on a failure. *)
Theorem non_json_answer_reads_empty (net : network) (now : Z) (params : json) :
  (forall method endpoint, exists status reason ct body,
     net method endpoint 1%nat = Responded status reason ct body /\
     status < 400 /\ ct <> "application/json") ->
  get_user_status net = Ok []
  /\ get_services net = Ok []
  /\ (forall d, LogQueryParams_dump params = Ok d ->
        query_logs net now params = Ok []).
Proof.
  intros Hnet.
  assert (Hreq : forall method endpoint, _request net method endpoint = Ok (JObj [])).
  { intros method endpoint.
    destruct (Hnet method endpoint) as (status & reason & ct & body & Ha & Hs & Hct).
    apply first_answer. rewrite Ha. simpl.
    destruct (String.eqb_spec ct "application/json"); [contradiction|].
    destruct (400 <=? status) eqn:Hc; [apply Z.leb_le in Hc; lia | reflexivity]. }
  repeat split.
  - unfold get_user_status, get_user_status_body. now rewrite Hreq.
  - unfold get_services, get_services_body. now rewrite Hreq.
  - intros d Hd. unfold query_logs, query_logs_body. now rewrite Hd, Hreq.
Qed.

End Facts.

(** *** Concrete runs *)

Lemma retry_exhausted_witness :
  transient (unreachable "GET" "/api/system/health" 1%nat) /\
  outcome (_request_call (V := Samples.validators) unreachable
             "GET" "/api/system/health") =
    Raise (RetryError "RetryError[]") /\
  attempts (_request_call (V := Samples.validators) unreachable
              "GET" "/api/system/health") = 3%nat.
Proof.
  assert (Ht : forall k, transient (unreachable "GET" "/api/system/health" k)).
  { intros k. exists TimeoutError. split; [reflexivity | left; reflexivity]. }
  destruct (retry_exhausted (V := Samples.validators) unreachable
              "GET" "/api/system/health" TimeoutError
              (Ht 1%nat) (Ht 2%nat) eq_refl eq_refl) as (Ho & Ha & _).
  split; [apply Ht|]. split; [exact Ho | exact Ha].
Defined.

Lemma other_exceptions_are_final_witness :
  garbled "GET" "/api/system/health" 1%nat =
    Failed (ValueError "Expecting value: line 1 column 1 (char 0)") /\
  attempts (_request_call (V := Samples.validators) garbled
              "GET" "/api/system/health") = 1%nat /\
  outcome (_request_call (V := Samples.validators) garbled
             "GET" "/api/system/health") =
    Raise (ValueError "Expecting value: line 1 column 1 (char 0)").
Proof.
  split; [reflexivity|].
  apply (other_exceptions_are_final (V := Samples.validators) garbled
           "GET" "/api/system/health" 1%nat
           (ValueError "Expecting value: line 1 column 1 (char 0)"));
    [lia | intros j Hj; lia | reflexivity | reflexivity].
Defined.

Lemma non_json_answer_reads_empty_witness :
  html_pages "GET" "/api/users/status" 1%nat =
    Responded 200 "OK" "text/html" (JStr "<html></html>") /\
  get_user_status (V := Samples.validators) html_pages = Ok [] /\
  get_services (V := Samples.validators) html_pages = Ok [].
Proof.
  split; [reflexivity|].
  destruct (non_json_answer_reads_empty (V := Samples.validators) html_pages
              0 JNull) as (Hu & Hs & _).
  { intros method endpoint.
    exists 200, "OK", "text/html", (JStr "<html></html>").
    split; [reflexivity|]. split; [lia | discriminate]. }
  split; [exact Hu | exact Hs].
Defined.

End ClientExtra.

(** ** The system-check tool *)

Module ToolFacts.
Import Tool SystemCheck.

Section Facts.
Context {V : Validators} {Q : Searches} {I : Interpreter}.

(** The success flag and the error entry of a report. *)
Lemma format_flags result intent :
  assoc "success" (_format_result result intent) =
    Some (JBool (match errors result with [] => true | _ => false end))
  /\ assoc "errors" (_format_result result intent) =
       match errors result with
       | [] => None
       | errs => Some (JArr (map JStr errs))
       end.
Proof.
  destruct result as [h u s l m t x errs]. unfold _format_result. simpl.
  destruct h, u as [[|? ?]|], s as [[|? ?]|], l as [[|? ?]|], m, errs;
    split; reflexivity.
Qed.

(** Whether a category has an entry in the report, computed. *)
Lemma category_entry result intent category :
  In category ["health"; "users"; "services"; "logs"; "metrics"] ->
  match assoc category (_format_result result intent) with
  | Some _ => true
  | None => false
  end = existsb (String.eqb category) (checks_performed result).
Proof.
  intros Hin. simpl in Hin.
  destruct result as [h u s l m t x errs]. unfold _format_result, checks_performed.
  cbn [health users services logs metrics errors].
  destruct Hin as [<-|[<-|[<-|[<-|[<-|[]]]]]];
    destruct h, u as [[|? ?]|], s as [[|? ?]|], l as [[|? ?]|], m, errs;
    reflexivity.
Qed.

(** A report says what the result holds: its success flag is true exactly
    when the result has no error, and then it has no "errors" entry; its
    summary counts the errors and names the categories whose field is
    present and, for a list, not empty; and exactly those categories have an
    entry of their own in the report. *)
Theorem report_matches_result result intent :
  assoc "success" (_format_result result intent) =
    Some (JBool (match errors result with [] => true | _ => false end))
  /\ assoc "errors" (_format_result result intent) =
       match errors result with
       | [] => None
       | errs => Some (JArr (map JStr errs))
       end
  /\ assoc "summary" (_format_result result intent) =
       Some (JObj [("checks_performed", JArr (map JStr (checks_performed result)));
                   ("total_checks",
                    JInt (Z.of_nat (length (checks_performed result))));
                   ("errors_count", JInt (Z.of_nat (length (errors result))))])
  /\ (forall category,
        In category ["health"; "users"; "services"; "logs"; "metrics"] ->
        (assoc category (_format_result result intent) <> None <->
         In category (checks_performed result))).
Proof.
  destruct (format_flags result intent) as [Hs He].
  split; [exact Hs|]. split; [exact He|].
  destruct result as [h u s l m t x errs]. unfold _format_result, checks_performed.
  simpl.
  split.
  - destruct h, u as [[|? ?]|], s as [[|? ?]|], l as [[|? ?]|], m, errs;
      reflexivity.
  - intros category Hin.
    pose proof (category_entry
                  {| health := h; users := u; services := s; logs := l;
                     metrics := m; timestamp := t; execution_time_us := x;
                     errors := errs |} intent category Hin) as Hb.
    unfold _format_result, checks_performed in Hb. simpl in Hb.
    match goal with |- ?lhs <> None <-> In _ ?chk =>
      assert (Hex : existsb (String.eqb category) chk = true <-> In category chk)
    end.
    { rewrite existsb_exists. split.
      - intros (y & Hy & Heq). apply String.eqb_eq in Heq. now subst y.
      - intros Hc. exists category. split; [exact Hc | apply String.eqb_refl]. }
    rewrite <- Hex, <- Hb.
    match goal with |- ?lhs <> None <-> _ => destruct lhs end;
      split; intros; congruence.
Qed.

Lemma breakdown_general entries : forall acc lvl,
  assoc lvl (level_breakdown entries acc) =
    match assoc lvl acc with
    | Some n => Some (n + count_status le_level lvl entries)
    | None =>
        if count_status le_level lvl entries =? 0 then None
        else Some (count_status le_level lvl entries)
    end.
Proof.
  unfold count_status.
  induction entries as [|e rest IH]; intros acc lvl; simpl.
  - destruct (assoc lvl acc); [f_equal; lia | reflexivity].
  - rewrite IH.
    destruct (String.eqb_spec (le_level e) lvl) as [<-|Hne].
    + rewrite EngineExtra.assoc_set_same. simpl length.
      destruct (assoc (le_level e) acc) as [n|].
      * f_equal. lia.
      * destruct (Z.eqb_spec
                    (Z.of_nat
                       (S (length
                             (List.filter
                                (fun x => String.eqb (le_level x) (le_level e))
                                rest)))) 0); [lia|].
        f_equal. lia.
    + rewrite EngineExtra.assoc_set_other by congruence. reflexivity.
Qed.

(** The level breakdown of a report counts: a level has an entry exactly
    when some log has it, and the entry is the number of logs of that
    level. *)
Theorem level_breakdown_counts entries lvl :
  assoc lvl (level_breakdown entries []) =
    if count_status le_level lvl entries =? 0 then None
    else Some (count_status le_level lvl entries).
Proof.
  pose proof (breakdown_general entries [] lvl) as H.
  simpl in H. exact H.
Qed.

(** Whatever the query, the plan built from it requests at least one
    category; it carries log parameters exactly when logs are requested, and
    then always a timeframe and the limit 100, so the client's own default
    is never used for them.  A query matching the "all" patterns requests
    the five categories with the timeframe "1h" and no other log filter. *)
Theorem plan_of_any_query query :
  (Client.include_health (to_api_params (parse query))
   || Client.include_users (to_api_params (parse query))
   || Client.include_services (to_api_params (parse query))
   || Client.include_logs (to_api_params (parse query))
   || Client.include_metrics (to_api_params (parse query)) = true)%bool
  /\ (Client.include_logs (to_api_params (parse query)) = false ->
      Client.log_params (to_api_params (parse query)) = JNull)
  /\ (Client.include_logs (to_api_params (parse query)) = true ->
      exists timeframe filters,
        Client.log_params (to_api_params (parse query)) =
          JObj (("timeframe", JStr timeframe) :: ("limit", JInt 100) :: filters))
  /\ (_match_patterns (lower_strip query) "all" = true ->
      to_api_params (parse query) =
        {| Client.include_health := true; Client.include_users := true;
           Client.include_services := true; Client.include_logs := true;
           Client.include_metrics := true;
           Client.log_params :=
             JObj [("timeframe", JStr "1h"); ("limit", JInt 100)] |}).
Proof.
  unfold parse.
  destruct (_match_patterns (lower_strip query) "all").
  - simpl. repeat split; try discriminate. intros _. eexists. eexists. reflexivity.
  - split; [|split; [|split]]; [| | |discriminate].
    + unfold to_api_params.
      cbn [Client.include_health Client.include_users Client.include_services
           Client.include_logs Client.include_metrics
           check_health check_users check_services check_logs check_metrics].
      destruct (_match_patterns (lower_strip query) "health"),
               (_match_patterns (lower_strip query) "users"),
               (_match_patterns (lower_strip query) "services"),
               (_match_patterns (lower_strip query) "logs"),
               (_match_patterns (lower_strip query) "metrics"); reflexivity.
    + unfold to_api_params.
      cbn [Client.include_logs Client.log_params check_logs].
      now intros ->.
    + unfold to_api_params.
      cbn [Client.include_logs Client.log_params check_logs log_timeframe].
      intros ->. eexists. eexists. reflexivity.
Qed.

(** The fan-out reports no error. *)
Lemma no_errors net clk p : errors (Client.check_all_systems net clk p) = [].
Proof.
  unfold Client.check_all_systems, Client.gather.
  pose proof (ClientFacts.tasks_all_return net clk p) as Hall.
  destruct (Client.build_tasks net clk p) as [names tasks]. simpl in Hall.
  pose proof (ClientFacts.parse_results_no_errors names tasks [] [] Hall) as Herr.
  destruct (Client.parse_results (combine names tasks) [] []) as [errs dict].
  simpl in *. exact Herr.
Qed.

(** [execute] raises for params that are not an object (they have no
    [get]) and for nothing else.  For an object it returns the failure
    report when the query could not be parsed or the filters not applied,
    and otherwise the report of the aggregation, whose success flag is true
    and which has no "errors" entry, whatever the upstream did.  A string
    query without filters always takes the second path. *)
Theorem execute_reports net clk now_iso params :
  ((forall fields, params <> JObj fields) ->
   execute net clk now_iso params = Raise (no_get params))
  /\ (forall fields, params = JObj fields ->
        exists out,
          execute net clk now_iso params = Ok (JObj out) /\
          match intent_of (get_or "query" fields (JStr ""))
                  (get_or "filters" fields (JObj [])) with
          | Ok _ => assoc "success" out = Some (JBool true) /\
                    assoc "errors" out = None
          | Raise e => JObj out = failure e now_iso
          end)
  /\ (forall fields q,
        params = JObj fields ->
        get_or "query" fields (JStr "") = JStr q ->
        Client.py_truthy (get_or "filters" fields (JObj [])) = false ->
        exists out,
          execute net clk now_iso params = Ok (JObj out) /\
          assoc "success" out = Some (JBool true) /\
          assoc "errors" out = None).
Proof.
  assert (Hrun : forall fields intent,
            intent_of (get_or "query" fields (JStr ""))
              (get_or "filters" fields (JObj [])) = Ok intent ->
            exists out,
              execute net clk now_iso (JObj fields) = Ok (JObj out) /\
              assoc "success" out = Some (JBool true) /\
              assoc "errors" out = None).
  { intros fields intent Hi. unfold execute. simpl. rewrite Hi. simpl.
    eexists. split; [reflexivity|].
    destruct (format_flags
                (Client.check_all_systems net clk (to_api_params intent)) intent)
      as [Hs He].
    rewrite no_errors in Hs, He. split; assumption. }
  split; [|split].
  - intros Hp. unfold execute.
    destruct params; try reflexivity. exfalso. eapply Hp. reflexivity.
  - intros fields ->.
    destruct (intent_of (get_or "query" fields (JStr ""))
                (get_or "filters" fields (JObj []))) as [intent|e] eqn:Hi.
    + destruct (Hrun fields intent Hi) as (out & H1 & H2 & H3).
      exists out. repeat split; assumption.
    + unfold execute. simpl. rewrite Hi. simpl. eexists. split; reflexivity.
  - intros fields q -> Hq Hf.
    apply (Hrun fields (parse q)).
    unfold intent_of, apply_filters. rewrite Hq, Hf. reflexivity.
Qed.

End Facts.

(** *** Concrete runs *)

Lemma execute_reports_witness :
  get_or "query" [("query", JStr "users and logs")] (JStr "") =
    JStr "users and logs" /\
  exists out,
    execute (V := Samples.validators) (S := keywords) (I := cpython)
      ClientMore.unreachable Samples.readings "2025-01-01T00:00:00"
      (JObj [("query", JStr "users and logs")]) = Ok (JObj out) /\
    assoc "success" out = Some (JBool true) /\
    assoc "errors" out = None.
Proof.
  split; [reflexivity|].
  destruct (execute_reports (V := Samples.validators) (Q := keywords)
              (I := cpython) ClientMore.unreachable Samples.readings
              "2025-01-01T00:00:00" (JObj [("query", JStr "users and logs")]))
    as (_ & _ & H).
  exact (H [("query", JStr "users and logs")] "users and logs"
           eq_refl eq_refl eq_refl).
Defined.

Example unreachable_upstream_report :
  execute (V := Samples.validators) (S := keywords) (I := cpython)
    ClientMore.unreachable Samples.readings "2025-01-01T00:00:00"
    (JObj [("query", JStr "users and logs")]) =
  Ok (JObj [("success", JBool true);
            ("timestamp", JStr "1251");
            ("execution_time_ms", JFloat 250 (-3));
            ("query", JStr "users and logs");
            ("confidence", JFloat 80 (-2));
            ("summary",
             JObj [("checks_performed", JArr []);
                   ("total_checks", JInt 0);
                   ("errors_count", JInt 0)])]).
Proof. vm_compute. reflexivity. Qed.

End ToolFacts.
